(** * AgentGovern-OS: passports, policy bundles, edge enforcement, ledgers

    A shallow embedding of the governance core of the repository:

    - [services/identity-service/passport.py]            (module [Passport])
    - [services/governance-api/policy/distribution.py]   (module [Distribution])
    - [services/governance-api/policy/prophecy.py]       (module [Prophecy])
    - [services/governance-api/routers/sentinel.py]      (module [Sentinel])
    - [services/crewai-engine/ancestor/decision_ledger.py] (module [Ancestor])
    - [services/edge-gateway/identity/*.py], [main.py]   (module [Edge])

    Python values that cross module boundaries as JSON (rule dictionaries,
    claims, hash payloads) are values of [Py.pyval]; Python [float] is the
    kernel's binary64 [float]; [hashlib.sha256] is computed by [Sha256].

    Conventions.  A Python [dict] is an association list in insertion
    order, a [set] of strings a [gset string], a [set] of arbitrary
    hashable values a duplicate-free list.  A method that mutates [self]
    takes the object and returns the new one.  What Python reads from its
    environment ([uuid4], [datetime.now], an HTTP answer, the PyJWT
    library) is an argument of the function that reads it.  A raised
    exception is [None], [inl] or a constructor of the result type.
    A string that is serialized or hashed is a sequence of code points
    below 256, one per character; [json.dumps] escapes all of them outside
    printable ASCII, so the bytes hashed are ASCII.  Message texts are kept
    as the bytes of the source file.  A query with [ORDER BY] is a stable
    insertion sort of the stored rows. *)

From Stdlib Require Import ZArith List String Ascii Bool Lia Floats DecimalString.
From stdpp Require Import base gmap sets strings sorting.
Import ListNotations.

Set Warnings "-register-all,-inexact-float".

#[local] Open Scope Z_scope.
#[local] Open Scope string_scope.
#[local] Open Scope list_scope.

(** String concatenation, written as Python's [+] on [str]. *)
#[local] Infix "+++" := String.append (right associativity, at level 60).

(** ** SHA-256 (FIPS 180-4), as [hashlib.sha256(data).hexdigest()] *)

Module Sha256.

Definition mask32 : Z := 4294967295.
Definition wrap (x : Z) : Z := Z.land x mask32.
Definition plus32 (x y : Z) : Z := wrap (x + y).
Definition rotr (n x : Z) : Z :=
  Z.lor (Z.shiftr x n) (wrap (Z.shiftl x (32 - n))).

Definition choose (e f g : Z) : Z :=
  Z.lxor (Z.land e f) (Z.land (Z.lxor e mask32) g).
Definition majority (a b c : Z) : Z :=
  Z.lxor (Z.lxor (Z.land a b) (Z.land a c)) (Z.land b c).
Definition big_sigma0 (a : Z) : Z :=
  Z.lxor (Z.lxor (rotr 2 a) (rotr 13 a)) (rotr 22 a).
Definition big_sigma1 (e : Z) : Z :=
  Z.lxor (Z.lxor (rotr 6 e) (rotr 11 e)) (rotr 25 e).
Definition small_sigma0 (x : Z) : Z :=
  Z.lxor (Z.lxor (rotr 7 x) (rotr 18 x)) (Z.shiftr x 3).
Definition small_sigma1 (x : Z) : Z :=
  Z.lxor (Z.lxor (rotr 17 x) (rotr 19 x)) (Z.shiftr x 10).

(** Fractional parts of the cube roots of the first 64 primes. *)
Definition round_constants : list Z :=
  [1116352408; 1899447441; 3049323471; 3921009573; 961987163; 1508970993;
   2453635748; 2870763221; 3624381080; 310598401; 607225278; 1426881987;
   1925078388; 2162078206; 2614888103; 3248222580; 3835390401; 4022224774;
   264347078; 604807628; 770255983; 1249150122; 1555081692; 1996064986;
   2554220882; 2821834349; 2952996808; 3210313671; 3336571891; 3584528711;
   113926993; 338241895; 666307205; 773529912; 1294757372; 1396182291;
   1695183700; 1986661051; 2177026350; 2456956037; 2730485921; 2820302411;
   3259730800; 3345764771; 3516065817; 3600352804; 4094571909; 275423344;
   430227734; 506948616; 659060556; 883997877; 958139571; 1322822218;
   1537002063; 1747873779; 1955562222; 2024104815; 2227730452; 2361852424;
   2428436474; 2756734187; 3204031479; 3329325298].

Record regs := Regs { ra : Z; rb : Z; rc : Z; rd : Z;
                      re : Z; rf : Z; rg : Z; rh : Z }.

(** Fractional parts of the square roots of the first 8 primes. *)
Definition initial_regs : regs :=
  Regs 1779033703 3144134277 1013904242 2773480762
       1359893119 2600822924 528734635 1541459225.

Definition word_at (win : list Z) (i : nat) : Z := nth i win 0.

(** One round.  [win] is the sliding window W[t], ..., W[t+15] of the message
    schedule; the round consumes W[t] and appends W[t+16]. *)
Definition round (st : regs * list Z) (k : Z) : regs * list Z :=
  let '(r, win) := st in
  let t1 := plus32 (plus32 (plus32 (plus32 (rh r) (big_sigma1 (re r)))
                                   (choose (re r) (rf r) (rg r))) k)
                   (word_at win 0) in
  let t2 := plus32 (big_sigma0 (ra r)) (majority (ra r) (rb r) (rc r)) in
  let next := plus32 (plus32 (plus32 (small_sigma1 (word_at win 14))
                                     (word_at win 9))
                             (small_sigma0 (word_at win 1)))
                     (word_at win 0) in
  (Regs (plus32 t1 t2) (ra r) (rb r) (rc r) (plus32 (rd r) t1) (re r) (rf r) (rg r),
   tl win ++ [next]).

Definition compress (r : regs) (block : list Z) : regs :=
  let r' := fst (fold_left round round_constants (r, block)) in
  Regs (plus32 (ra r) (ra r')) (plus32 (rb r) (rb r')) (plus32 (rc r) (rc r'))
       (plus32 (rd r) (rd r')) (plus32 (re r) (re r')) (plus32 (rf r) (rf r'))
       (plus32 (rg r) (rg r')) (plus32 (rh r) (rh r')).

(** Big-endian bytes of [x], [n] of them. *)
Fixpoint be_bytes (n : nat) (x : Z) : list Z :=
  match n with
  | O => []
  | S n' => be_bytes n' (Z.shiftr x 8) ++ [Z.land x 255]
  end.

Definition pad (msg : list Z) : list Z :=
  let len := Z.of_nat (length msg) in
  let zeros := Z.to_nat ((55 - len) mod 64) in
  msg ++ [128] ++ repeat 0 zeros ++ be_bytes 8 (8 * len).

Fixpoint words (bytes : list Z) : list Z :=
  match bytes with
  | b0 :: b1 :: b2 :: b3 :: rest =>
      (Z.shiftl b0 24 + Z.shiftl b1 16 + Z.shiftl b2 8 + b3) :: words rest
  | _ => []
  end.

Fixpoint absorb (fuel : nat) (r : regs) (ws : list Z) : regs :=
  match fuel, ws with
  | S fuel', _ :: _ => absorb fuel' (compress r (firstn 16 ws)) (skipn 16 ws)
  | _, _ => r
  end.

Definition digest_words (msg : list Z) : list Z :=
  let ws := words (pad msg) in
  let r := absorb (length ws) initial_regs ws in
  [ra r; rb r; rc r; rd r; re r; rf r; rg r; rh r].

Definition hex_digit (d : Z) : ascii :=
  ascii_of_nat (Z.to_nat (if Z.ltb d 10 then 48 + d else 87 + d)).

Fixpoint hex_of (n : nat) (x : Z) : string :=
  match n with
  | O => EmptyString
  | S n' => hex_of n' (Z.shiftr x 4) +++ String (hex_digit (Z.land x 15)) EmptyString
  end.

Definition bytes_of_string (s : string) : list Z :=
  map (fun c => Z.of_nat (nat_of_ascii c)) (list_ascii_of_string s).

(** [hashlib.sha256(s.encode()).hexdigest()] for a string of byte-sized
    characters. *)
Definition hexdigest (s : string) : string :=
  String.concat "" (map (hex_of 8) (digest_words (bytes_of_string s))).

End Sha256.

(** ** Python values and the built-ins the services rely on *)

Module Py.

(** *** Floats: exact value, [round(x, n)], [repr(x)] *)

(** Exact value of a float: [XFin m e] is [m * 2^e]. *)
Inductive xreal :=
| XNaN
| XInf (negative : bool)
| XFin (m e : Z).

Definition xreal_of_float (x : float) : xreal :=
  match Prim2SF x with
  | S754_nan => XNaN
  | S754_infinity s => XInf s
  | S754_zero _ => XFin 0 0
  | S754_finite s m e => XFin (if s then Z.neg m else Z.pos m) e
  end.

(** Three-way comparison of exact values; [None] when a NaN is involved. *)
Definition xcompare (a b : xreal) : option comparison :=
  match a, b with
  | XNaN, _ | _, XNaN => None
  | XInf sa, XInf sb =>
      Some (if sa then (if sb then Eq else Lt) else (if sb then Gt else Eq))
  | XInf sa, XFin _ _ => Some (if sa then Lt else Gt)
  | XFin _ _, XInf sb => Some (if sb then Gt else Lt)
  | XFin ma ea, XFin mb eb =>
      let e := Z.min ea eb in
      Some (Z.compare (Z.shiftl ma (ea - e)) (Z.shiftl mb (eb - e)))
  end.

(** Nearest integer to [n / d] ([d > 0], [n >= 0]), ties to the even one. *)
Definition div_half_even (n d : Z) : Z :=
  let q := n / d in
  let r := n mod d in
  match Z.compare (2 * r) d with
  | Lt => q
  | Gt => q + 1
  | Eq => if Z.even q then q else q + 1
  end.

(** The float nearest to [(-1)^s * n / d]: a correctly rounded division. *)
Definition float_of_ratio (s : bool) (n d : positive) : float :=
  SF2Prim (SFdiv prec emax (S754_finite s n 0) (S754_finite false d 0)).

(** [round(x, ndigits)] for [ndigits >= 0]: the exact value is rounded to
    [ndigits] decimals, ties to even, and the nearest float to that decimal
    is returned (CPython rounds through its correctly rounded decimal
    conversions). *)
Definition py_round (x : float) (ndigits : nat) : float :=
  match Prim2SF x with
  | S754_finite s m e =>
      let scale := 10 ^ Z.of_nat ndigits in
      let d :=
        if Z.leb 0 e then Z.pos m * 2 ^ e * scale
        else div_half_even (Z.pos m * scale) (2 ^ (- e)) in
      match d, scale with
      | Z.pos dp, Z.pos sp => float_of_ratio s dp sp
      | _, _ => if s then neg_zero else zero
      end
  | _ => x
  end.

Definition digit_char (d : Z) : ascii := ascii_of_nat (Z.to_nat (48 + d)).

(** Shortest digit string that reads back as the float (free-format digit
    generation).  Working state: the value is [r / s], half the gaps to the
    neighbouring floats are [mplus / s] and [mminus / s]. *)
Fixpoint scale_up (fuel : nat) (incl : bool) (r s mplus : Z) (k : Z) : Z * Z :=
  match fuel with
  | O => (s, k)
  | S fuel' =>
      if (if incl then Z.leb s (r + mplus) else Z.ltb s (r + mplus))
      then scale_up fuel' incl r (s * 10) mplus (k + 1)
      else (s, k)
  end.

Fixpoint scale_down (fuel : nat) (incl : bool) (r s mplus mminus : Z) (k : Z)
  : Z * Z * Z * Z :=
  match fuel with
  | O => (r, mplus, mminus, k)
  | S fuel' =>
      if (if incl then Z.ltb ((r + mplus) * 10) s else Z.leb ((r + mplus) * 10) s)
      then scale_down fuel' incl (r * 10) s (mplus * 10) (mminus * 10) (k - 1)
      else (r, mplus, mminus, k)
  end.

Fixpoint gen_digits (fuel : nat) (incl : bool) (r s mplus mminus : Z) : list Z :=
  match fuel with
  | O => []
  | S fuel' =>
      let d := (r * 10) / s in
      let r' := (r * 10) mod s in
      let mp := mplus * 10 in
      let mm := mminus * 10 in
      let low := if incl then Z.leb r' mm else Z.ltb r' mm in
      let high := if incl then Z.leb s (r' + mp) else Z.ltb s (r' + mp) in
      match low, high with
      | false, false => d :: gen_digits fuel' incl r' s mp mm
      | true, false => [d]
      | false, true => [d + 1]
      | true, true =>
          match Z.compare (2 * r') s with
          | Lt => [d]
          | Gt => [d + 1]
          | Eq => if Z.even d then [d] else [d + 1]
          end
      end
  end.

(** Digits [d1 d2 ...] and decimal point position [k]: the float prints as
    [0.d1d2... * 10^k]. *)
Definition shortest_digits (m : positive) (e : Z) : list Z * Z :=
  let f := Z.pos m in
  let incl := Z.even f in
  let boundary := andb (Z.eqb f (2 ^ 52)) (Z.ltb (-1074) e) in
  let '(r, s, mplus, mminus) :=
    if Z.leb 0 e then
      if boundary then (f * 2 ^ e * 4, 4, 2 ^ (e + 1), 2 ^ e)
      else (f * 2 ^ e * 2, 2, 2 ^ e, 2 ^ e)
    else
      if boundary then (f * 4, 2 ^ (2 - e), 2, 1)
      else (f * 2, 2 ^ (1 - e), 1, 1) in
  let '(s1, k1) := scale_up 400 incl r s mplus 0 in
  let '(r2, mplus2, mminus2, k2) := scale_down 400 incl r s1 mplus mminus k1 in
  (gen_digits 25 incl r2 s1 mplus2 mminus2, k2).

Definition string_of_digits (ds : list Z) : string :=
  string_of_list_ascii (map digit_char ds).

Definition string_of_Z (z : Z) : string :=
  NilZero.string_of_int (Z.to_int z).

Definition zeros (n : Z) : string :=
  string_of_list_ascii (repeat "0"%char (Z.to_nat n)).

(** [repr(x)] of a finite non-zero magnitude: fixed notation when the
    decimal point position lies in (-4, 16], exponent notation otherwise. *)
Definition repr_finite (m : positive) (e : Z) : string :=
  let '(ds, k) := shortest_digits m e in
  let n := Z.of_nat (length ds) in
  if andb (Z.ltb (-4) k) (Z.leb k 16) then
    if Z.leb k 0 then "0." +++ zeros (- k) +++ string_of_digits ds
    else if Z.leb n k then string_of_digits ds +++ zeros (k - n) +++ ".0"
    else string_of_digits (firstn (Z.to_nat k) ds) +++ "."
         +++ string_of_digits (skipn (Z.to_nat k) ds)
  else
    let x := k - 1 in
    let mant :=
      match ds with
      | [] => ""
      | [d] => string_of_digits [d]
      | d :: rest => string_of_digits [d] +++ "." +++ string_of_digits rest
      end in
    let ax := Z.abs x in
    mant +++ "e" +++ (if Z.ltb x 0 then "-" else "+")
         +++ (if Z.ltb ax 10 then "0" else "") +++ string_of_Z ax.

Definition float_repr (x : float) : string :=
  match Prim2SF x with
  | S754_nan => "nan"
  | S754_infinity s => if s then "-inf" else "inf"
  | S754_zero s => if s then "-0.0" else "0.0"
  | S754_finite s m e => (if s then "-" else "") +++ repr_finite m e
  end.

(** *** JSON-shaped values

    Dictionaries keep insertion order and have string keys; [dict_set]
    overwrites in place, as assignment to an existing key does. *)

Inductive pyval :=
| PNone
| PBool (b : bool)
| PInt (z : Z)
| PFloat (x : float)
| PStr (s : string)
| PList (items : list pyval)
| PDict (items : list (string * pyval)).

Definition dict := list (string * pyval).

Fixpoint dict_get (d : dict) (k : string) : option pyval :=
  match d with
  | [] => None
  | (k', v) :: rest => if String.eqb k' k then Some v else dict_get rest k
  end.

(** [d.get(k, dflt)] *)
Definition get_or (d : dict) (k : string) (dflt : pyval) : pyval :=
  match dict_get d k with Some v => v | None => dflt end.

Fixpoint dict_set (d : dict) (k : string) (v : pyval) : dict :=
  match d with
  | [] => [(k, v)]
  | (k', v') :: rest =>
      if String.eqb k' k then (k', v) :: rest else (k', v') :: dict_set rest k v
  end.

(** A dictionary display [{k1: v1, **d, k2: v2}] read left to right. *)
Definition dict_of (items : list (string * pyval)) : dict :=
  fold_left (fun d kv => dict_set d (fst kv) (snd kv)) items [].

Definition is_str (v : pyval) (s : string) : bool :=
  match v with PStr t => String.eqb t s | _ => false end.

Definition xreal_of (v : pyval) : option xreal :=
  match v with
  | PBool b => Some (XFin (if b then 1 else 0) 0)
  | PInt z => Some (XFin z 0)
  | PFloat x => Some (xreal_of_float x)
  | _ => None
  end.

(** [a == b] *)
Fixpoint py_eq (a b : pyval) : bool :=
  match a, b with
  | PNone, PNone => true
  | PStr s, PStr t => String.eqb s t
  | PList la, PList lb =>
      (fix all2 (la lb : list pyval) : bool :=
         match la, lb with
         | [], [] => true
         | x :: la', y :: lb' => py_eq x y && all2 la' lb'
         | _, _ => false
         end) la lb
  | PDict da, PDict db =>
      Nat.eqb (length da) (length db)
      && forallb (fun kv => match dict_get db (fst kv) with
                            | Some w => py_eq (snd kv) w
                            | None => false
                            end) da
  | _, _ =>
      match xreal_of a, xreal_of b with
      | Some x, Some y => match xcompare x y with Some Eq => true | _ => false end
      | _, _ => false
      end
  end.

(** [a <= b]; [None] is [TypeError]. *)
Fixpoint py_le (a b : pyval) : option bool :=
  match a, b with
  | PStr s, PStr t => Some (String.leb s t)
  | PList la, PList lb =>
      (fix lex (la lb : list pyval) : option bool :=
         match la, lb with
         | [], _ => Some true
         | _ :: _, [] => Some false
         | x :: la', y :: lb' => if py_eq x y then lex la' lb' else py_le x y
         end) la lb
  | _, _ =>
      match xreal_of a, xreal_of b with
      | Some x, Some y =>
          Some (match xcompare x y with Some Lt | Some Eq => true | _ => false end)
      | _, _ => None
      end
  end.

(** [a >= b] *)
Definition py_ge (a b : pyval) : option bool := py_le b a.

(** [a > b] on floats, as [float.__gt__]. *)
Definition float_gt (a b : float) : bool := PrimFloat.ltb b a.
Definition float_ge (a b : float) : bool := PrimFloat.leb b a.

Fixpoint has_prefix (p s : string) : bool :=
  match p, s with
  | EmptyString, _ => true
  | String a p', String b s' => Ascii.eqb a b && has_prefix p' s'
  | String _ _, EmptyString => false
  end.

Fixpoint is_substring (needle hay : string) : bool :=
  has_prefix needle hay
  || match hay with
     | EmptyString => false
     | String _ hay' => is_substring needle hay'
     end.

(** [x in c]; [None] is [TypeError]. *)
Definition py_in (x c : pyval) : option bool :=
  match c with
  | PList l => Some (existsb (py_eq x) l)
  | PStr s => match x with PStr t => Some (is_substring t s) | _ => None end
  | PDict d =>
      match x with
      | PStr k => Some (match dict_get d k with Some _ => true | None => false end)
      | PList _ | PDict _ => None
      | _ => Some false
      end
  | _ => None
  end.

(** *** [json.dumps] with the default separators and [ensure_ascii] *)

Definition dquote : string := String (ascii_of_nat 34) EmptyString.

Definition escape_char (c : ascii) : string :=
  let n := Z.of_nat (nat_of_ascii c) in
  if Z.eqb n 34 then "\" +++ dquote
  else if Z.eqb n 92 then "\\"
  else if Z.eqb n 10 then "\n"
  else if Z.eqb n 13 then "\r"
  else if Z.eqb n 9 then "\t"
  else if Z.eqb n 8 then "\b"
  else if Z.eqb n 12 then "\f"
  else if andb (Z.leb 32 n) (Z.leb n 126) then String c EmptyString
  else "\u" +++ Sha256.hex_of 4 n.

Definition json_string (s : string) : string :=
  dquote +++ String.concat "" (map escape_char (list_ascii_of_string s)) +++ dquote.

Definition json_float (x : float) : string :=
  match Prim2SF x with
  | S754_nan => "NaN"
  | S754_infinity s => if s then "-Infinity" else "Infinity"
  | _ => float_repr x
  end.

Fixpoint insert_item (kv : string * string) (l : list (string * string))
  : list (string * string) :=
  match l with
  | [] => [kv]
  | kv' :: rest =>
      if String.leb (fst kv) (fst kv') then kv :: l else kv' :: insert_item kv rest
  end.

Definition sort_items (l : list (string * string)) : list (string * string) :=
  fold_right insert_item [] l.

Definition render_item (kv : string * string) : string :=
  json_string (fst kv) +++ ": " +++ snd kv.

(** [json.dumps(v, sort_keys=sort_keys)].  Every [pyval] is serialisable,
    so a [default=] hook is never called. *)
Fixpoint dumps (sort_keys : bool) (v : pyval) : string :=
  match v with
  | PNone => "null"
  | PBool b => if b then "true" else "false"
  | PInt z => string_of_Z z
  | PFloat x => json_float x
  | PStr s => json_string s
  | PList l => "[" +++ String.concat ", " (map (dumps sort_keys) l) +++ "]"
  | PDict d =>
      let items := map (fun kv => (fst kv, dumps sort_keys (snd kv))) d in
      let items := if sort_keys then sort_items items else items in
      "{" +++ String.concat ", " (map render_item items) +++ "}"
  end.

(** [hashlib.sha256(json.dumps(payload, sort_keys=True).encode()).hexdigest()] *)
Definition canonical_hash (payload : dict) : string :=
  Sha256.hexdigest (dumps true (PDict payload)).

(** *** [datetime]

    A datetime is its number of microseconds since 1970-01-01T00:00:00 UTC,
    with a flag telling whether it carries [timezone.utc]
    ([datetime.now(timezone.utc)]) or is naive ([datetime.utcnow()]). *)

Record datetime := Datetime { micros : Z; aware : bool }.

Definition timedelta_hours (h : Z) : Z := h * 3600 * 1000000.

Definition datetime_add (t : datetime) (delta : Z) : datetime :=
  Datetime (micros t + delta) (aware t).


(** [int(t.timestamp())] *)
Definition posix_seconds (t : datetime) : Z := Z.quot (micros t) 1000000.

(** Proleptic Gregorian date of a day number counted from 1970-01-01. *)
Definition civil_of_days (days : Z) : Z * Z * Z :=
  let z := days + 719468 in
  let era := z / 146097 in
  let doe := z - era * 146097 in
  let yoe := (doe - doe / 1460 + doe / 36524 - doe / 146096) / 365 in
  let doy := doe - (365 * yoe + yoe / 4 - yoe / 100) in
  let mp := (5 * doy + 2) / 153 in
  let d := doy - (153 * mp + 2) / 5 + 1 in
  let m := if Z.ltb mp 10 then mp + 3 else mp - 9 in
  let y := yoe + era * 400 + (if Z.leb m 2 then 1 else 0) in
  (y, m, d).

(** [format(n, "0{width}d")] for [n >= 0]. *)
Definition zero_padded (width : nat) (n : Z) : string :=
  let s := string_of_Z n in
  zeros (Z.of_nat width - Z.of_nat (String.length s)) +++ s.

(** [t.isoformat()] *)
Definition isoformat (t : datetime) : string :=
  let us := micros t mod 1000000 in
  let secs := micros t / 1000000 in
  let sod := secs mod 86400 in
  let '(y, m, d) := civil_of_days (secs / 86400) in
  zero_padded 4 y +++ "-" +++ zero_padded 2 m +++ "-" +++ zero_padded 2 d
  +++ "T" +++ zero_padded 2 (sod / 3600) +++ ":" +++ zero_padded 2 (sod / 60 mod 60)
  +++ ":" +++ zero_padded 2 (sod mod 60)
  +++ (if Z.eqb us 0 then "" else "." +++ zero_padded 6 us)
  +++ (if aware t then "+00:00" else "").

(** *** [repr] and [str], as f-strings apply them

    [repr] of a string picks double quotes when the text holds a single
    quote and no double quote, escapes the backslash, the chosen quote, tab,
    newline and carriage return, and writes the other characters that are
    not printable as [\xNN]. *)

Definition contains_char (c : ascii) (s : string) : bool :=
  existsb (Ascii.eqb c) (list_ascii_of_string s).

Definition printable (n : Z) : bool :=
  (Z.leb 32 n && Z.leb n 126) || (Z.leb 161 n && negb (Z.eqb n 173)).

Definition repr_char (quote : ascii) (c : ascii) : string :=
  let n := Z.of_nat (nat_of_ascii c) in
  if Ascii.eqb c quote || Z.eqb n 92 then String (ascii_of_nat 92) (String c EmptyString)
  else if Z.eqb n 9 then "\t"
  else if Z.eqb n 10 then "\n"
  else if Z.eqb n 13 then "\r"
  else if printable n then String c EmptyString
  else "\x" +++ Sha256.hex_of 2 n.

Definition str_repr (s : string) : string :=
  let single := ascii_of_nat 39 in
  let double := ascii_of_nat 34 in
  let quote := if contains_char single s && negb (contains_char double s)
               then double else single in
  String quote EmptyString
  +++ String.concat "" (map (repr_char quote) (list_ascii_of_string s))
  +++ String quote EmptyString.

Fixpoint py_repr (v : pyval) : string :=
  match v with
  | PNone => "None"
  | PBool b => if b then "True" else "False"
  | PInt z => string_of_Z z
  | PFloat x => float_repr x
  | PStr s => str_repr s
  | PList l => "[" +++ String.concat ", " (map py_repr l) +++ "]"
  | PDict d =>
      "{" +++ String.concat ", "
                (map (fun kv => str_repr (fst kv) +++ ": " +++ py_repr (snd kv)) d)
          +++ "}"
  end.

(** [str(v)], which is also what [f"{v}"] writes. *)
Definition py_str (v : pyval) : string :=
  match v with
  | PStr s => s
  | _ => py_repr v
  end.

End Py.

(** ** PyJWT, as the services use it

    The library is not part of the repository.  A [library] gives the calls
    the services make: [jwt.encode(payload, key, algorithm=alg)],
    [jwt.decode(token, key, algorithms=[alg], options={"verify_exp": True})]
    evaluated at a wall-clock time in POSIX seconds, and the unverified
    [jwt.decode(token, options={"verify_signature": False})], which is
    [None] when the token cannot be parsed. *)

Module Jwt.

Inductive decode_result :=
| Decoded (claims : Py.dict)
| ExpiredSignatureError
| InvalidTokenError.

Record library := Library {
  encode : Py.dict -> string -> string -> string;
  decode : string -> string -> string -> Z -> decode_result;
  decode_unverified : string -> option Py.dict
}.

End Jwt.

(** ** Edge gateway: [services/edge-gateway] *)

Module Edge.
Import Py.

(** Messages built by f-strings are kept as their template and arguments. *)
Inductive reason :=
| RuleFailed (label : pyval)              (* "Rule '{label}' failed" *)
| AllLocalPoliciesPassed                  (* "All local policies passed" *)
| EnvironmentNotPermitted (env : string)  (* "Environment {env} not permitted" *)
| PassportDoesNotPermit (env : string).   (* "Agent passport does not permit execution in '{env}' environment" *)

(** *** [identity/local_ledger.py] *)

Record LocalDecision := mkLocalDecision {
  agent_id : pyval;
  action_type : string;
  resource : string;
  amount : float;
  environment : string;
  verdict : pyval;
  decision_reason : reason;
  passport_jti : pyval;
  gateway_id : string;
  id : string;
  timestamp : datetime;
  hash : string;
  synced : bool
}.

Definition hash_payload (d : LocalDecision) : dict :=
  dict_of [("id", PStr (id d));
           ("agent_id", agent_id d);
           ("action_type", PStr (action_type d));
           ("verdict", verdict d);
           ("amount", PFloat (amount d));
           ("environment", PStr (environment d));
           ("timestamp", PStr (isoformat (timestamp d)))].

Definition _compute_hash (d : LocalDecision) : string :=
  canonical_hash (hash_payload d).

Definition with_hash (d : LocalDecision) (h : string) : LocalDecision :=
  mkLocalDecision (agent_id d) (action_type d) (resource d) (amount d)
    (environment d) (verdict d) (decision_reason d) (passport_jti d)
    (gateway_id d) (id d) (timestamp d) h (synced d).

Definition with_synced (d : LocalDecision) (b : bool) : LocalDecision :=
  mkLocalDecision (agent_id d) (action_type d) (resource d) (amount d)
    (environment d) (verdict d) (decision_reason d) (passport_jti d)
    (gateway_id d) (id d) (timestamp d) (hash d) b.

(** The dataclass constructor followed by [__post_init__].  [fresh_id] is
    the value of [str(uuid.uuid4())] and [now] that of
    [datetime.now(timezone.utc)]. *)
Definition new_LocalDecision (agent : pyval) (action res : string) (amt : float)
    (env : string) (v : pyval) (why : reason) (jti : pyval) (gw : string)
    (fresh_id : string) (now : datetime) : LocalDecision :=
  let d := mkLocalDecision agent action res amt env v why jti gw fresh_id now "" false in
  with_hash d (_compute_hash d).

Record LocalLedger := mkLocalLedger {
  ledger_gateway_id : string;
  _entries : list LocalDecision;
  last_decision_id : string
}.

Definition new_LocalLedger (gw : string) : LocalLedger := mkLocalLedger gw [] "".

Definition record_decision (l : LocalLedger) (agent : pyval) (action res : string)
    (amt : float) (env : string) (v : pyval) (why : reason) (jti : pyval)
    (fresh_id : string) (now : datetime) : string * LocalLedger :=
  let entry := new_LocalDecision agent action res amt env v why jti
                 (ledger_gateway_id l) fresh_id now in
  (id entry, mkLocalLedger (ledger_gateway_id l) (_entries l ++ [entry]) (id entry)).

Definition get_unsynced (l : LocalLedger) : list LocalDecision :=
  List.filter (fun e => negb (synced e)) (_entries l).

Definition mark_synced (l : LocalLedger) (ids : list string) : Z * LocalLedger :=
  let hit := fun e : LocalDecision => existsb (String.eqb (id e)) ids in
  (Z.of_nat (length (List.filter hit (_entries l))),
   mkLocalLedger (ledger_gateway_id l)
     (map (fun e => if hit e then with_synced e true else e) (_entries l))
     (last_decision_id l)).

Definition size (l : LocalLedger) : Z := Z.of_nat (length (_entries l)).

(** *** [identity/local_enforcer.py] *)

Definition TIER_RANK : list (string * Z) := [("T1", 4); ("T2", 3); ("T3", 2); ("T4", 1)].

(** [TIER_RANK.get(tier, 0)]; [None] when [tier] is unhashable. *)
Definition tier_rank (tier : pyval) : option Z :=
  match tier with
  | PStr t =>
      Some (match find (fun kv => String.eqb (fst kv) t) TIER_RANK with
            | Some kv => snd kv
            | None => 0
            end)
  | PList _ | PDict _ => None
  | _ => Some 0
  end.

Record EnforcerVerdict := mkEnforcerVerdict {
  ev_verdict : pyval;
  ev_reason : reason;
  rules_checked : Z
}.

Record LocalPolicyEnforcer := mkLocalPolicyEnforcer {
  _rules : list dict;
  _policy_version : pyval
}.

Definition new_LocalPolicyEnforcer : LocalPolicyEnforcer :=
  mkLocalPolicyEnforcer [] (PStr "0").

Definition load_policy_bundle (e : LocalPolicyEnforcer) (rules : list dict)
    (version : pyval) : LocalPolicyEnforcer :=
  mkLocalPolicyEnforcer rules version.

(** [None] is an exception raised by a comparison or a membership test. *)
Definition _evaluate_rule (rule : dict) (tier trust limit : pyval) (action : string)
    (amt : float) (ctx : dict) : option bool :=
  let rule_type := get_or rule "type" (PStr "") in
  if is_str rule_type "amount_limit" then
    py_le (PFloat amt) (get_or rule "max_amount" (PInt 0))
  else if is_str rule_type "trust_minimum" then
    py_ge trust (get_or rule "min_trust" (PFloat 0))
  else if is_str rule_type "tier_required" then
    py_in tier (get_or rule "allowed_tiers" (PList []))
  else if is_str rule_type "tier_minimum" then
    match tier_rank tier, tier_rank (get_or rule "min_tier" (PStr "T4")) with
    | Some a, Some b => Some (Z.leb b a)
    | _, _ => None
    end
  else if is_str rule_type "action_allowed" then
    py_in (PStr action) (get_or rule "allowed_actions" (PList []))
  else if is_str rule_type "authority_limit" then
    py_le (PFloat amt) limit
  else Some true.

(** The loop of [evaluate], entered with [checked] rules already counted. *)
Fixpoint evaluate_from (rules : list dict) (checked : Z) (tier trust limit : pyval)
    (action : string) (amt : float) (ctx : dict) : option EnforcerVerdict :=
  match rules with
  | [] => Some (mkEnforcerVerdict (PStr "allow") AllLocalPoliciesPassed checked)
  | rule :: rest =>
      match _evaluate_rule rule tier trust limit action amt ctx with
      | None => None
      | Some false =>
          Some (mkEnforcerVerdict
                  (get_or rule "on_fail" (PStr "deny"))
                  (RuleFailed (get_or rule "name" (get_or rule "type" PNone)))
                  (checked + 1))
      | Some true => evaluate_from rest (checked + 1) tier trust limit action amt ctx
      end
  end.

Definition evaluate (e : LocalPolicyEnforcer) (tier trust limit : pyval)
    (action : string) (amt : float) (ctx : dict) : option EnforcerVerdict :=
  evaluate_from (_rules e) 0 tier trust limit action amt ctx.

(** The verdict [evaluate] builds for a failing rule. *)
Definition failure_of (rule : dict) (checked : Z) : EnforcerVerdict :=
  mkEnforcerVerdict (get_or rule "on_fail" (PStr "deny"))
    (RuleFailed (get_or rule "name" (get_or rule "type" PNone))) checked.

(** A rule passes, or fails, on given inputs. *)
Definition passes (tier trust limit : pyval) (action : string) (amt : float) (ctx : dict)
    (rule : dict) : Prop :=
  _evaluate_rule rule tier trust limit action amt ctx = Some true.

Definition fails (tier trust limit : pyval) (action : string) (amt : float) (ctx : dict)
    (rule : dict) : Prop :=
  _evaluate_rule rule tier trust limit action amt ctx = Some false.

Definition policy_count (e : LocalPolicyEnforcer) : Z := Z.of_nat (length (_rules e)).

(** *** [identity/passport_verifier.py] *)

Inductive verify_reason :=
| NoReason               (* "" *)
| PassportExpired        (* "passport expired" *)
| InvalidSignature       (* "invalid signature: {e}" *)
| PassportRevoked.       (* "passport revoked" *)

Record VerificationResult := mkVerificationResult {
  valid : bool;
  claims : dict;
  vr_reason : verify_reason;
  vr_mode : string
}.

Record PassportVerifier := mkPassportVerifier {
  jwt_secret : string;
  control_plane_url : string;
  algorithm : string;
  mode : string;
  _revocation_set : gset string
}.

(** [__init__]: the verifier starts online with an empty revocation set. *)
Definition new_PassportVerifier (secret url alg : string) : PassportVerifier :=
  mkPassportVerifier secret url alg "online" ∅.

(** [v in s] for a set of strings; [None] when [v] is unhashable. *)
Definition in_str_set (v : pyval) (s : gset string) : option bool :=
  match v with
  | PStr j => Some (bool_decide (j ∈ s))
  | PList _ | PDict _ => None
  | _ => Some false
  end.

Definition verify (J : Jwt.library) (v : PassportVerifier) (token : string) (now : Z)
  : option VerificationResult :=
  match Jwt.decode J token (jwt_secret v) (algorithm v) now with
  | Jwt.ExpiredSignatureError =>
      Some (mkVerificationResult false [] PassportExpired "online")
  | Jwt.InvalidTokenError =>
      Some (mkVerificationResult false [] InvalidSignature "online")
  | Jwt.Decoded decoded =>
      match in_str_set (get_or decoded "jti" (PStr "")) (_revocation_set v) with
      | None => None
      | Some true => Some (mkVerificationResult false [] PassportRevoked (mode v))
      | Some false => Some (mkVerificationResult true decoded NoReason (mode v))
      end
  end.

Definition update_revocation_list (v : PassportVerifier) (revoked_jtis : list string)
  : PassportVerifier :=
  mkPassportVerifier (jwt_secret v) (control_plane_url v) (algorithm v) (mode v)
    (list_to_set revoked_jtis).

Definition set_mode (v : PassportVerifier) (m : string) : PassportVerifier :=
  mkPassportVerifier (jwt_secret v) (control_plane_url v) (algorithm v) m
    (_revocation_set v).

(** *** [identity/sync_client.py]

    An HTTP exchange with the control plane either raises (connection
    error, timeout) or yields a status code and a decoded JSON object. *)

Inductive http_result :=
| HttpError
| HttpResponse (status_code : Z) (body : dict).

Inductive sync_status :=
| Synced
| Failed
| NothingToFlush
| Flushed (count : Z)
| FailedBuffered (buffered : Z).

Fixpoint as_dicts (l : list pyval) : option (list dict) :=
  match l with
  | [] => Some []
  | PDict d :: rest => option_map (cons d) (as_dicts rest)
  | _ :: _ => None
  end.

Fixpoint as_strs (l : list pyval) : option (list string) :=
  match l with
  | [] => Some []
  | PStr s :: rest => option_map (cons s) (as_strs rest)
  | _ :: _ => None
  end.

(** [sync_policies].  A body whose ["rules"] is not a list of objects lies
    outside the typed interface [list[dict]] and is answered by [None]. *)
Definition sync_policies (e : LocalPolicyEnforcer) (r : http_result)
  : option (sync_status * LocalPolicyEnforcer) :=
  match r with
  | HttpError => Some (Failed, e)
  | HttpResponse status_code data =>
      if Z.eqb status_code 200 then
        match get_or data "rules" (PList []) with
        | PList items =>
            match as_dicts items with
            | Some rules =>
                Some (Synced,
                      load_policy_bundle e rules (get_or data "version" (PStr "unknown")))
            | None => None
            end
        | _ => None
        end
      else Some (Failed, e)
  end.

(** [sync_revocation_list], with the same convention for ["revoked_jtis"]
    and [list[str]]. *)
Definition sync_revocation_list (v : PassportVerifier) (r : http_result)
  : option (sync_status * PassportVerifier) :=
  match r with
  | HttpError => Some (Failed, v)
  | HttpResponse status_code data =>
      if Z.eqb status_code 200 then
        match get_or data "revoked_jtis" (PList []) with
        | PList items =>
            match as_strs items with
            | Some jtis => Some (Synced, update_revocation_list v jtis)
            | None => None
            end
        | _ => None
        end
      else Some (Failed, v)
  end.

(** [flush_ledger]; [r] is the outcome of the POST, made only when there is
    something to flush. *)
Definition flush_ledger (l : LocalLedger) (r : http_result) : sync_status * LocalLedger :=
  let unsynced := get_unsynced l in
  match unsynced with
  | [] => (NothingToFlush, l)
  | _ :: _ =>
      match r with
      | HttpError => (FailedBuffered (Z.of_nat (length unsynced)), l)
      | HttpResponse status_code _ =>
          if Z.eqb status_code 200 then
            let '(n, l') := mark_synced l (map id unsynced) in (Flushed n, l')
          else (FailedBuffered (Z.of_nat (length unsynced)), l)
      end
  end.

(** *** [main.py] *)

Record Config := mkConfig {
  CONTROL_PLANE_URL : string;
  GATEWAY_ID : string;
  GATEWAY_ENVIRONMENT : string;
  JWT_SECRET : string
}.

(** The module globals [verifier], [enforcer], [ledger]; the sync client
    holds configuration only. *)
Record Gateway := mkGateway {
  verifier : PassportVerifier;
  enforcer : LocalPolicyEnforcer;
  ledger : LocalLedger
}.

Record AuthorizeRequest := mkAuthorizeRequest {
  passport_token : string;
  req_action_type : string;
  req_resource : string;
  req_amount : float;
  req_environment : string;
  context : dict
}.

(** [latency_ms], a wall-clock measurement, is left out. *)
Record AuthorizeResponse := mkAuthorizeResponse {
  authorized : bool;
  resp_verdict : pyval;
  resp_reason : reason;
  resp_agent_id : pyval;
  agent_tier : pyval;
  resp_gateway_id : string;
  resp_mode : string;
  decision_id : string
}.

Inductive outcome :=
| Responded (r : AuthorizeResponse)
| Unauthorized (why : verify_reason)   (* HTTPException(status_code=401) *)
| Raised.                              (* uncaught exception *)

Definition is_string (v : pyval) : bool :=
  match v with PStr _ => true | _ => false end.

(** Building the [AuthorizeResponse]: the model validates its [str] fields,
    so a verdict, agent id or tier that is not a string raises.  (On the
    path through the enforcer the log line slices the agent id first, which
    raises for the values that cannot be sliced; those are not strings
    either.) *)
Definition respond (r : AuthorizeResponse) : outcome :=
  if is_string (resp_verdict r) && is_string (resp_agent_id r) && is_string (agent_tier r)
  then Responded r
  else Raised.

(** Objects created by [lifespan]; its initial sync is the first [Sync]
    event of a run. *)
Definition boot (cfg : Config) : Gateway :=
  mkGateway (new_PassportVerifier (JWT_SECRET cfg) (CONTROL_PLANE_URL cfg) "HS256")
            new_LocalPolicyEnforcer
            (new_LocalLedger (GATEWAY_ID cfg)).

Definition _log_and_record (l : LocalLedger) (agent : pyval) (v : string) (why : reason)
    (req : AuthorizeRequest) (fresh_id : string) (stamp : datetime) : LocalLedger :=
  snd (record_decision l agent (req_action_type req) (req_resource req) (req_amount req)
         (req_environment req) (PStr v) why (PStr "") fresh_id stamp).

(** [authorize].  [clock] is the time at which the token is checked,
    [fresh_id] and [stamp] are the uuid and the time given to the ledger
    record if one is written.  The record is written before the response is
    built, so it stays when building the response raises. *)
Definition authorize (J : Jwt.library) (cfg : Config) (g : Gateway) (req : AuthorizeRequest)
    (clock : Z) (fresh_id : string) (stamp : datetime) : outcome * Gateway :=
  match verify J (verifier g) (passport_token req) clock with
  | None => (Raised, g)
  | Some result =>
      if negb (valid result) then (Unauthorized (vr_reason result), g)
      else
        let claims := claims result in
        let agent := get_or claims "sub" (PStr "unknown") in
        match get_or claims "ag" (PDict []) with
        | PDict ag =>
            match py_in (PStr (req_environment req))
                        (get_or ag "allowed_environments" (PList [])) with
            | None => (Raised, g)
            | Some false =>
                let l := _log_and_record (ledger g) agent "deny"
                           (EnvironmentNotPermitted (req_environment req)) req
                           fresh_id stamp in
                (respond
                   (mkAuthorizeResponse false (PStr "deny")
                      (PassportDoesNotPermit (req_environment req)) agent
                      (get_or ag "tier" (PStr "T4")) (GATEWAY_ID cfg)
                      (mode (verifier g)) (last_decision_id l)),
                 mkGateway (verifier g) (enforcer g) l)
            | Some true =>
                match evaluate (enforcer g) (get_or ag "tier" (PStr "T4"))
                        (get_or ag "trust_score" (PFloat 0))
                        (get_or ag "authority_limit" (PInt 0))
                        (req_action_type req) (req_amount req) (context req) with
                | None => (Raised, g)
                | Some v =>
                    let '(did, l) :=
                      record_decision (ledger g) agent (req_action_type req)
                        (req_resource req) (req_amount req) (req_environment req)
                        (ev_verdict v) (ev_reason v) (get_or claims "jti" (PStr ""))
                        fresh_id stamp in
                    (respond
                       (mkAuthorizeResponse (is_str (ev_verdict v) "allow") (ev_verdict v)
                          (ev_reason v) agent (get_or ag "tier" (PStr "T4"))
                          (GATEWAY_ID cfg) (mode (verifier g)) did),
                     mkGateway (verifier g) (enforcer g) l)
                end
            end
        | _ => (Raised, g)
        end
  end.

(** [GET /status] without its timestamp. *)
Record Status := mkStatus {
  status_gateway_id : string;
  status_environment : string;
  status_mode : string;
  status_control_plane_url : string;
  local_ledger_size : Z;
  status_policy_count : Z
}.

Definition status (cfg : Config) (g : Gateway) : Status :=
  mkStatus (GATEWAY_ID cfg) (GATEWAY_ENVIRONMENT cfg) (mode (verifier g))
           (CONTROL_PLANE_URL cfg) (size (ledger g)) (policy_count (enforcer g)).

(** The two pulls made by [lifespan] at start-up and by [POST /sync]. *)
Definition trigger_sync (g : Gateway) (policies revocations : http_result)
  : option (sync_status * sync_status * Gateway) :=
  match sync_policies (enforcer g) policies with
  | None => None
  | Some (sp, e) =>
      match sync_revocation_list (verifier g) revocations with
      | None => None
      | Some (sr, v) => Some (sp, sr, mkGateway v e (ledger g))
      end
  end.

(** What the gateway is asked to do after it has booted. *)
Inductive event :=
| Authorize (req : AuthorizeRequest) (clock : Z) (fresh_id : string) (stamp : datetime)
| Sync (policies revocations : http_result)
| Flush (r : http_result).

(** State after an event; an exchange outside the typed interface of the
    sync client leaves the state as it was. *)
Definition handle (J : Jwt.library) (cfg : Config) (g : Gateway) (ev : event) : Gateway :=
  match ev with
  | Authorize req clock fresh_id stamp => snd (authorize J cfg g req clock fresh_id stamp)
  | Sync policies revocations =>
      match trigger_sync g policies revocations with
      | Some (_, _, g') => g'
      | None => g
      end
  | Flush r => mkGateway (verifier g) (enforcer g) (snd (flush_ledger (ledger g) r))
  end.

Definition run (J : Jwt.library) (cfg : Config) (g : Gateway) (evs : list event) : Gateway :=
  fold_left (handle J cfg) evs g.

(** What a ledger record and a response say about a decision. *)
Definition record_key (d : LocalDecision) : string * pyval := (id d, verdict d).
Definition response_key (r : AuthorizeResponse) : string * pyval :=
  (decision_id r, resp_verdict r).

(** The responses given to the [Authorize] events of a run, in order. *)
Fixpoint responses (J : Jwt.library) (cfg : Config) (g : Gateway) (evs : list event)
  : list AuthorizeResponse :=
  match evs with
  | [] => []
  | ev :: rest =>
      match ev with
      | Authorize req clock fresh_id stamp =>
          match fst (authorize J cfg g req clock fresh_id stamp) with
          | Responded r => [r]
          | _ => []
          end
      | _ => []
      end ++ responses J cfg (handle J cfg g ev) rest
  end.

(** A record is well hashed when its stored hash is the canonical hash of
    its seven hashed fields. *)
Definition well_hashed (d : LocalDecision) : Prop :=
  hash d = canonical_hash (hash_payload d).

(** What the events [evs] do to a gateway [g] that becomes [g']: the mode is
    kept; the ledger keeps its records (up to their [synced] flags) and
    gains records among which are, in order, those of the responses; every
    response carries the mode; well-hashed ledgers stay so. *)
Definition effect (J : Jwt.library) (cfg : Config) (g g' : Gateway) (evs : list event)
  : Prop :=
  mode (verifier g') = mode (verifier g)
  /\ (exists added,
        map record_key (_entries (ledger g'))
        = map record_key (_entries (ledger g)) ++ added
        /\ sublist (map response_key (responses J cfg g evs)) added)
  /\ Forall (fun r => resp_mode r = mode (verifier g)) (responses J cfg g evs)
  /\ (Forall well_hashed (_entries (ledger g)) ->
      Forall well_hashed (_entries (ledger g'))).

(** Modelled after the specification's wording, for comparison with
    [_compute_hash]: the hash of a record over its canonicalised fields
    together with a [prev_hash]. *)
Definition hash_with_prev_hash (d : LocalDecision) (prev : string) : string :=
  canonical_hash (dict_set (hash_payload d) "prev_hash" (PStr prev)).

(** *** The upload of the ledger, and what a response looks like on the wire *)

Definition unsynced_count (l : LocalLedger) : Z := Z.of_nat (length (get_unsynced l)).


(** The text of a reason, as its f-string writes it. *)
Definition reason_text (r : reason) : string :=
  match r with
  | RuleFailed label => "Rule '" +++ py_str label +++ "' failed"
  | AllLocalPoliciesPassed => "All local policies passed"
  | EnvironmentNotPermitted env => "Environment " +++ env +++ " not permitted"
  | PassportDoesNotPermit env =>
      "Agent passport does not permit execution in '" +++ env +++ "' environment"
  end.

(** [LocalDecision.to_dict] *)
Definition to_dict (d : LocalDecision) : dict :=
  dict_of [("id", PStr (id d));
           ("agent_id", agent_id d);
           ("action_type", PStr (action_type d));
           ("resource", PStr (resource d));
           ("amount", PFloat (amount d));
           ("environment", PStr (environment d));
           ("verdict", verdict d);
           ("reason", PStr (reason_text (decision_reason d)));
           ("passport_jti", passport_jti d);
           ("gateway_id", PStr (gateway_id d));
           ("hash", PStr (hash d));
           ("timestamp", PStr (isoformat (timestamp d)));
           ("synced", PBool (synced d))].

(** The JSON body that [flush_ledger] posts to [/ancestor/bulk-record]. *)
Definition flush_body (sender : string) (l : LocalLedger) : dict :=
  dict_of [("gateway_id", PStr sender);
           ("decisions", PList (map (fun e => PDict (to_dict e)) (get_unsynced l)))].

(** The hash a receiver computes from an uploaded decision: the SHA-256 of
    the canonical JSON of the seven hashed fields as the upload gives them
    ([_compute_hash] read on the receiving side). *)
Definition rehash (uploaded : dict) : string :=
  canonical_hash
    (dict_of (map (fun k => (k, get_or uploaded k PNone))
                ["id"; "agent_id"; "action_type"; "verdict"; "amount"; "environment";
                 "timestamp"])).

(** The JSON object FastAPI sends for an [AuthorizeResponse]; [latency_ms]
    is the measured latency. *)
Definition response_body (r : AuthorizeResponse) (latency_ms : float) : dict :=
  dict_of [("authorized", PBool (authorized r));
           ("verdict", resp_verdict r);
           ("reason", PStr (reason_text (resp_reason r)));
           ("agent_id", resp_agent_id r);
           ("agent_tier", agent_tier r);
           ("gateway_id", PStr (resp_gateway_id r));
           ("latency_ms", PFloat latency_ms);
           ("mode", PStr (resp_mode r));
           ("decision_id", PStr (decision_id r))].

(** A rule of no type the enforcer evaluates: its ["type"] is missing, is
    not a string, or is a string other than the six of [_evaluate_rule]. *)
Definition unknown_rule_type (rule : dict) : Prop :=
  forall t,
    In t ["amount_limit"; "trust_minimum"; "tier_required"; "tier_minimum";
          "action_allowed"; "authority_limit"] ->
    is_str (get_or rule "type" (PStr "")) t = false.

(** The outcomes of an exchange on which the sync client gives up: an
    exception, or a status other than 200. *)
Definition exchange_failed (r : http_result) : Prop :=
  match r with
  | HttpError => True
  | HttpResponse status_code _ => status_code <> 200
  end.

End Edge.

(** ** Client SDK: [sdk/agentgovern/client.py] *)

Module Sdk.
Import Py.

Inductive result_reason :=
| GatewayReason (text : pyval)   (* the reason the gateway gave *)
| FailOpenReason                 (* "Governance unreachable ... fail-open mode" *)
| FailClosedReason.              (* "Governance unreachable and fail-open=False: {e}" *)

Record AuthorizationResult := mkAuthorizationResult {
  authorized : pyval;
  verdict : pyval;
  reason : result_reason;
  decision_id : pyval;
  agent_tier : pyval;
  latency_ms : pyval;
  mode : pyval
}.

(** The fields of the client that [authorize] reads or writes. *)
Record GovernanceClient := mkGovernanceClient {
  passport_token : string;
  edge_gateway_url : string;
  environment : string;
  fail_open : bool;
  _last_decision_id : pyval
}.

(** What the POST inside the [try] block yields: the decoded JSON of a
    response that [raise_for_status] lets through, or an exception (no
    connection, a time-out, an error status, a body that is not JSON). *)
Inductive exchange :=
| Answered (data : pyval)
| Failed.

(** The [except] branch. *)
Definition unreachable (c : GovernanceClient) : AuthorizationResult :=
  if fail_open c
  then mkAuthorizationResult (PBool true) (PStr "allow") FailOpenReason (PStr "offline")
         (PStr "") (PFloat 0) (PStr "offline")
  else mkAuthorizationResult (PBool false) (PStr "deny") FailClosedReason (PStr "offline")
         (PStr "") (PFloat 0) (PStr "offline").

Definition with_last_decision_id (c : GovernanceClient) (d : pyval) : GovernanceClient :=
  mkGovernanceClient (passport_token c) (edge_gateway_url c) (environment c) (fail_open c) d.

(** [authorize], given the outcome of its POST.  A body that is not an
    object has no [get]; a verdict that is not a string has no [upper] when
    the result is logged, after the decision id has been stored; both end
    in the [except] branch. *)
Definition authorize (c : GovernanceClient) (x : exchange)
  : AuthorizationResult * GovernanceClient :=
  match x with
  | Answered (PDict data) =>
      let result :=
        mkAuthorizationResult
          (get_or data "authorized" (PBool false))
          (get_or data "verdict" (PStr "deny"))
          (GatewayReason (get_or data "reason" (PStr "")))
          (get_or data "decision_id" (PStr ""))
          (get_or data "agent_tier" (PStr ""))
          (get_or data "latency_ms" (PFloat 0))
          (get_or data "mode" (PStr "online")) in
      let c' := with_last_decision_id c (decision_id result) in
      match verdict result with
      | PStr _ => (result, c')
      | _ => (unreachable c, c')
      end
  | _ => (unreachable c, c)
  end.

(** The request the gateway builds from the JSON payload of the client:
    its token, the action, the resource, the amount, its environment and
    [context or {}]. *)
Definition request_of (c : GovernanceClient) (action resource : string) (amount : float)
    (context : option dict) : Edge.AuthorizeRequest :=
  Edge.mkAuthorizeRequest (passport_token c) action resource amount (environment c)
    (match context with Some d => d | None => [] end).

(** The gateway's outcome as the client's POST meets it: a response model
    is sent with status 200 and its JSON; an [HTTPException] and an uncaught
    exception are sent with the statuses 401 and 500, on which
    [raise_for_status] raises. *)
Definition exchange_of (o : Edge.outcome) (latency : float) : exchange :=
  match o with
  | Edge.Responded r => Answered (PDict (Edge.response_body r latency))
  | Edge.Unauthorized _ => Failed
  | Edge.Raised => Failed
  end.

End Sdk.

(** ** Passport service: [services/identity-service/passport.py] *)

Module Passport.
Import Py.

Definition VALID_ENVIRONMENTS : list string := ["cloud"; "edge"; "client"; "on-premise"].

Definition TIER_AUTHORITY_LIMITS : list (string * Z) :=
  [("T1", 100000); ("T2", 50000); ("T3", 10000); ("T4", 0)].

Record AgentPassport := mkAgentPassport {
  agent_id : string;
  agent_name : string;
  agent_role : string;
  tier : string;
  trust_score : float;
  allowed_environments : list string;
  dna_fingerprint : string;
  authority_limit : pyval;
  issuer : string;
  jti : string;
  issued_at : datetime;
  expires_at : datetime;
  revoked : bool
}.

(** Truth value of a number, as tested by [if not self.authority_limit]. *)
Definition truthy (v : pyval) : bool :=
  match v with
  | PNone => false
  | PBool b => b
  | PInt z => negb (Z.eqb z 0)
  | PFloat x => negb (PrimFloat.eqb x 0)
  | PStr s => negb (String.eqb s "")
  | PList l => match l with [] => false | _ => true end
  | PDict d => match d with [] => false | _ => true end
  end.

(** The dataclass constructor followed by [__post_init__]; [None] is the
    [ValueError] raised for an unknown environment.  [fresh_jti] and [now]
    are the values of the default factories. *)
Definition new_AgentPassport (aid aname arole t : string) (trust : float)
    (envs : list string) (dna : string) (limit : pyval) (iss : string)
    (fresh_jti : string) (now : datetime) (expires : option datetime)
  : option AgentPassport :=
  let exp := match expires with
             | Some e => e
             | None => datetime_add now (timedelta_hours 24)
             end in
  let lim := if truthy limit then limit
             else PInt (match find (fun kv => String.eqb (fst kv) t) TIER_AUTHORITY_LIMITS with
                        | Some kv => snd kv
                        | None => 0
                        end) in
  if forallb (fun e => existsb (String.eqb e) VALID_ENVIRONMENTS) envs
  then Some (mkAgentPassport aid aname arole t trust envs dna lim iss fresh_jti now exp false)
  else None.



Definition allows_environment (p : AgentPassport) (env : string) : bool :=
  existsb (String.eqb env) (allowed_environments p).

(** *** Sets of hashable values, as [set] with [add] and [in] *)

Definition hashable (v : pyval) : bool :=
  match v with PList _ | PDict _ => false | _ => true end.

(** [v in s]; [None] is the [TypeError] of an unhashable [v]. *)
Definition set_contains (s : list pyval) (v : pyval) : option bool :=
  if hashable v then Some (existsb (py_eq v) s) else None.

(** [s.add(v)] *)
Definition set_add (s : list pyval) (v : pyval) : option (list pyval) :=
  if hashable v then Some (if existsb (py_eq v) s then s else s ++ [v]) else None.

Record PassportService := mkPassportService {
  private_key : string;
  public_key : string;
  algorithm : string;
  token_ttl : Z;
  _revocation_set : list pyval
}.

Definition new_PassportService (priv pub alg : string) (ttl_hours : Z) : PassportService :=
  mkPassportService priv pub alg (timedelta_hours ttl_hours) [].

Definition with_revocation_set (svc : PassportService) (s : list pyval) : PassportService :=
  mkPassportService (private_key svc) (public_key svc) (algorithm svc) (token_ttl svc) s.

(** The claims signed by [issue]; [now] is [datetime.now(timezone.utc)]. *)
Definition issue_payload (p : AgentPassport) (now : datetime) : dict :=
  dict_of [("sub", PStr (agent_id p));
           ("jti", PStr (jti p));
           ("iss", PStr (issuer p));
           ("iat", PInt (posix_seconds now));
           ("exp", PInt (posix_seconds (expires_at p)));
           ("ag", PDict (dict_of
              [("name", PStr (agent_name p));
               ("role", PStr (agent_role p));
               ("tier", PStr (tier p));
               ("trust_score", PFloat (py_round (trust_score p) 4));
               ("authority_limit", authority_limit p);
               ("allowed_environments", PList (map PStr (allowed_environments p)));
               ("dna_fingerprint", PStr (dna_fingerprint p))]))].

Definition issue (J : Jwt.library) (svc : PassportService) (p : AgentPassport)
    (now : datetime) : string :=
  Jwt.encode J (issue_payload p now) (private_key svc) (algorithm svc).

Inductive verify_error :=
| ExpiredSignatureError    (* jwt.ExpiredSignatureError *)
| InvalidTokenError       (* jwt.InvalidTokenError *)
| Revoked                 (* ValueError("Passport revoked: ...") *)
| RaisedTypeError.        (* an unhashable jti, or one that cannot be sliced *)

Definition is_string (v : pyval) : bool :=
  match v with PStr _ => true | _ => false end.

(** [verify].  The message of the [ValueError] is built from [jti[:8]], so a
    revoked jti that is not a string raises a [TypeError] instead. *)
Definition verify (J : Jwt.library) (svc : PassportService) (token : string) (now : Z)
  : verify_error + dict :=
  match Jwt.decode J token (public_key svc) (algorithm svc) now with
  | Jwt.ExpiredSignatureError => inl ExpiredSignatureError
  | Jwt.InvalidTokenError => inl InvalidTokenError
  | Jwt.Decoded decoded =>
      let j := get_or decoded "jti" (PStr "") in
      match set_contains (_revocation_set svc) j with
      | None => inl RaisedTypeError
      | Some true => inl (if is_string j then Revoked else RaisedTypeError)
      | Some false => inr decoded
      end
  end.

(** [revoke]: the jti is added, then logged through [jti[:8]].  The first
    component tells whether the call returned; it raises for an unhashable
    argument, leaving the set as it was, and for one that cannot be sliced,
    after adding it. *)
Definition revoke (svc : PassportService) (j : pyval) : bool * PassportService :=
  match set_add (_revocation_set svc) j with
  | None => (false, svc)
  | Some s => (is_string j, with_revocation_set svc s)
  end.

(** [rotate]: the [try] block verifies and revokes, any exception in it is
    swallowed, and the new passport is issued in every case.  [clock] is
    the time of the verification, [now] the time read by [issue]. *)
Definition rotate (J : Jwt.library) (svc : PassportService) (old_token : string)
    (new_passport : AgentPassport) (clock : Z) (now : datetime)
  : string * PassportService :=
  let svc' :=
    match verify J svc old_token clock with
    | inr old_decoded => snd (revoke svc (get_or old_decoded "jti" (PStr "")))
    | inl _ => svc
    end in
  (issue J svc' new_passport now, svc').

(** [None] is the exception raised for a token that cannot be parsed. *)
Definition extract_claims (J : Jwt.library) (token : string) : option dict :=
  Jwt.decode_unverified J token.

Definition is_revoked (svc : PassportService) (j : pyval) : option bool :=
  set_contains (_revocation_set svc) j.

Definition get_revocation_list (svc : PassportService) : list pyval :=
  _revocation_set svc.

(** *** [compute_dna_fingerprint] *)

(** [round(v, 2)]: a float is rounded to a float, an integer (a boolean is
    one) is returned as an integer, anything else raises. *)
Definition round2 (v : pyval) : option pyval :=
  match v with
  | PFloat x => Some (PFloat (py_round x 2))
  | PInt z => Some (PInt z)
  | PBool b => Some (PInt (if b then 1 else 0))
  | _ => None
  end.

(** The line [f"{gene_name}:{gene_type}:{round(strength, 2)}"] of a gene. *)
Definition gene_line (g : dict) : option string :=
  match round2 (get_or g "strength" (PInt 0)) with
  | Some r =>
      Some (py_str (get_or g "gene_name" (PStr "")) +++ ":"
            +++ py_str (get_or g "gene_type" (PStr "")) +++ ":" +++ py_str r)
  | None => None
  end.

Fixpoint gene_lines (genes : list dict) : option (list string) :=
  match genes with
  | [] => Some []
  | g :: rest =>
      match gene_line g, gene_lines rest with
      | Some line, Some lines => Some (line :: lines)
      | _, _ => None
      end
  end.

(** [sorted] on strings, which compare by code points. *)
Fixpoint insert_sorted (s : string) (l : list string) : list string :=
  match l with
  | [] => [s]
  | t :: rest => if String.leb s t then s :: l else t :: insert_sorted s rest
  end.

Definition sorted (l : list string) : list string := fold_right insert_sorted [] l.

(** [None] is the [TypeError] of a strength that cannot be rounded. *)
Definition compute_dna_fingerprint (dominant_genes : list dict) : option string :=
  match dominant_genes with
  | [] => Some (Sha256.hexdigest "no-genes")
  | _ :: _ =>
      match gene_lines dominant_genes with
      | Some lines => Some (Sha256.hexdigest (dumps true (PList (map PStr (sorted lines)))))
      | None => None
      end
  end.

(** *** Runs of the service *)

Inductive op :=
| Issue (p : AgentPassport) (now : datetime)
| Verify (token : string) (clock : Z)
| Revoke (j : pyval)
| Rotate (old_token : string) (new_passport : AgentPassport) (clock : Z) (now : datetime).

Definition apply (J : Jwt.library) (svc : PassportService) (o : op) : PassportService :=
  match o with
  | Issue _ _ => svc
  | Verify _ _ => svc
  | Revoke j => snd (revoke svc j)
  | Rotate old_token new_passport clock now =>
      snd (rotate J svc old_token new_passport clock now)
  end.

Definition run (J : Jwt.library) (svc : PassportService) (ops : list op) : PassportService :=
  fold_left (apply J) ops svc.

(** Strings in the order [sorted] puts them in. *)
Definition string_le (a b : string) : Prop := String.leb a b = true.

(** The comprehension of [compute_dna_fingerprint], from the line of each
    gene, and what two runs of it have in common when they yield the same
    lines in another order. *)
Fixpoint all_lines (l : list (option string)) : option (list string) :=
  match l with
  | [] => Some []
  | o :: rest =>
      match o, all_lines rest with
      | Some line, Some lines => Some (line :: lines)
      | _, _ => None
      end
  end.

Definition same_lines (a b : option (list string)) : Prop :=
  match a, b with
  | Some x, Some y => Permutation x y
  | None, None => True
  | _, _ => False
  end.

End Passport.

(** ** Policy distribution: [services/governance-api/policy/distribution.py] *)

Module Distribution.
Import Py.

Record PolicyRule := mkPolicyRule {
  rule_id : string;
  name : string;
  type : string;
  parameters : dict;
  on_fail : string;
  environment_scope : list string;
  active : bool;
  created_at : datetime
}.

(** [PolicyRule.to_dict]: the parameters are spliced in after the first
    three keys and before the last three. *)
Definition to_dict (r : PolicyRule) : dict :=
  dict_of ([("id", PStr (rule_id r)); ("name", PStr (name r)); ("type", PStr (type r))]
           ++ parameters r
           ++ [("on_fail", PStr (on_fail r));
               ("environment_scope", PList (map PStr (environment_scope r)));
               ("active", PBool (active r))]).

Record PolicyBundle := mkPolicyBundle {
  version : string;
  rules : list PolicyRule;
  hash : string;
  parent_hash : string;
  valid_from : datetime;
  valid_until : option datetime;
  metadata : dict;
  bundle_id : string
}.

Definition hash_payload (version : string) (rules : list PolicyRule) (parent_hash : string)
  : dict :=
  dict_of [("version", PStr version);
           ("rules", PList (map (fun r => PDict (to_dict r)) rules));
           ("parent_hash", PStr parent_hash)].

Definition _compute_hash (b : PolicyBundle) : string :=
  canonical_hash (hash_payload (version b) (rules b) (parent_hash b)).

(** The dataclass constructor followed by [__post_init__]: a hash is
    computed only when none was passed. *)
Definition new_PolicyBundle (v : string) (rs : list PolicyRule) (h parent : string)
    (now : datetime) (until : option datetime) (meta : dict) (fresh_id : string)
  : PolicyBundle :=
  let b := mkPolicyBundle v rs h parent now until meta fresh_id in
  if String.eqb h "" then mkPolicyBundle v rs (_compute_hash b) parent now until meta fresh_id
  else b.

Definition verify_integrity (b : PolicyBundle) : bool :=
  String.eqb (hash b) (_compute_hash b).

Record PolicyDistributionService := mkService {
  _bundles : list PolicyBundle;
  _current : option PolicyBundle;
  _gateway_versions : list (string * string);
  _rollback_stack : list string
}.

Definition new_service : PolicyDistributionService := mkService [] None [] [].

(** [f"v{now.strftime('%Y.%m.%d')}-{n:03d}"] *)
Definition generated_version (now : datetime) (n : Z) : string :=
  let '(y, m, d) := civil_of_days (micros now / 1000000 / 86400) in
  "v" +++ zero_padded 4 y +++ "." +++ zero_padded 2 m +++ "." +++ zero_padded 2 d
      +++ "-" +++ zero_padded 3 n.

(** [create_bundle]; [now] and [fresh_id] feed the default factories. *)
Definition create_bundle (svc : PolicyDistributionService) (rs : list PolicyRule)
    (v : string) (meta : dict) (now : datetime) (fresh_id : string)
  : PolicyBundle * PolicyDistributionService :=
  let v' := if String.eqb v ""
            then generated_version now (Z.of_nat (length (_bundles svc)) + 1)
            else v in
  let parent := match _current svc with Some c => hash c | None => "" end in
  let bundle := new_PolicyBundle v' rs "" parent now None meta fresh_id in
  (bundle,
   mkService (_bundles svc ++ [bundle]) (Some bundle) (_gateway_versions svc)
     (match _current svc with
      | Some c => _rollback_stack svc ++ [version c]
      | None => _rollback_stack svc
      end)).

Definition get_current_bundle (svc : PolicyDistributionService) : option PolicyBundle :=
  _current svc.

Definition get_bundle_by_version (svc : PolicyDistributionService) (v : string)
  : option PolicyBundle :=
  find (fun b => String.eqb (version b) v) (_bundles svc).

Definition rollback_to (svc : PolicyDistributionService) (v : string)
  : option PolicyBundle * PolicyDistributionService :=
  match get_bundle_by_version svc v with
  | Some target =>
      (Some target,
       mkService (_bundles svc) (Some target) (_gateway_versions svc) (_rollback_stack svc))
  | None => (None, svc)
  end.

(** The branch of [rollback] taken with an empty target: versions are
    popped from the end of the stack ([top_first] lists it from its end)
    until a non-empty one is found, which becomes the target. *)
Fixpoint rollback_popping (svc : PolicyDistributionService) (top_first : list string)
  : option PolicyBundle * PolicyDistributionService :=
  match top_first with
  | [] => (None, mkService (_bundles svc) (_current svc) (_gateway_versions svc) [])
  | prev :: below =>
      if String.eqb prev "" then rollback_popping svc below
      else rollback_to (mkService (_bundles svc) (_current svc) (_gateway_versions svc)
                          (rev below)) prev
  end.

Definition rollback (svc : PolicyDistributionService) (target_version : string)
  : option PolicyBundle * PolicyDistributionService :=
  if String.eqb target_version "" then rollback_popping svc (rev (_rollback_stack svc))
  else rollback_to svc target_version.

Definition version_history (svc : PolicyDistributionService) : list string :=
  map version (_bundles svc).

(** Operations on the store, for runs. *)
Inductive op :=
| CreateBundle (rs : list PolicyRule) (v : string) (meta : dict) (now : datetime)
               (fresh_id : string)
| Rollback (target_version : string).

Definition apply (svc : PolicyDistributionService) (o : op) : PolicyDistributionService :=
  match o with
  | CreateBundle rs v meta now fresh_id => snd (create_bundle svc rs v meta now fresh_id)
  | Rollback t => snd (rollback svc t)
  end.

Definition run (ops : list op) : PolicyDistributionService :=
  fold_left apply ops new_service.

(** Modelled after the specification's wording, for comparison with
    [_compute_hash]: the hash over the rules sorted by their id. *)
Fixpoint insert_by_id (r : PolicyRule) (l : list PolicyRule) : list PolicyRule :=
  match l with
  | [] => [r]
  | r' :: rest =>
      if String.leb (rule_id r) (rule_id r') then r :: l else r' :: insert_by_id r rest
  end.

Definition sorted_by_id (l : list PolicyRule) : list PolicyRule :=
  fold_right insert_by_id [] l.

Definition hash_over_sorted_rules (b : PolicyBundle) : string :=
  canonical_hash (hash_payload (version b) (sorted_by_id (rules b)) (parent_hash b)).

(** Shapes of the list of published bundles.  It is [rooted] when the first
    bundle has an empty [parent_hash] and every later bundle's [parent_hash]
    is the hash of a bundle published before it; it is [linked] from [prev]
    when each bundle's [parent_hash] is the hash of the bundle published just
    before it ([prev] for the first). *)
Definition parent_ok (earlier : list PolicyBundle) (b : PolicyBundle) : Prop :=
  match earlier with
  | [] => parent_hash b = ""
  | _ :: _ => exists p, In p earlier /\ parent_hash b = hash p
  end.

Inductive rooted : list PolicyBundle -> Prop :=
| rooted_nil : rooted []
| rooted_snoc (earlier : list PolicyBundle) (b : PolicyBundle) :
    rooted earlier -> parent_ok earlier b -> rooted (earlier ++ [b]).

Fixpoint linked (prev : string) (l : list PolicyBundle) : Prop :=
  match l with
  | [] => True
  | b :: rest => parent_hash b = prev /\ linked (hash b) rest
  end.

(** What every run keeps: the current bundle is a published one (and there is
    one as soon as something was published), every published bundle carries
    the hash of its own payload, and the published list is rooted. *)
Definition store_ok (svc : PolicyDistributionService) : Prop :=
  match _current svc with
  | Some c => In c (_bundles svc)
  | None => _bundles svc = []
  end
  /\ Forall (fun b => hash b = _compute_hash b) (_bundles svc)
  /\ rooted (_bundles svc).

(** The arguments of one [create_bundle] call, and the run that makes these
    calls and no rollback. *)
Record creation := mkCreation {
  c_rules : list PolicyRule;
  c_version : string;
  c_metadata : dict;
  c_now : datetime;
  c_fresh_id : string
}.

Definition create_op (c : creation) : op :=
  CreateBundle (c_rules c) (c_version c) (c_metadata c) (c_now c) (c_fresh_id c).

(** *** The other members of the bundle and of the service *)

(** [d[k] = v] on a dictionary from strings to strings. *)
Fixpoint assign (d : list (string * string)) (k v : string) : list (string * string) :=
  match d with
  | [] => [(k, v)]
  | (k', v') :: rest =>
      if String.eqb k' k then (k', v) :: rest else (k', v') :: assign rest k v
  end.

Definition register_gateway_sync (svc : PolicyDistributionService) (gateway_id v : string)
  : PolicyDistributionService :=
  mkService (_bundles svc) (_current svc) (assign (_gateway_versions svc) gateway_id v)
    (_rollback_stack svc).

Definition get_stale_gateways (svc : PolicyDistributionService) : list string :=
  match _current svc with
  | None => []
  | Some c =>
      map fst (List.filter (fun gv => negb (String.eqb (snd gv) (version c)))
                 (_gateway_versions svc))
  end.

Record gateway_entry := mkGatewayEntry {
  entry_version : string;
  up_to_date : bool
}.

Record gateway_status := mkGatewayStatus {
  current_version : string;
  gateways : list (string * gateway_entry);
  stale_count : Z
}.

Definition get_gateway_status (svc : PolicyDistributionService) : gateway_status :=
  let current_v := match _current svc with Some c => version c | None => "none" end in
  mkGatewayStatus current_v
    (map (fun gv => (fst gv, mkGatewayEntry (snd gv) (String.eqb (snd gv) current_v)))
       (_gateway_versions svc))
    (Z.of_nat (length (get_stale_gateways svc))).

(** The rules [get_bundle_for_environment] keeps. *)
Definition scoped_rules (b : PolicyBundle) (environment : string) : list PolicyRule :=
  List.filter (fun r => active r && existsb (String.eqb environment) (environment_scope r))
    (rules b).

Definition get_bundle_for_environment (svc : PolicyDistributionService)
    (environment : string) : option dict :=
  match _current svc with
  | None => None
  | Some c =>
      Some (dict_of [("version", PStr (version c));
                     ("hash", PStr (hash c));
                     ("rules", PList (map (fun r => PDict (to_dict r))
                                        (scoped_rules c environment)));
                     ("environment", PStr environment);
                     ("total_rules", PInt (Z.of_nat (length (scoped_rules c environment))))])
  end.

Definition version_count (svc : PolicyDistributionService) : Z :=
  Z.of_nat (length (_bundles svc)).

(** What every run keeps besides [store_ok]: no published bundle has an
    empty version, and every version on the rollback stack is the version of
    a published bundle. *)
Definition stack_ok (svc : PolicyDistributionService) : Prop :=
  Forall (fun b => version b <> "") (_bundles svc)
  /\ Forall (fun v => exists b, In b (_bundles svc) /\ version b = v) (_rollback_stack svc).

(** The number of bundles a list of operations creates. *)
Definition creations (ops : list op) : nat :=
  length (List.filter (fun o => match o with CreateBundle _ _ _ _ _ => true | _ => false end)
            ops).

End Distribution.

(** ** Master decision ledger: [services/crewai-engine/ancestor/decision_ledger.py] *)

Module Ancestor.
Import Py.

Record DecisionRecord := mkDecisionRecord {
  agent_id : string;
  task_id : string;
  decision_type : string;
  input_context : dict;
  reasoning_trace : string;
  output_action : dict;
  confidence_score : float;
  dispute_id : string;
  risk_score : float;
  amount_involved : float;
  currency : string;
  tools_used : list pyval;
  delegation_chain : list pyval;
  policy_rules_applied : list pyval;
  policy_violations : list pyval;
  sentinel_assessment : option dict;
  prophecy_paths : option dict;
  human_override : option dict;
  crewai_task_output : string;
  id : string;
  timestamp : datetime;
  hash : string;
  prev_hash : string
}.

Definition hash_payload (d : DecisionRecord) : dict :=
  dict_of [("id", PStr (id d));
           ("agent_id", PStr (agent_id d));
           ("task_id", PStr (task_id d));
           ("decision_type", PStr (decision_type d));
           ("output_action", PDict (output_action d));
           ("confidence_score", PFloat (confidence_score d));
           ("amount_involved", PFloat (amount_involved d));
           ("timestamp", PStr (isoformat (timestamp d)));
           ("prev_hash", PStr (prev_hash d))].

Definition _compute_hash (d : DecisionRecord) : string :=
  canonical_hash (hash_payload d).

(** [DecisionRecord.verify] *)
Definition verify (d : DecisionRecord) : bool :=
  String.eqb (hash d) (_compute_hash d).

Definition with_hashes (d : DecisionRecord) (h prev : string) : DecisionRecord :=
  mkDecisionRecord (agent_id d) (task_id d) (decision_type d) (input_context d)
    (reasoning_trace d) (output_action d) (confidence_score d) (dispute_id d)
    (risk_score d) (amount_involved d) (currency d) (tools_used d)
    (delegation_chain d) (policy_rules_applied d) (policy_violations d)
    (sentinel_assessment d) (prophecy_paths d) (human_override d)
    (crewai_task_output d) (id d) (timestamp d) h prev.

(** [__post_init__]: a record is created with the hash of its payload. *)
Definition post_init (d : DecisionRecord) : DecisionRecord :=
  with_hashes d (_compute_hash d) (prev_hash d).

(** The two assignments of [record]: [prev_hash] first, then the hash
    recomputed with it. *)
Definition chained (d : DecisionRecord) (prev : string) : DecisionRecord :=
  let d' := with_hashes d (hash d) prev in
  with_hashes d' (_compute_hash d') prev.

(** The [decisions] table: its rows in insertion order, and whether the
    connection works ([execute] raises when it does not). *)
Record database := mkDatabase {
  rows : list DecisionRecord;
  available : bool
}.

Record DecisionLedger := mkDecisionLedger {
  db : option database;
  _last_hash : string
}.

(** [ORDER BY timestamp ASC]; rows with equal timestamps keep their
    insertion order. *)
Fixpoint insert_by_timestamp (r : DecisionRecord) (l : list DecisionRecord)
  : list DecisionRecord :=
  match l with
  | [] => [r]
  | r' :: rest =>
      if Z.leb (micros (timestamp r)) (micros (timestamp r')) then r :: l
      else r' :: insert_by_timestamp r rest
  end.

Definition by_timestamp (l : list DecisionRecord) : list DecisionRecord :=
  fold_right insert_by_timestamp [] l.

(** [_get_last_hash]: the hash of the row with the latest timestamp. *)
Definition _get_last_hash (l : DecisionLedger) : string :=
  match db l with
  | None => ""
  | Some d =>
      if available d then
        match rev (by_timestamp (rows d)) with
        | r :: _ => hash r
        | [] => ""
        end
      else ""
  end.

(** [record]: returns the block hash, or [None] when [_persist] raises;
    the in-memory tip is moved before the write is attempted. *)
Definition record (l : DecisionLedger) (decision : DecisionRecord)
  : option string * DecisionLedger :=
  let prev := if String.eqb (_last_hash l) "" then _get_last_hash l else _last_hash l in
  let d := chained decision prev in
  match db l with
  | None => (Some (hash d), mkDecisionLedger None (hash d))
  | Some base =>
      if available base
      then (Some (hash d),
            mkDecisionLedger (Some (mkDatabase (rows base ++ [d]) true)) (hash d))
      else (None, mkDecisionLedger (Some base) (hash d))
  end.







(** Stored rows linked from [prev]: each [prev_hash] is the stored hash of
    the row before it. *)
Fixpoint linked (prev : string) (rs : list DecisionRecord) : Prop :=
  match rs with
  | [] => True
  | r :: rest => prev_hash r = prev /\ linked (hash r) rest
  end.







(** Rows in the order of their timestamps. *)
Definition earlier (r r' : DecisionRecord) : Prop :=
  micros (timestamp r) <= micros (timestamp r').



End Ancestor.

(** ** Prophecy engine: [services/governance-api/policy/prophecy.py] *)

Module Prophecy.
Import Py.
#[local] Open Scope float_scope.

(** [Decimal("0.03")] is [mkDecimal 3 2]: unscaled digits and decimal places. *)
Record Decimal := mkDecimal { unscaled : Z; places : nat }.

(** Cascade messages, with the values their f-strings format. *)
Inductive cascade :=
| UsesAuthority (percent : float)   (* "Action uses {auth_ratio*100:.0f}% of authority limit" *)
| ComplianceReview                  (* "May trigger downstream compliance review" *)
| ActionBlocked                     (* "Agent action blocked ..." *)
| SeniorAgentBlocked                (* "Senior agent blocked ..." *)
| ActionDelayed                     (* "Action delayed pending human review ..." *)
| HighValueAction (amount : float). (* "High-value action (...) ..." *)

Record ProphecyPath := mkProphecyPath {
  path_type : string;
  predicted_trust_delta : Decimal;
  risk_score : float;
  financial_exposure : float;
  compliance_risk : string;
  cascade_effects : list cascade;
  recommendation_weight : float;
  reasoning : string
}.

Record ProphecyResult := mkProphecyResult {
  agent_id : string;
  action_type : string;
  amount : float;
  paths : list ProphecyPath;
  recommended_path : string;
  confidence : float;
  trigger_reason : string;
  computed_at : datetime
}.

Definition AUTHORITY_RATIO_THRESHOLD : float := 0.70.
Definition UNSTABLE_TRUST_THRESHOLD : float := 0.60.
Definition FIRST_ACTION_THRESHOLD : Z := 5.

Inductive trigger :=
| NearAuthorityLimit
| UnstableTrust
| LimitedHistory.

Definition should_trigger (trust_score amount authority_limit : float)
    (historical_action_count : Z) : option trigger :=
  if float_gt authority_limit 0
     && float_ge (amount / authority_limit) AUTHORITY_RATIO_THRESHOLD
  then Some NearAuthorityLimit
  else if PrimFloat.ltb trust_score UNSTABLE_TRUST_THRESHOLD then Some UnstableTrust
  else if Z.ltb historical_action_count FIRST_ACTION_THRESHOLD then Some LimitedHistory
  else None.

(** [min(a, b)]: [b] when [b < a], else [a]. *)
Definition py_min (a b : float) : float := if PrimFloat.ltb b a then b else a.

Definition _simulate_approve (trust auth_ratio success_rate amount : float) (tier : string)
  : ProphecyPath :=
  let '(predicted_delta, risk, reasoning) :=
    if float_ge success_rate 0.85 then
      (mkDecimal 3 2, 0.1 + auth_ratio * 0.2,
       "High historical success rate — approve is low-risk"%string)
    else if float_ge success_rate 0.65 then
      (mkDecimal 1 2, 0.3 + auth_ratio * 0.3,
       "Moderate success rate — approve with monitoring"%string)
    else
      (mkDecimal (-5) 2, 0.5 + auth_ratio * 0.4,
       "Low success rate — approval carries significant risk"%string) in
  let '(risk, reasoning) :=
    if float_gt auth_ratio 0.90
    then (py_min (risk + 0.2) 1.0,
          reasoning +++ " (near authority limit — elevated risk)")
    else (risk, reasoning) in
  let cascades :=
    (if float_gt auth_ratio 0.80 then [UsesAuthority (auth_ratio * 100)] else [])
    ++ (if float_gt risk 0.6 then [ComplianceReview] else []) in
  let financial_exposure := amount * risk in
  let compliance_risk :=
    if float_gt risk 0.7 then "high"%string
    else if float_gt risk 0.4 then "medium"%string else "low"%string in
  let weight := success_rate * (1 - risk) * 0.8 in
  mkProphecyPath "approve" predicted_delta (py_round risk 3)
    (py_round financial_exposure 2) compliance_risk cascades (py_round weight 3)
    reasoning.

Definition _simulate_deny (trust auth_ratio amount : float) (tier : string)
  : ProphecyPath :=
  let senior := String.eqb tier "T1" || String.eqb tier "T2" in
  let predicted_delta := if senior then mkDecimal (-1) 2 else mkDecimal 0 2 in
  let risk := 0.05 in
  let cascades := ActionBlocked :: (if senior then [SeniorAgentBlocked] else []) in
  let weight := 0.3 * (1 - auth_ratio) in
  mkProphecyPath "deny" predicted_delta (py_round risk 3) 0.0 "none" cascades
    (py_round weight 3) "Deny is safest but may cause operational delays".

Definition _simulate_escalate (trust auth_ratio amount : float) (tier : string)
  : ProphecyPath :=
  let high_value := float_gt amount 50000 in
  let risk := if high_value then 0.1 else 0.15 in
  let cascades := ActionDelayed :: (if high_value then [HighValueAction amount] else []) in
  let reasoning := "Escalation provides human oversight — moderate delay cost"%string in
  let weight := 0.5 * auth_ratio + 0.3 * (1 - trust) in
  let '(weight, reasoning) :=
    if PrimFloat.ltb trust 0.5
    then (weight + 0.2, reasoning +++ " (recommended for low-trust agents)")
    else (weight, reasoning) in
  mkProphecyPath "escalate" (mkDecimal 2 2) (py_round risk 3)
    (py_round (amount * 0.05) 2) "low" cascades (py_round (py_min weight 1.0) 3)
    reasoning.

(** [max(paths, key=lambda p: p.recommendation_weight)]: the first path of
    greatest weight. *)
Fixpoint max_by_weight (best : ProphecyPath) (rest : list ProphecyPath) : ProphecyPath :=
  match rest with
  | [] => best
  | p :: rest' =>
      if float_gt (recommendation_weight p) (recommendation_weight best)
      then max_by_weight p rest'
      else max_by_weight best rest'
  end.

(** [sorted(ws, reverse=True)] *)
Fixpoint insert_descending (w : float) (l : list float) : list float :=
  match l with
  | [] => [w]
  | w' :: rest =>
      if PrimFloat.ltb w w' then w' :: insert_descending w rest else w :: l
  end.

Definition sorted_descending (ws : list float) : list float :=
  fold_right insert_descending [] ws.

(** [simulate]; [now] is the value of the [computed_at] default factory. *)
Definition simulate (agent action : string) (amt trust_score : float) (tier : string)
    (authority_limit historical_success_rate : float) (why : string) (now : datetime)
  : ProphecyResult :=
  let authority_ratio :=
    if float_gt authority_limit 0 then amt / authority_limit else 1.0 in
  let approve := _simulate_approve trust_score authority_ratio historical_success_rate
                   amt tier in
  let deny := _simulate_deny trust_score authority_ratio amt tier in
  let escalate := _simulate_escalate trust_score authority_ratio amt tier in
  let paths := [approve; deny; escalate] in
  let best := max_by_weight approve [deny; escalate] in
  let spread :=
    match sorted_descending (map recommendation_weight paths) with
    | w0 :: w1 :: _ => w0 - w1
    | _ => 0
    end in
  let confidence := py_min (0.5 + spread) 1.0 in
  mkProphecyResult agent action amt paths (path_type best) (py_round confidence 3)
    why now.

End Prophecy.

(** ** Cloud evaluation: [services/governance-api/routers/sentinel.py] *)

Module Sentinel.
Import Py.

(** The columns of [models.Agent] read by the rule evaluator;
    [trust_score] is a [Decimal] given by its digits and decimal places. *)
Record Agent := mkAgent {
  role : string;
  status : string;
  tier : string;
  trust_unscaled : Z;
  trust_places : nat
}.

(** [float(agent.trust_score)] *)
Definition trust_as_float (a : Agent) : float :=
  match trust_unscaled a, 10 ^ Z.of_nat (trust_places a) with
  | Z.pos n, Z.pos d => float_of_ratio false n d
  | Z.neg n, Z.pos d => float_of_ratio true n d
  | _, _ => 0%float
  end.

(** [_evaluate_rule]; [None] is an exception raised by a comparison or a
    membership test. *)
Definition _evaluate_rule (rule : dict) (agent : Agent) (action context : dict)
  : option bool :=
  let rule_type := get_or rule "type" PNone in
  if is_str rule_type "amount_limit" then
    py_le (get_or action "amount" (PInt 0)) (get_or rule "max_amount" (PInt 0))
  else if is_str rule_type "trust_minimum" then
    py_ge (PFloat (trust_as_float agent)) (get_or rule "min_trust" (PInt 0))
  else if is_str rule_type "tier_required" then
    py_in (PStr (tier agent)) (get_or rule "allowed_tiers" (PList []))
  else if is_str rule_type "status_check" then
    Some (String.eqb (status agent) "active")
  else Some true.

(** *** [evaluate_action] *)







(** The reasoning texts, with the values their f-strings format. *)
Inductive reasoning :=
| Blocked (codes : list string)       (* "BLOCKED: Critical policy violation(s) detected ..." *)
| ExceedsAuthority (amount : pyval) (limit : float) (tier : string)
                                      (* "ESCALATE: Amount ... exceeds authority limit ..." *)
| NeedsReview (codes : list string)   (* "ESCALATE: Non-critical policy violations ..." *)
| Approved (count : Z) (code : string). (* "APPROVED: All {count} policies passed. ..." *)










End Sentinel.

(** ** A scripted JWT library

    A stand-in for PyJWT used to run scenarios: it knows a finite list of
    payloads, writes a token as the algorithm, the payload's JSON text and
    the key, and decodes a token by looking the payload up again.  A token is
    expired when its ["exp"] is not after the clock. *)

Module Scripted.
Import Py.

Definition body (payload : dict) (alg : string) : string :=
  alg +++ "." +++ dumps true (PDict payload) +++ ".".

Definition encode (payload : dict) (key alg : string) : string :=
  body payload alg +++ key.

Definition expired (payload : dict) (now : Z) : bool :=
  match dict_get payload "exp" with
  | Some (PInt e) => Z.leb e now
  | _ => false
  end.

Definition decode (known : list dict) (token key alg : string) (now : Z)
  : Jwt.decode_result :=
  match find (fun p => String.eqb (encode p key alg) token) known with
  | Some p => if expired p now then Jwt.ExpiredSignatureError else Jwt.Decoded p
  | None => Jwt.InvalidTokenError
  end.

Definition decode_unverified (known : list dict) (token : string) : option dict :=
  find (fun p => has_prefix (body p "HS256") token) known.

Definition library (known : list dict) : Jwt.library :=
  Jwt.Library encode (decode known) (decode_unverified known).

End Scripted.

(** ** Scenario data *)

Module Scenario.
Import Py.

(** Scenario S2 of the specification: an amount limit that passes, then the
    authority limit that fails with [on_fail = escalate], then a rule that
    would deny. *)
Definition POL_1 : dict :=
  [("id", PStr "POL-1"); ("name", PStr "POL-1"); ("type", PStr "amount_limit");
   ("max_amount", PInt 100000); ("on_fail", PStr "deny")].

Definition POL_2 : dict :=
  [("id", PStr "POL-2"); ("name", PStr "POL-2"); ("type", PStr "authority_limit");
   ("on_fail", PStr "escalate")].

Definition POL_3 : dict :=
  [("id", PStr "POL-3"); ("name", PStr "POL-3"); ("type", PStr "trust_minimum");
   ("min_trust", PFloat 0.95); ("on_fail", PStr "deny")].

(** The gateway of the scenarios and an agent allowed at the edge. *)
Definition cfg : Edge.Config :=
  Edge.mkConfig "http://governance-api:8000" "edge-gateway-001" "edge"
    "dev-shared-secret-change-in-production".

Definition claims_of (agent jti status : string) (envs : list string) : dict :=
  [("sub", PStr agent); ("jti", PStr jti); ("iss", PStr "agentgovern-control-plane");
   ("iat", PInt 1700000000); ("exp", PInt 1700086400);
   ("ag", PDict [("name", PStr agent); ("role", PStr "settlement"); ("tier", PStr "T2");
                 ("trust_score", PFloat 0.8); ("authority_limit", PInt 50000);
                 ("allowed_environments", PList (map PStr envs));
                 ("dna_fingerprint", PStr "no-genes"); ("status", PStr status)])].

Definition alice : dict := claims_of "agent-alice" "jti-alice" "active" ["edge"].
Definition mallory : dict := claims_of "agent-mallory" "jti-mallory" "suspended" ["edge"].

Definition jwt : Jwt.library := Scripted.library [alice; mallory].

Definition token_of (claims : dict) : string :=
  Scripted.encode claims (Edge.JWT_SECRET cfg) "HS256".

Definition request (claims : dict) (amt : float) : Edge.AuthorizeRequest :=
  Edge.mkAuthorizeRequest (token_of claims) "write" "invoice-42" amt "edge" [].

(** A rule of type [status_check]. *)
Definition POL_STATUS : dict :=
  [("id", PStr "POL-9"); ("name", PStr "POL-9"); ("type", PStr "status_check");
   ("on_fail", PStr "deny")].

(** Two authorizations of the same agent, both allowed by the empty bundle. *)
Definition two_calls : list Edge.event :=
  [Edge.Authorize (request alice 45000) 1700000100 "decision-1"
     (Datetime 1700000100250000 true);
   Edge.Authorize (request alice 20000) 1700000200 "decision-2"
     (Datetime 1700000200500000 true)].

(** The control plane unreachable for two syncs in a row. *)
Definition two_failed_syncs : list Edge.event :=
  [Edge.Sync Edge.HttpError Edge.HttpError; Edge.Sync Edge.HttpError Edge.HttpError].

(** A sync that delivers a bundle holding the status rule only. *)
Definition status_bundle : Edge.event :=
  Edge.Sync
    (Edge.HttpResponse 200 [("version", PStr "v2024.01.15-001");
                            ("rules", PList [PDict POL_STATUS])])
    (Edge.HttpResponse 200 [("revoked_jtis", PList [])]).

(** The passport service, a second passport for the same agent, and a JWT
    library that knows the old and the new payload. *)
Definition service : Passport.PassportService :=
  Passport.new_PassportService (Edge.JWT_SECRET cfg) (Edge.JWT_SECRET cfg) "HS256" 24.

Definition renewed (issued : Z) : Passport.AgentPassport :=
  Passport.mkAgentPassport "agent-alice" "agent-alice" "settlement" "T1" 0.9312
    ["cloud"; "edge"] "no-genes" (PInt 100000) "agentgovern-control-plane"
    "jti-alice-2" (Datetime (issued * 1000000) true)
    (Datetime ((issued + 86400) * 1000000) true) false.

Definition rotation_jwt (issued : Z) : Jwt.library :=
  Scripted.library
    [alice; Passport.issue_payload (renewed issued) (Datetime (issued * 1000000) true)].

(** Two rules whose ids are not in bundle order, and a policy store history
    with a rollback between two publications. *)
Definition rule_b : Distribution.PolicyRule :=
  Distribution.mkPolicyRule "b" "amount cap" "amount_limit" [("max_amount", PInt 100000)]
    "deny" ["cloud"; "edge"; "client"] true (Datetime 1700000000000000 true).

Definition rule_a : Distribution.PolicyRule :=
  Distribution.mkPolicyRule "a" "trust floor" "trust_minimum" [("min_trust", PFloat 0.6)]
    "escalate" ["cloud"; "edge"; "client"] true (Datetime 1700000000000000 true).

Definition publish (rs : list Distribution.PolicyRule) (fresh_id : string)
  : Distribution.creation :=
  Distribution.mkCreation rs "" [] (Datetime 1700000000000000 true) fresh_id.

Definition publish_rollback_publish : list Distribution.op :=
  [Distribution.create_op (publish [rule_a] "bundle-1");
   Distribution.create_op (publish [rule_b; rule_a] "bundle-2");
   Distribution.Rollback "";
   Distribution.create_op (publish [rule_b] "bundle-3")].

(** Scenario S6: three decisions recorded into an empty table. *)
Definition decision (n : Z) (trace : string) : Ancestor.DecisionRecord :=
  Ancestor.post_init
    (Ancestor.mkDecisionRecord "agent-alice" ("task-" +++ string_of_Z n) "settlement"
       [("invoice", PStr "INV-42")] trace
       [("action", PStr "approve"); ("amount", PInt 1200)]
       0.91 "" 0.2 1200 "INR" [] [] [] [] None None None ""
       ("decision-" +++ string_of_Z n)
       (Datetime (1700000000000000 + n * 1000000) false) "" "").




End Scenario.

(** ** Sample data for the further properties *)

Module Samples.
Import Py.

(** A ledger with one decision uploaded and one waiting. *)
Definition backlog : Edge.LocalLedger :=
  let l1 :=
    snd (Edge.record_decision (Edge.new_LocalLedger "edge-gateway-001")
           (PStr "agent-alice") "write" "invoice-42" 45000 "edge" (PStr "allow")
           Edge.AllLocalPoliciesPassed (PStr "jti-alice") "decision-1"
           (Datetime 1700000100250000 true)) in
  let l2 := snd (Edge.mark_synced l1 ["decision-1"]) in
  snd (Edge.record_decision l2 (PStr "agent-alice") "write" "invoice-43" 20000 "edge"
         (PStr "deny") (Edge.RuleFailed (PStr "POL-1")) (PStr "jti-alice") "decision-2"
         (Datetime 1700000200500000 true)).

Definition outage : list Edge.http_result :=
  [Edge.HttpError; Edge.HttpResponse 503 []].

(** The scenario request of alice, sent from the cloud. *)
Definition from_cloud : Edge.AuthorizeRequest :=
  Edge.mkAuthorizeRequest (Scenario.token_of Scenario.alice) "write" "invoice-42" 45000
    "cloud" [].

(** Rules the enforcer has no branch for: a status check and a rule
    without a type. *)
Definition unknown_rules : Edge.LocalPolicyEnforcer :=
  Edge.mkLocalPolicyEnforcer [Scenario.POL_STATUS; [("name", PStr "untyped")]] (PStr "v1").


(** The client of alice at the edge, and one with an unknown token. *)
Definition client : Sdk.GovernanceClient :=
  Sdk.mkGovernanceClient (Scenario.token_of Scenario.alice) "http://localhost:8001" "edge"
    true (PStr "").

Definition allowed : Edge.AuthorizeResponse :=
  Edge.mkAuthorizeResponse true (PStr "allow") Edge.AllLocalPoliciesPassed
    (PStr "agent-alice") (PStr "T2") "edge-gateway-001" "online" "decision-1".

(** The service after alice's first passport was revoked, and what is done
    to it later. *)
Definition revoked_alice : Passport.PassportService :=
  snd (Passport.revoke Scenario.service (PStr "jti-alice")).

Definition later_calls : list Passport.op :=
  [Passport.Rotate (Scenario.token_of Scenario.alice) (Scenario.renewed 1700050000)
     1700050000 (Datetime 1700050000000000 true);
   Passport.Revoke (PStr "jti-bob");
   Passport.Issue (Scenario.renewed 1700050000) (Datetime 1700050000000000 true)].

Definition gene (gene_name gene_type : string) (strength : pyval) (origin : string) : dict :=
  [("gene_name", PStr gene_name); ("gene_type", PStr gene_type); ("strength", strength);
   ("acquired_from", PStr origin)].

(** A store with one bundle, and a rule whose parameters name a type. *)
Definition one_bundle : Distribution.PolicyDistributionService :=
  Distribution.run [Distribution.create_op (Scenario.publish [Scenario.rule_a] "bundle-1")].

Definition first_bundle : Distribution.PolicyBundle :=
  fst (Distribution.create_bundle Distribution.new_service [Scenario.rule_a] "" []
         (Datetime 1700000000000000 true) "bundle-1").

Definition retyped_rule : Distribution.PolicyRule :=
  Distribution.mkPolicyRule "c" "cap" "amount_limit"
    [("max_amount", PInt 500); ("type", PStr "status_check")]
    "deny" ["edge"] true (Datetime 1700000000000000 true).






End Samples.

(** * Properties *)

Lemma append_nonempty (a b : string) : a <> "" -> a +++ b <> "".
Proof. destruct a as [| c a]; [congruence | discriminate]. Qed.

Lemma hex_of_nonempty (n : nat) (x : Z) : Sha256.hex_of (S n) x <> "".
Proof.
  cbn [Sha256.hex_of]. destruct (Sha256.hex_of n (Z.shiftr x 4)); discriminate.
Qed.

(** A digest is never the empty string (it has 64 hexadecimal digits). *)
Lemma hexdigest_nonempty (s : string) : Sha256.hexdigest s <> "".
Proof.
  unfold Sha256.hexdigest, Sha256.digest_words. cbv zeta.
  cbn [map String.concat]. apply append_nonempty, hex_of_nonempty.
Qed.

(** Hashes are never unfolded by the symbolic proofs below. *)
#[local] Opaque Py.canonical_hash Sha256.hexdigest.

Example sha256_abc :
  Sha256.hexdigest "abc"
  = "ba7816bf8f01cfea414140de5dae2223b00361a396177a9cb410ff61f20015ad".
Proof. vm_compute. reflexivity. Qed.

Example sha256_empty :
  Sha256.hexdigest ""
  = "e3b0c44298fc1c149afbf4c8996fb92427ae41e4649b934ca495991b7852b855".
Proof. vm_compute. reflexivity. Qed.

(** [repr] and [round] agree with CPython on the values the services meet. *)
Example float_repr_samples :
  map Py.float_repr [45000; 0.1; 0.57; 1e16; 1e-5; 66.67; 0.30000000000000004]%float
  = ["45000.0"; "0.1"; "0.57"; "1e+16"; "1e-05"; "66.67"; "0.30000000000000004"].
Proof. vm_compute. reflexivity. Qed.

Example py_round_samples :
  (Py.py_round (2 / 3 * 100) 2 = 66.67
   /\ Py.py_round 2.675 2 = 2.67
   /\ Py.py_round 0.125 2 = 0.12
   /\ Py.py_round 0.2752 3 = 0.275)%float.
Proof. vm_compute. repeat split; reflexivity. Qed.

Example isoformat_samples :
  Py.isoformat (Py.Datetime 1700000000123456 true) = "2023-11-14T22:13:20.123456+00:00"
  /\ Py.isoformat (Py.Datetime 951782400000000 false) = "2000-02-29T00:00:00".
Proof. vm_compute. split; reflexivity. Qed.

(** ** Prophecy: the boundary scenario *)

(** C9, as amended.  For trust_score 0.55, authority_limit 10000, amount 9000,
    any tier and historical_success_rate 0.8, [simulate] produces the three
    paths approve, deny, escalate in that order; the authority ratio is
    exactly 0.9, which does not exceed 0.90, so the approve risk is
    0.3 + 0.3 * 0.9 = 0.57 with no surcharge, the approve trust delta is
    +0.01 and the approve weight is 0.275; the escalate weight is 0.585, the
    deny weight 0.03, and the recommended path is escalate. *)
Theorem prophecy_boundary_scenario (agent action tier why : string) (now : Py.datetime) :
  let r := Prophecy.simulate agent action 9000 0.55 tier 10000 0.8 why now in
  exists approve deny escalate,
    Prophecy.paths r = [approve; deny; escalate]
    /\ Prophecy.path_type approve = "approve"
    /\ Prophecy.path_type deny = "deny"
    /\ Prophecy.path_type escalate = "escalate"
    /\ Prophecy.risk_score approve = 0.57%float
    /\ Prophecy.predicted_trust_delta approve = Prophecy.mkDecimal 1 2
    /\ Prophecy.recommendation_weight approve = 0.275%float
    /\ Prophecy.recommendation_weight escalate = 0.585%float
    /\ Prophecy.recommendation_weight deny = 0.03%float
    /\ Prophecy.recommended_path r = "escalate".
Proof.
  cbv zeta. unfold Prophecy.simulate.
  do 3 eexists. split; [reflexivity |].
  vm_compute. repeat split; reflexivity.
Qed.

(** C9, as stated, fails: at the scenario's input the approve path has risk
    0.57 and weight 0.275, not 0.77 and 0.147. *)
Lemma prophecy_boundary_scenario_as_stated_fails :
  let r := Prophecy.simulate "agent-7" "write" 9000 0.55 "T4" 10000 0.8 ""
             (Py.Datetime 0 true) in
  map (fun p => (Prophecy.risk_score p, Prophecy.recommendation_weight p))
      (firstn 1 (Prophecy.paths r)) = [(0.57, 0.275)%float]
  /\ PrimFloat.eqb 0.57 0.77 = false
  /\ PrimFloat.eqb 0.275 0.147 = false
  /\ Py.float_gt (9000 / 10000) 0.90 = false.
Proof. vm_compute. repeat split; reflexivity. Qed.

(** ** Local enforcer: first failing rule decides *)

Section Enforcer.
Import Py Edge.

Variables (tier trust limit : pyval) (action : string) (amt : float) (ctx : dict).

#[local] Abbreviation passes := (Edge.passes tier trust limit action amt ctx).
#[local] Abbreviation fails := (Edge.fails tier trust limit action amt ctx).

Lemma evaluate_from_passing (pre rest : list dict) (n : Z) :
  Forall passes pre ->
  evaluate_from (pre ++ rest) n tier trust limit action amt ctx
  = evaluate_from rest (n + Z.of_nat (length pre)) tier trust limit action amt ctx.
Proof.
  intros Hpre. revert n.
  induction Hpre as [| rule pre Hrule _ IH]; intros n.
  - simpl. f_equal. lia.
  - cbn [app evaluate_from length]. unfold passes in Hrule. rewrite Hrule.
    rewrite IH. f_equal. lia.
Qed.

(** C5.  Rules are evaluated in bundle order.  When the rules before some
    point all pass, the verdict is decided there: if the bundle ends at
    that point (in particular if it is empty) the verdict is allow; if the
    next rule fails, the verdict is that rule's [on_fail] (deny when the
    rule has none), whatever the rules after it would say. *)
Theorem evaluate_first_failing_rule_decides
    (e : LocalPolicyEnforcer) (pre rest : list dict) :
  _rules e = pre ++ rest ->
  Forall passes pre ->
  match rest with [] => True | rule :: _ => fails rule end ->
  evaluate e tier trust limit action amt ctx
  = Some match rest with
         | [] => mkEnforcerVerdict (PStr "allow") AllLocalPoliciesPassed
                   (Z.of_nat (length pre))
         | rule :: _ => failure_of rule (Z.of_nat (length pre) + 1)
         end.
Proof.
  intros Hrules Hpre Hrest. unfold evaluate. rewrite Hrules.
  rewrite (evaluate_from_passing pre rest 0 Hpre).
  destruct rest as [| rule post]; cbn [evaluate_from].
  - reflexivity.
  - unfold fails in Hrest. rewrite Hrest. reflexivity.
Qed.

End Enforcer.

Lemma evaluate_first_failing_rule_decides_witness :
  let e := Edge.mkLocalPolicyEnforcer [Scenario.POL_1; Scenario.POL_2; Scenario.POL_3] (Py.PStr "v1") in
  let passing := Edge.passes (Py.PStr "T2") (Py.PFloat 0.8) (Py.PInt 50000) "write" 80000 [] in
  let failing := Edge.fails (Py.PStr "T2") (Py.PFloat 0.8) (Py.PInt 50000) "write" 80000 [] in
  (Forall passing [Scenario.POL_1] /\ failing Scenario.POL_2)
  /\ Edge.evaluate e (Py.PStr "T2") (Py.PFloat 0.8) (Py.PInt 50000) "write" 80000 []
     = Some (Edge.mkEnforcerVerdict (Py.PStr "escalate")
               (Edge.RuleFailed (Py.PStr "POL-2")) 2).
Proof.
  cbv zeta.
  assert (Hpass : Forall (Edge.passes (Py.PStr "T2") (Py.PFloat 0.8) (Py.PInt 50000)
                            "write" 80000 []) [Scenario.POL_1]).
  { repeat constructor. }
  assert (Hfail : Edge.fails (Py.PStr "T2") (Py.PFloat 0.8) (Py.PInt 50000)
                    "write" 80000 [] Scenario.POL_2).
  { reflexivity. }
  split; [split; assumption |].
  exact (evaluate_first_failing_rule_decides
           (Py.PStr "T2") (Py.PFloat 0.8) (Py.PInt 50000) "write" 80000 []
           (Edge.mkLocalPolicyEnforcer [Scenario.POL_1; Scenario.POL_2; Scenario.POL_3] (Py.PStr "v1"))
           [Scenario.POL_1] [Scenario.POL_2; Scenario.POL_3] eq_refl Hpass Hfail).
Defined.

(** ** Edge verifier: the revocation list *)

Section Revocation.
Import Py Edge.

Variable J : Jwt.library.

(** C10.  [update_revocation_list L] replaces the verifier's revocation set
    by the set of the jtis in [L]: afterwards a token that decodes (well
    formed, signed, unexpired) is rejected as revoked exactly when its jti is
    in [L], whatever was revoked before the call; a jti absent from [L] is
    accepted with its claims. *)
Theorem update_revocation_list_replaces_set
    (v : PassportVerifier) (L : list string) (token : string) (now : Z)
    (decoded : dict) (j : string) :
  Jwt.decode J token (jwt_secret v) (algorithm v) now = Jwt.Decoded decoded ->
  get_or decoded "jti" (PStr "") = PStr j ->
  let v' := update_revocation_list v L in
  (forall k : string, k ∈ _revocation_set v' <-> k ∈ L)
  /\ verify J v' token now
     = Some (if bool_decide (j ∈ L)
             then mkVerificationResult false [] PassportRevoked (mode v)
             else mkVerificationResult true decoded NoReason (mode v))
  /\ (option_map vr_reason (verify J v' token now) = Some PassportRevoked <-> j ∈ L)
  /\ (j ∉ L -> option_map valid (verify J v' token now) = Some true).
Proof.
  intros Hdecode Hjti v'.
  assert (Hset : forall k : string, k ∈ _revocation_set v' <-> k ∈ L).
  { intros k. unfold v', update_revocation_list. cbn [_revocation_set].
    apply elem_of_list_to_set. }
  assert (Hverify : verify J v' token now
     = Some (if bool_decide (j ∈ L)
             then mkVerificationResult false [] PassportRevoked (mode v)
             else mkVerificationResult true decoded NoReason (mode v))).
  { unfold verify. unfold v' at 1 2. unfold update_revocation_list at 1 2.
    cbn [jwt_secret algorithm]. rewrite Hdecode, Hjti. cbn [in_str_set].
    rewrite (bool_decide_ext _ _ (Hset j)).
    destruct (bool_decide (j ∈ L)); reflexivity. }
  split; [exact Hset |]. split; [exact Hverify |].
  rewrite Hverify. split.
  - split.
    + intros H. destruct (bool_decide (j ∈ L)) eqn:E.
      * apply bool_decide_eq_true in E. exact E.
      * cbn in H. discriminate H.
    + intros H. rewrite (bool_decide_eq_true_2 _ H). reflexivity.
  - intros H. rewrite (bool_decide_eq_false_2 _ H). reflexivity.
Qed.

End Revocation.

(** A jti revoked before the call and absent from the new list is accepted
    again. *)
Lemma update_revocation_list_replaces_set_witness :
  let v := Edge.update_revocation_list
             (Edge.new_PassportVerifier (Edge.JWT_SECRET Scenario.cfg) "" "HS256")
             ["jti-alice"] in
  let token := Scenario.token_of Scenario.alice in
  (Jwt.decode Scenario.jwt token (Edge.jwt_secret v) (Edge.algorithm v) 1700000100
   = Jwt.Decoded Scenario.alice
   /\ Py.get_or Scenario.alice "jti" (Py.PStr "") = Py.PStr "jti-alice"
   /\ option_map Edge.vr_reason (Edge.verify Scenario.jwt v token 1700000100)
      = Some Edge.PassportRevoked)
  /\ option_map Edge.valid
       (Edge.verify Scenario.jwt (Edge.update_revocation_list v ["jti-mallory"])
          token 1700000100)
     = Some true.
Proof.
  cbv zeta.
  split; [vm_compute; repeat split; reflexivity |].
  refine (proj2 (proj2 (proj2
            (update_revocation_list_replaces_set Scenario.jwt
               (Edge.update_revocation_list
                  (Edge.new_PassportVerifier (Edge.JWT_SECRET Scenario.cfg) "" "HS256")
                  ["jti-alice"])
               ["jti-mallory"] (Scenario.token_of Scenario.alice) 1700000100
               Scenario.alice "jti-alice" _ _))) _).
  - vm_compute. reflexivity.
  - reflexivity.
  - intros H. apply list_elem_of_singleton in H. discriminate H.
Defined.

(** ** Edge gateway: what a run does to the verifier and to the ledger *)

Section GatewayRuns.
Import Py Edge.

Variables (J : Jwt.library) (cfg : Config).

#[local] Abbreviation effect := (Edge.effect J cfg).

Lemma new_LocalDecision_well_hashed agent act res amt env v why jti gw fresh_id now :
  well_hashed (new_LocalDecision agent act res amt env v why jti gw fresh_id now).
Proof. unfold new_LocalDecision, with_hash, _compute_hash, hash_payload. reflexivity. Qed.

Lemma record_decision_appends (l : LocalLedger) agent act res amt env v why jti fresh_id now :
  record_decision l agent act res amt env v why jti fresh_id now
  = (fresh_id,
     mkLocalLedger (ledger_gateway_id l)
       (_entries l
        ++ [new_LocalDecision agent act res amt env v why jti (ledger_gateway_id l)
              fresh_id now])
       fresh_id).
Proof. reflexivity. Qed.

(** [authorize] never touches the verifier or the enforcer.  A call that
    responds appends exactly one well-hashed record carrying the verdict and
    the decision id of the response; a call refused with 401 leaves the
    gateway as it was; a call that raises leaves it as it was or has
    appended one well-hashed record. *)
Lemma authorize_effect (g : Gateway) (req : AuthorizeRequest) (clock : Z)
    (fresh_id : string) (stamp : datetime) :
  let o := fst (authorize J cfg g req clock fresh_id stamp) in
  let g' := snd (authorize J cfg g req clock fresh_id stamp) in
  verifier g' = verifier g
  /\ enforcer g' = enforcer g
  /\ match o with
     | Responded r =>
         exists d, _entries (ledger g') = _entries (ledger g) ++ [d]
                   /\ well_hashed d
                   /\ record_key d = response_key r
                   /\ resp_mode r = mode (verifier g)
     | Unauthorized _ => g' = g
     | Raised =>
         g' = g
         \/ exists d, _entries (ledger g') = _entries (ledger g) ++ [d] /\ well_hashed d
     end.
Proof.
  cbv zeta. unfold authorize, _log_and_record, respond.
  destruct (verify J (verifier g) (passport_token req) clock) as [result |];
    [| split; [| split]; [reflexivity .. | left; reflexivity]].
  destruct (valid result); cbn [negb]; [| split; [| split]; reflexivity].
  destruct (get_or (claims result) "ag" (PDict []));
    try (split; [| split]; [reflexivity .. | left; reflexivity]).
  destruct (py_in _ _) as [[|] |];
    [| | split; [| split]; [reflexivity .. | left; reflexivity]].
  - destruct (evaluate _ _ _ _ _ _ _) as [v |];
      [| split; [| split]; [reflexivity .. | left; reflexivity]].
    rewrite record_decision_appends.
    destruct (is_string _ && is_string _ && is_string _);
      cbn [fst snd verifier enforcer ledger _entries];
      (split; [reflexivity |]); (split; [reflexivity |]).
    + eexists. split; [reflexivity |].
      split; [apply new_LocalDecision_well_hashed |]. split; reflexivity.
    + right. eexists. split; [reflexivity | apply new_LocalDecision_well_hashed].
  - rewrite record_decision_appends.
    destruct (is_string _ && is_string _ && is_string _);
      cbn [fst snd verifier enforcer ledger _entries last_decision_id];
      (split; [reflexivity |]); (split; [reflexivity |]).
    + eexists. split; [reflexivity |].
      split; [apply new_LocalDecision_well_hashed |]. split; reflexivity.
    + right. eexists. split; [reflexivity | apply new_LocalDecision_well_hashed].
Qed.

Lemma mark_synced_entries (l : LocalLedger) (ids : list string) :
  map record_key (_entries (snd (mark_synced l ids))) = map record_key (_entries l)
  /\ (Forall well_hashed (_entries l) ->
      Forall well_hashed (_entries (snd (mark_synced l ids)))).
Proof.
  unfold mark_synced. cbn [snd _entries].
  induction (_entries l) as [| e es IH]; [split; [reflexivity | constructor] |].
  destruct IH as (Hkey & Hh). cbn [map]. split.
  - rewrite Hkey. destruct (existsb _ ids); reflexivity.
  - intros Hall. inversion Hall as [| ? ? He Hes]; subst.
    constructor; [| exact (Hh Hes)].
    destruct (existsb _ ids); exact He.
Qed.

Lemma flush_ledger_entries (l : LocalLedger) (r : http_result) :
  map record_key (_entries (snd (flush_ledger l r))) = map record_key (_entries l)
  /\ (Forall well_hashed (_entries l) ->
      Forall well_hashed (_entries (snd (flush_ledger l r)))).
Proof.
  unfold flush_ledger. destruct (get_unsynced l) as [| u us]; [split; auto |].
  destruct r as [| code body]; [split; auto |].
  destruct (Z.eqb code 200); [| split; auto].
  pose proof (mark_synced_entries l (map id (u :: us))) as H.
  destruct (mark_synced l (map id (u :: us))) as [n l']. exact H.
Qed.

Lemma trigger_sync_effect (g g' : Gateway) (rp rr : http_result) (sp sr : sync_status) :
  trigger_sync g rp rr = Some (sp, sr, g') ->
  ledger g' = ledger g /\ mode (verifier g') = mode (verifier g).
Proof.
  unfold trigger_sync.
  destruct (sync_policies (enforcer g) rp) as [[sp' e] |]; [| discriminate].
  destruct (sync_revocation_list (verifier g) rr) as [[sr' v] |] eqn:E; [| discriminate].
  intros H. injection H as <- <- <-. split; [reflexivity |]. cbn [verifier].
  unfold sync_revocation_list in E.
  destruct rr as [| code body]; [injection E as <- <-; reflexivity |].
  destruct (Z.eqb code 200); [| injection E as <- <-; reflexivity].
  destruct (get_or body "revoked_jtis" (PList [])); try discriminate.
  destruct (as_strs items); [| discriminate]. injection E as <- <-. reflexivity.
Qed.

Lemma handle_effect (g : Gateway) (ev : event) : effect g (handle J cfg g ev) [ev].
Proof.
  unfold Edge.effect. destruct ev as [req clock fresh_id stamp | rp rr | r];
    cbn [handle responses]; rewrite ?app_nil_r.
  - pose proof (authorize_effect g req clock fresh_id stamp) as H. cbv zeta in H.
    destruct H as (Hv & _ & Ho). rewrite Hv.
    destruct (fst (authorize J cfg g req clock fresh_id stamp)) as [resp | why |].
    + destruct Ho as (d & He & Hd & Hkey & Hmode). rewrite He.
      split; [reflexivity |]. split; [| split].
      * exists [record_key d]. rewrite map_app. split; [reflexivity |].
        cbn [map]. rewrite Hkey. reflexivity.
      * constructor; [exact Hmode | constructor].
      * intros Hall. apply Forall_app. split; [exact Hall |].
        constructor; [exact Hd | constructor].
    + rewrite Ho. split; [reflexivity |]. split; [| split; [constructor | auto]].
      exists []. rewrite app_nil_r. split; [reflexivity | constructor].
    + split; [reflexivity |]. destruct Ho as [-> | (d & He & Hd)].
      * split; [| split; [constructor | auto]].
        exists []. rewrite app_nil_r. split; [reflexivity | constructor].
      * rewrite He. split; [| split; [constructor |]].
        -- exists [record_key d]. rewrite map_app. split; [reflexivity |].
           apply sublist_nil_l.
        -- intros Hall. apply Forall_app. split; [exact Hall |].
           constructor; [exact Hd | constructor].
  - destruct (trigger_sync g rp rr) as [[[sp sr] g'] |] eqn:E.
    + destruct (trigger_sync_effect g g' rp rr sp sr E) as [Hl Hm].
      rewrite Hl, Hm. split; [reflexivity |]. split; [| split; [constructor | auto]].
      exists []. rewrite app_nil_r. split; [reflexivity | constructor].
    + split; [reflexivity |]. split; [| split; [constructor | auto]].
      exists []. rewrite app_nil_r. split; [reflexivity | constructor].
  - cbn [ledger verifier].
    destruct (flush_ledger_entries (ledger g) r) as (Hkey & Hh).
    split; [reflexivity |]. split; [| split; [constructor | exact Hh]].
    exists []. rewrite app_nil_r. split; [exact Hkey | constructor].
Qed.

Lemma responses_app (g : Gateway) (evs1 evs2 : list event) :
  responses J cfg g (evs1 ++ evs2)
  = responses J cfg g evs1 ++ responses J cfg (run J cfg g evs1) evs2.
Proof.
  revert g. induction evs1 as [| ev evs1 IH]; intros g; [reflexivity |].
  cbn [app responses run fold_left]. rewrite IH. unfold run.
  rewrite app_assoc. reflexivity.
Qed.

Lemma run_effect (g : Gateway) (evs : list event) : effect g (run J cfg g evs) evs.
Proof.
  revert g. induction evs as [| ev evs IH]; intros g.
  - unfold Edge.effect. cbn [run fold_left responses map].
    split; [reflexivity |]. split; [| split; [constructor | auto]].
    exists []. rewrite app_nil_r. split; [reflexivity | constructor].
  - change (run J cfg g (ev :: evs)) with (run J cfg (handle J cfg g ev) evs).
    destruct (handle_effect g ev) as (Hm & (a1 & Ha1 & Hs1) & Hr & Hh).
    destruct (IH (handle J cfg g ev)) as (Hm' & (a2 & Ha2 & Hs2) & Hr' & Hh').
    unfold Edge.effect. change (ev :: evs) with ([ev] ++ evs). rewrite responses_app.
    change (run J cfg g [ev]) with (handle J cfg g ev).
    split; [rewrite Hm'; exact Hm |]. split; [| split].
    + exists (a1 ++ a2). rewrite Ha2, Ha1, <- app_assoc. split; [reflexivity |].
      rewrite map_app. apply sublist_app; assumption.
    + apply Forall_app. split; [exact Hr |]. rewrite <- Hm. exact Hr'.
    + auto.
Qed.

(** C1, as amended.  For every run of the gateway from boot, every
    [Authorize] call that returned a verdict has left a record in the ledger
    carrying the decision id and the verdict of its response, in call order,
    and the hash of every record in the ledger is the SHA-256 of the
    canonical JSON of exactly the fields id, agent_id, action_type, verdict,
    amount, environment and timestamp: the records have no [prev_hash] and
    are not chained. *)
Theorem local_ledger_hashes_seven_fields (evs : list event) :
  let g := run J cfg (boot cfg) evs in
  let entries := _entries (ledger g) in
  sublist (map response_key (responses J cfg (boot cfg) evs)) (map record_key entries)
  /\ Forall (fun d =>
       hash d = Sha256.hexdigest (dumps true (PDict (hash_payload d)))
       /\ map fst (hash_payload d)
          = ["id"; "agent_id"; "action_type"; "verdict"; "amount"; "environment";
             "timestamp"]) entries.
Proof.
  cbv zeta. destruct (run_effect (boot cfg) evs) as (_ & (added & Ha & Hs) & _ & Hh).
  split; [rewrite Ha; exact Hs |].
  assert (Hboot : Forall well_hashed (_entries (ledger (boot cfg)))) by constructor.
  specialize (Hh Hboot).
  eapply Forall_impl; [exact Hh |].
  intros d Hd. split; [exact Hd | reflexivity].
Qed.

(** C8: what the code does.  Whatever the gateway is asked to do after boot,
    failed syncs included, the verifier's mode stays ["online"]: so does the
    mode reported by [/status], and every response carries it. *)
Theorem gateway_mode_is_always_online (evs : list event) :
  let g := run J cfg (boot cfg) evs in
  mode (verifier g) = "online"
  /\ status_mode (status cfg g) = "online"
  /\ Forall (fun r => resp_mode r = "online") (responses J cfg (boot cfg) evs).
Proof.
  cbv zeta. destruct (run_effect (boot cfg) evs) as (Hm & _ & Hr & _).
  cbn [status status_mode]. rewrite Hm. repeat split; exact Hr.
Qed.

End GatewayRuns.

(** C1, as stated, fails: after two authorizations that return a verdict, the
    hash of neither record is the SHA-256 over the fields together with a
    [prev_hash] (empty for the first, the first record's hash for the second),
    and the hashed payload has no [prev_hash] entry at all. *)
Lemma local_ledger_is_not_chained :
  let g := Edge.run Scenario.jwt Scenario.cfg (Edge.boot Scenario.cfg) Scenario.two_calls in
  match Edge._entries (Edge.ledger g) with
  | [d1; d2] =>
      map Edge.resp_verdict
        (Edge.responses Scenario.jwt Scenario.cfg (Edge.boot Scenario.cfg) Scenario.two_calls)
      = [Py.PStr "allow"; Py.PStr "allow"]
      /\ String.eqb (Edge.hash d1) (Edge.hash_with_prev_hash d1 "") = false
      /\ String.eqb (Edge.hash d2) (Edge.hash_with_prev_hash d2 (Edge.hash d1)) = false
      /\ Py.dict_get (Edge.hash_payload d2) "prev_hash" = None
  | _ => False
  end.
Proof. vm_compute. repeat split; reflexivity. Qed.

(** C8, at a failing input: after two syncs in a row that could not reach the
    control plane, [/status] still reports ["online"], and so does the
    response to an authorization made then. *)
Lemma mode_after_two_failed_syncs :
  let g := Edge.run Scenario.jwt Scenario.cfg (Edge.boot Scenario.cfg)
             Scenario.two_failed_syncs in
  Edge.status_mode (Edge.status Scenario.cfg g) = "online"
  /\ map Edge.resp_mode (Edge.responses Scenario.jwt Scenario.cfg g Scenario.two_calls)
     = ["online"; "online"].
Proof. vm_compute. split; reflexivity. Qed.

(** ** The status rule at the edge and in the cloud *)

(** C6, as amended.  For every rule of type [status_check]: the cloud
    evaluator passes it exactly when the agent's status is ["active"]; the
    local enforcer, which is given no agent status, treats it as an unknown
    rule type and passes it for every agent and action, so its [on_fail] is
    never applied at the edge. *)
Theorem status_check_cloud_decides_edge_passes (rule : Py.dict) :
  Py.dict_get rule "type" = Some (Py.PStr "status_check") ->
  (forall agent action context,
      Sentinel._evaluate_rule rule agent action context
      = Some (String.eqb (Sentinel.status agent) "active"))
  /\ (forall tier trust limit action amt ctx,
        Edge._evaluate_rule rule tier trust limit action amt ctx = Some true)
  /\ (forall tier trust limit action amt ctx version,
        Edge.evaluate (Edge.mkLocalPolicyEnforcer [rule] version)
          tier trust limit action amt ctx
        = Some (Edge.mkEnforcerVerdict (Py.PStr "allow") Edge.AllLocalPoliciesPassed 1)).
Proof.
  intros Htype.
  assert (Hedge : forall tier trust limit action amt ctx,
             Edge._evaluate_rule rule tier trust limit action amt ctx = Some true).
  { intros. unfold Edge._evaluate_rule, Py.get_or. rewrite Htype. reflexivity. }
  split; [| split; [exact Hedge |]].
  - intros. unfold Sentinel._evaluate_rule, Py.get_or. rewrite Htype. reflexivity.
  - intros. unfold Edge.evaluate. cbn [Edge._rules Edge.evaluate_from].
    rewrite Hedge. reflexivity.
Qed.

Lemma status_check_cloud_decides_edge_passes_witness :
  Py.dict_get Scenario.POL_STATUS "type" = Some (Py.PStr "status_check")
  /\ Sentinel._evaluate_rule Scenario.POL_STATUS
       (Sentinel.mkAgent "settlement" "suspended" "T2" 8000 4) [] []
     = Some false
  /\ Edge._evaluate_rule Scenario.POL_STATUS (Py.PStr "T2") (Py.PFloat 0.8)
       (Py.PInt 50000) "write" 100 [("status", Py.PStr "suspended")]
     = Some true.
Proof.
  split; [reflexivity |].
  pose proof (status_check_cloud_decides_edge_passes Scenario.POL_STATUS eq_refl)
    as (Hcloud & Hedge & _).
  split.
  - exact (Hcloud (Sentinel.mkAgent "settlement" "suspended" "T2" 8000 4) [] []).
  - exact (Hedge (Py.PStr "T2") (Py.PFloat 0.8) (Py.PInt 50000) "write" 100%float
             [("status", Py.PStr "suspended")]).
Defined.

(** C6, as stated, fails: with a bundle holding a [status_check] rule whose
    [on_fail] is deny, an agent whose claims say it is suspended is allowed
    by the edge gateway. *)
Lemma suspended_agent_passes_status_check_at_edge :
  let g := Edge.handle Scenario.jwt Scenario.cfg (Edge.boot Scenario.cfg)
             Scenario.status_bundle in
  Edge._rules (Edge.enforcer g) = [Scenario.POL_STATUS]
  /\ Py.dict_get Scenario.mallory "ag"
     = Some (Py.PDict [("name", Py.PStr "agent-mallory"); ("role", Py.PStr "settlement");
                       ("tier", Py.PStr "T2"); ("trust_score", Py.PFloat 0.8);
                       ("authority_limit", Py.PInt 50000);
                       ("allowed_environments", Py.PList [Py.PStr "edge"]);
                       ("dna_fingerprint", Py.PStr "no-genes");
                       ("status", Py.PStr "suspended")])
  /\ map (fun r => (Edge.authorized r, Edge.resp_verdict r))
       (Edge.responses Scenario.jwt Scenario.cfg g
          [Edge.Authorize (Scenario.request Scenario.mallory 100) 1700000100 "decision-1"
             (Py.Datetime 1700000100250000 true)])
     = [(true, Py.PStr "allow")].
Proof. vm_compute. repeat split; reflexivity. Qed.

(** ** Passport rotation *)

Section Rotation.
Import Py Passport.

Variable J : Jwt.library.

Lemma issue_payload_jti (p : AgentPassport) (now : datetime) :
  get_or (issue_payload p now) "jti" (PStr "") = PStr (jti p).
Proof. reflexivity. Qed.

Lemma existsb_py_eq_app (k j : string) (s : list pyval) :
  existsb (py_eq (PStr k)) (s ++ [PStr j])
  = existsb (py_eq (PStr k)) s || String.eqb k j.
Proof.
  rewrite existsb_app. cbn [existsb]. rewrite orb_false_r. reflexivity.
Qed.

(** The revocation set after [rotate], when the old token decodes to claims
    whose jti is the string [j]: [j] has been added unless it was there. *)
Lemma rotate_revocation_set (svc : PassportService) (old_token : string)
    (new_passport : AgentPassport) (clock : Z) (now : datetime) (c : dict) (j : string) :
  Jwt.decode J old_token (public_key svc) (algorithm svc) clock = Jwt.Decoded c ->
  get_or c "jti" (PStr "") = PStr j ->
  _revocation_set (snd (rotate J svc old_token new_passport clock now))
  = if existsb (py_eq (PStr j)) (_revocation_set svc)
    then _revocation_set svc
    else _revocation_set svc ++ [PStr j].
Proof.
  intros Hdecode Hjti. unfold rotate, verify. rewrite Hdecode. cbv zeta. rewrite Hjti.
  unfold set_contains. cbn [hashable snd].
  destruct (existsb (py_eq (PStr j)) (_revocation_set svc)) eqn:E; [reflexivity |].
  rewrite Hjti. unfold revoke, set_add. cbn [hashable]. rewrite E. reflexivity.
Qed.

Lemma rotate_keeps_keys (svc : PassportService) (old_token : string)
    (new_passport : AgentPassport) (clock : Z) (now : datetime) :
  let svc' := snd (rotate J svc old_token new_passport clock now) in
  public_key svc' = public_key svc /\ private_key svc' = private_key svc
  /\ algorithm svc' = algorithm svc.
Proof.
  cbv zeta. unfold rotate. cbn [snd].
  destruct (verify J svc old_token clock) as [e | c]; [repeat split |].
  unfold revoke. destruct (set_add _ _); repeat split.
Qed.

(** C2, as amended.  [rotate] always returns the token that [issue] makes for
    the new passport.  When the old token verifies at the time of the call
    up to revocation (it decodes: valid signature, not expired) its jti is in
    the revocation set when [rotate] returns, and nothing else was added; so
    afterwards [verify] of the old token fails as revoked for as long as the
    token decodes, and [verify] of the new token returns the new claims
    whenever the new token decodes and its jti is neither the old jti nor
    one revoked before.  When the old token does not decode (expired, bad
    signature, malformed) [rotate] leaves the revocation set as it was. *)
Theorem rotate_revokes_a_token_that_decodes
    (svc : PassportService) (old_token : string) (new_passport : AgentPassport)
    (clock : Z) (now : datetime) :
  (forall c, Jwt.decode J old_token (public_key svc) (algorithm svc) clock = Jwt.Decoded c ->
             exists j, get_or c "jti" (PStr "") = PStr j) ->
  let new_token := fst (rotate J svc old_token new_passport clock now) in
  let svc' := snd (rotate J svc old_token new_passport clock now) in
  new_token = Jwt.encode J (issue_payload new_passport now) (private_key svc) (algorithm svc)
  /\ match Jwt.decode J old_token (public_key svc) (algorithm svc) clock with
     | Jwt.Decoded c =>
         is_revoked svc' (get_or c "jti" (PStr "")) = Some true
         /\ (forall k : string,
                is_revoked svc' (PStr k)
                = Some (existsb (py_eq (PStr k)) (_revocation_set svc)
                        || py_eq (PStr k) (get_or c "jti" (PStr ""))))
         /\ (forall t, Jwt.decode J old_token (public_key svc) (algorithm svc) t
                       = Jwt.Decoded c ->
                       verify J svc' old_token t = inl Revoked)
     | _ => svc' = svc
     end
  /\ (forall t, Jwt.decode J new_token (public_key svc) (algorithm svc) t
                = Jwt.Decoded (issue_payload new_passport now) ->
                is_revoked svc' (PStr (jti new_passport)) = Some false ->
                verify J svc' new_token t = inr (issue_payload new_passport now)).
Proof.
  intros Hstr new_token svc'.
  destruct (rotate_keeps_keys svc old_token new_passport clock now) as (Hpub & Hpriv & Halg).
  fold svc' in Hpub, Hpriv, Halg.
  assert (Htoken : new_token
            = Jwt.encode J (issue_payload new_passport now) (private_key svc) (algorithm svc)).
  { change new_token with (issue J svc' new_passport now).
    unfold issue. rewrite Hpriv, Halg. reflexivity. }
  split; [exact Htoken |]. split.
  - destruct (Jwt.decode J old_token (public_key svc) (algorithm svc) clock)
      as [c | |] eqn:Hdecode.
    + destruct (Hstr c eq_refl) as [j Hjti].
      pose proof (rotate_revocation_set svc old_token new_passport clock now c j
                    Hdecode Hjti) as Hset.
      fold svc' in Hset. rewrite Hjti.
      assert (Hk : forall k : string,
                 is_revoked svc' (PStr k)
                 = Some (existsb (py_eq (PStr k)) (_revocation_set svc)
                         || py_eq (PStr k) (PStr j))).
      { intros k. unfold is_revoked, set_contains. cbn [hashable]. rewrite Hset.
        destruct (existsb (py_eq (PStr j)) (_revocation_set svc)) eqn:E.
        - f_equal. change (py_eq (PStr k) (PStr j)) with (String.eqb k j).
          destruct (String.eqb k j) eqn:Ekj.
          + apply String.eqb_eq in Ekj. subst k. rewrite E. reflexivity.
          + rewrite orb_false_r. reflexivity.
        - rewrite existsb_py_eq_app. reflexivity. }
      assert (Hj : is_revoked svc' (PStr j) = Some true).
      { rewrite Hk. change (py_eq (PStr j) (PStr j)) with (String.eqb j j).
        rewrite String.eqb_refl, orb_true_r. reflexivity. }
      split; [exact Hj |]. split; [exact Hk |].
      intros t Ht. unfold verify. rewrite Hpub, Halg, Ht. cbv zeta. rewrite Hjti.
      unfold is_revoked in Hj. rewrite Hj. reflexivity.
    + unfold svc', rotate, verify. rewrite Hdecode. reflexivity.
    + unfold svc', rotate, verify. rewrite Hdecode. reflexivity.
  - intros t Ht Hfresh. unfold verify. rewrite Hpub, Halg, Ht. cbv zeta.
    rewrite issue_payload_jti. unfold is_revoked in Hfresh. rewrite Hfresh. reflexivity.
Qed.

End Rotation.

(** A rotation made while the old token is still valid. *)
Lemma rotate_revokes_a_token_that_decodes_witness :
  let J := Scenario.rotation_jwt 1700050000 in
  let old_token := Scenario.token_of Scenario.alice in
  let r := Passport.rotate J Scenario.service old_token (Scenario.renewed 1700050000)
             1700050000 (Py.Datetime 1700050000000000 true) in
  (forall c, Jwt.decode J old_token (Passport.public_key Scenario.service)
               (Passport.algorithm Scenario.service) 1700050000 = Jwt.Decoded c ->
             exists j, Py.get_or c "jti" (Py.PStr "") = Py.PStr j)
  /\ Passport.is_revoked (snd r) (Py.PStr "jti-alice") = Some true
  /\ Passport.verify J (snd r) old_token 1700050060 = inl Passport.Revoked
  /\ Passport.verify J (snd r) (fst r) 1700050060
     = inr (Passport.issue_payload (Scenario.renewed 1700050000)
              (Py.Datetime 1700050000000000 true)).
Proof.
  cbv zeta.
  assert (Hstr : forall c,
             Jwt.decode (Scenario.rotation_jwt 1700050000)
               (Scenario.token_of Scenario.alice)
               (Passport.public_key Scenario.service)
               (Passport.algorithm Scenario.service) 1700050000 = Jwt.Decoded c ->
             exists j, Py.get_or c "jti" (Py.PStr "") = Py.PStr j).
  { intros c Hc. vm_compute in Hc. injection Hc as <-. exists "jti-alice". reflexivity. }
  split; [exact Hstr |].
  pose proof (rotate_revokes_a_token_that_decodes (Scenario.rotation_jwt 1700050000)
                Scenario.service (Scenario.token_of Scenario.alice)
                (Scenario.renewed 1700050000) 1700050000
                (Py.Datetime 1700050000000000 true) Hstr) as H.
  cbv zeta in H. destruct H as (_ & Hold & Hnew).
  assert (Hdecode : Jwt.decode (Scenario.rotation_jwt 1700050000)
            (Scenario.token_of Scenario.alice) (Passport.public_key Scenario.service)
            (Passport.algorithm Scenario.service) 1700050000 = Jwt.Decoded Scenario.alice).
  { vm_compute. reflexivity. }
  rewrite Hdecode in Hold. destruct Hold as (Hrev & _ & Hverify).
  split; [exact Hrev |]. split.
  - apply Hverify. vm_compute. reflexivity.
  - apply Hnew; vm_compute; reflexivity.
Defined.

(** C2, as stated, fails: an old token that has expired still has a payload
    that can be decoded, yet [rotate] does not add its jti to the revocation
    set, and [verify] then rejects the old token as expired, not as
    revoked. *)
Lemma rotate_does_not_revoke_an_expired_token :
  let J := Scenario.rotation_jwt 1700090000 in
  let old_token := Scenario.token_of Scenario.alice in
  let r := Passport.rotate J Scenario.service old_token (Scenario.renewed 1700090000)
             1700090000 (Py.Datetime 1700090000000000 true) in
  option_map (fun c => Py.get_or c "jti" (Py.PStr "")) (Passport.extract_claims J old_token)
  = Some (Py.PStr "jti-alice")
  /\ Passport.is_revoked (snd r) (Py.PStr "jti-alice") = Some false
  /\ Passport.verify J (snd r) old_token 1700090060 = inl Passport.ExpiredSignatureError
  /\ Passport.verify J (snd r) (fst r) 1700090060
     = inr (Passport.issue_payload (Scenario.renewed 1700090000)
              (Py.Datetime 1700090000000000 true)).
Proof. vm_compute. repeat split; reflexivity. Qed.

(** ** Policy bundles: hash and chain *)

Section Bundles.
Import Py Distribution.

Lemma create_bundle_effect (svc : PolicyDistributionService) (rs : list PolicyRule)
    (v : string) (meta : dict) (now : datetime) (fresh_id : string) :
  let b := fst (create_bundle svc rs v meta now fresh_id) in
  let svc' := snd (create_bundle svc rs v meta now fresh_id) in
  rules b = rs
  /\ parent_hash b = match _current svc with Some c => hash c | None => "" end
  /\ hash b = _compute_hash b
  /\ _bundles svc' = _bundles svc ++ [b]
  /\ _current svc' = Some b.
Proof. cbv zeta. repeat split. Qed.

Lemma rollback_to_effect (svc : PolicyDistributionService) (v : string) :
  let svc' := snd (rollback_to svc v) in
  _bundles svc' = _bundles svc
  /\ (_current svc' = _current svc
      \/ exists b, In b (_bundles svc) /\ _current svc' = Some b).
Proof.
  cbv zeta. unfold rollback_to, get_bundle_by_version.
  destruct (find _ (_bundles svc)) as [target |] eqn:E; cbn [snd _bundles _current].
  - split; [reflexivity |]. right. exists target. split; [| reflexivity].
    apply (find_some _ _ E).
  - split; [reflexivity | left; reflexivity].
Qed.

Lemma rollback_popping_effect (svc : PolicyDistributionService) (top_first : list string) :
  let svc' := snd (rollback_popping svc top_first) in
  _bundles svc' = _bundles svc
  /\ (_current svc' = _current svc
      \/ exists b, In b (_bundles svc) /\ _current svc' = Some b).
Proof.
  cbv zeta. induction top_first as [| prev below IH]; cbn [rollback_popping].
  - split; [reflexivity | left; reflexivity].
  - destruct (String.eqb prev ""); [exact IH |].
    exact (rollback_to_effect
             (mkService (_bundles svc) (_current svc) (_gateway_versions svc) (rev below))
             prev).
Qed.

(** [rollback] creates no bundle: it repoints [current] to a published bundle
    or leaves it. *)
Lemma rollback_effect (svc : PolicyDistributionService) (target_version : string) :
  let svc' := snd (rollback svc target_version) in
  _bundles svc' = _bundles svc
  /\ (_current svc' = _current svc
      \/ exists b, In b (_bundles svc) /\ _current svc' = Some b).
Proof.
  cbv zeta. unfold rollback. destruct (String.eqb target_version "").
  - apply rollback_popping_effect.
  - apply rollback_to_effect.
Qed.

Lemma apply_keeps_store_ok (svc : PolicyDistributionService) (o : op) :
  store_ok svc -> store_ok (apply svc o).
Proof.
  intros (Hcur & Hhash & Hroot). destruct o as [rs v meta now fresh_id | t]; cbn [apply].
  - destruct (create_bundle_effect svc rs v meta now fresh_id)
      as (_ & Hparent & Hb & Hbundles & Hcurrent).
    unfold store_ok. rewrite Hbundles, Hcurrent. split; [| split].
    + apply in_or_app. right. left. reflexivity.
    + apply Forall_app. split; [exact Hhash |]. constructor; [exact Hb | constructor].
    + apply rooted_snoc; [exact Hroot |]. unfold parent_ok.
      destruct (_current svc) as [c |].
      * destruct (_bundles svc) as [| b0 bs]; [contradiction Hcur |].
        exists c. split; [exact Hcur | exact Hparent].
      * rewrite Hcur. exact Hparent.
  - destruct (rollback_effect svc t) as (Hbundles & Hcurrent).
    unfold store_ok. rewrite Hbundles. split; [| split; assumption].
    destruct Hcurrent as [-> | (b & Hin & ->)]; [exact Hcur | exact Hin].
Qed.

Lemma run_store_ok (ops : list op) : store_ok (run ops).
Proof.
  unfold run.
  assert (H : forall svc, store_ok svc -> store_ok (fold_left apply ops svc)).
  { induction ops as [| o ops IH]; intros svc Hsvc; [exact Hsvc |].
    cbn [fold_left]. apply IH, apply_keeps_store_ok, Hsvc. }
  apply H. repeat split; constructor.
Qed.

(** C3, as amended.  The hash of every published bundle is the SHA-256 of the
    canonical JSON (keys sorted) of its version, its rules in the order the
    bundle holds them, each as its [to_dict], and its parent hash; the rules
    are not sorted by id.  The integrity check accepts a bundle exactly when
    recomputing this hash reproduces the stored one. *)
Theorem bundle_hash_covers_rules_in_bundle_order :
  (forall ops : list op,
      Forall (fun b =>
                hash b
                = Sha256.hexdigest
                    (dumps true
                       (PDict [("version", PStr (version b));
                               ("rules", PList (map (fun r => PDict (to_dict r)) (rules b)));
                               ("parent_hash", PStr (parent_hash b))]))
                /\ verify_integrity b = true)
             (_bundles (run ops)))
  /\ (forall b : PolicyBundle, verify_integrity b = true <-> hash b = _compute_hash b).
Proof.
  assert (Hiff : forall b : PolicyBundle,
             verify_integrity b = true <-> hash b = _compute_hash b).
  { intros b. unfold verify_integrity. apply String.eqb_eq. }
  split; [| exact Hiff].
  intros ops. destruct (run_store_ok ops) as (_ & Hhash & _).
  eapply Forall_impl; [exact Hhash |].
  intros b Hb. split; [exact Hb | apply Hiff, Hb].
Qed.

Lemma linked_parents (prev : string) (l : list PolicyBundle) :
  linked prev l ->
  forall x, In x (map parent_hash l) -> x = prev \/ In x (map hash l).
Proof.
  revert prev. induction l as [| b rest IH]; intros prev Hl x Hx; [contradiction Hx |].
  destruct Hl as [Hb Hrest]. destruct Hx as [<- | Hx]; [left; exact Hb |].
  right. destruct (IH (hash b) Hrest x Hx) as [-> | Hin].
  - left. reflexivity.
  - right. exact Hin.
Qed.

(** In a linked list whose hashes are pairwise distinct and differ from the
    starting point, no two bundles share a [parent_hash]. *)
Lemma linked_parents_distinct (prev : string) (l : list PolicyBundle) :
  linked prev l ->
  ~ In prev (map hash l) ->
  List.NoDup (map hash l) ->
  List.NoDup (map parent_hash l).
Proof.
  revert prev. induction l as [| b rest IH]; intros prev Hl Hprev Hnodup.
  - constructor.
  - destruct Hl as [Hb Hrest]. cbn [map] in *.
    apply List.NoDup_cons_iff in Hnodup. destruct Hnodup as [Hfresh Hnodup'].
    constructor.
    + rewrite Hb. intros Hin.
      destruct (linked_parents (hash b) rest Hrest prev Hin) as [Heq | Hin'].
      * apply Hprev. left. symmetry. exact Heq.
      * apply Hprev. right. exact Hin'.
    + apply (IH (hash b) Hrest Hfresh Hnodup').
Qed.

Lemma create_only_linked (cs : list creation) (svc : PolicyDistributionService) :
  let svc' := fold_left apply (map create_op cs) svc in
  exists added,
    _bundles svc' = _bundles svc ++ added
    /\ linked (match _current svc with Some c => hash c | None => "" end) added
    /\ Forall (fun b => hash b = _compute_hash b) added.
Proof.
  cbv zeta. revert svc. induction cs as [| c cs IH]; intros svc.
  - exists []. rewrite app_nil_r. repeat split. constructor.
  - cbn [map fold_left].
    change (apply svc (create_op c))
      with (snd (create_bundle svc (c_rules c) (c_version c) (c_metadata c)
                   (c_now c) (c_fresh_id c))).
    destruct (create_bundle_effect svc (c_rules c) (c_version c) (c_metadata c)
                (c_now c) (c_fresh_id c)) as (_ & Hparent & Hb & Hbundles & Hcurrent).
    destruct (IH (snd (create_bundle svc (c_rules c) (c_version c) (c_metadata c)
                         (c_now c) (c_fresh_id c)))) as (added & Hadded & Hlinked & Hhash).
    rewrite Hcurrent in Hlinked. rewrite Hbundles in Hadded.
    eexists (_ :: added). split; [| split].
    + rewrite Hadded, <- app_assoc. reflexivity.
    + split; [exact Hparent | exact Hlinked].
    + constructor; [exact Hb | exact Hhash].
Qed.

(** C4, as amended.  Each published bundle's [parent_hash] is the hash of
    the bundle that was current when it was created (empty when none was).
    [Rollback] creates no bundle and only repoints [current] to a published
    bundle, so the next bundle is chained to the rollback target: in every
    run the published list is rooted (each non-first bundle's parent is some
    earlier bundle), and it is a single chain, in which no two bundles share
    a [parent_hash] as long as their hashes are distinct, when the run makes
    no rollback. *)
Theorem parent_hash_is_the_tip_at_creation :
  (forall svc rs v meta now fresh_id,
      parent_hash (fst (create_bundle svc rs v meta now fresh_id))
      = match _current svc with Some c => hash c | None => "" end)
  /\ (forall svc target_version,
        _bundles (snd (rollback svc target_version)) = _bundles svc)
  /\ (forall ops : list op,
        rooted (_bundles (run ops))
        /\ match _current (run ops) with
           | Some c => In c (_bundles (run ops))
           | None => _bundles (run ops) = []
           end)
  /\ (forall cs : list creation,
        linked "" (_bundles (run (map create_op cs)))
        /\ (List.NoDup (map hash (_bundles (run (map create_op cs)))) ->
            List.NoDup (map parent_hash (_bundles (run (map create_op cs)))))).
Proof.
  split; [reflexivity |].
  split; [intros svc t; apply rollback_effect |].
  split.
  - intros ops. destruct (run_store_ok ops) as (Hcur & _ & Hroot). split; assumption.
  - intros cs. destruct (create_only_linked cs new_service) as (added & Hadded & Hl & Hh).
    cbn [new_service _bundles _current app] in Hadded, Hl.
    unfold run. rewrite Hadded. split; [exact Hl |].
    apply (linked_parents_distinct "" added Hl).
    intros Hin. apply in_map_iff in Hin. destruct Hin as (b & Hb & Hin).
    rewrite Forall_forall in Hh. rewrite (Hh b) in Hb.
    + exact (hexdigest_nonempty _ Hb).
    + apply list_elem_of_In. exact Hin.
Qed.

End Bundles.

(** C3, as stated, fails: a published bundle whose rules are not in id order
    passes the integrity check, and its hash is not the hash over the rules
    sorted by id. *)
Lemma bundle_hash_is_not_over_sorted_rules :
  let b := fst (Distribution.create_bundle Distribution.new_service
                  [Scenario.rule_b; Scenario.rule_a] "" []
                  (Py.Datetime 1700000000000000 true) "bundle-1") in
  map Distribution.rule_id (Distribution.sorted_by_id (Distribution.rules b)) = ["a"; "b"]
  /\ Distribution.verify_integrity b = true
  /\ String.eqb (Distribution.hash b) (Distribution.hash_over_sorted_rules b) = false.
Proof. vm_compute. repeat split; reflexivity. Qed.

(** C4, as stated, fails: publish, publish, roll back one step, publish
    again; the second and the third bundle are different bundles with the
    same [parent_hash], the hash of the first. *)
Lemma two_bundles_share_a_parent_after_rollback :
  match Distribution._bundles (Distribution.run Scenario.publish_rollback_publish) with
  | [first; second; third] =>
      map Distribution.version [first; second; third]
      = ["v2023.11.14-001"; "v2023.11.14-002"; "v2023.11.14-003"]
      /\ Distribution.parent_hash second = Distribution.hash first
      /\ Distribution.parent_hash third = Distribution.hash first
      /\ String.eqb (Distribution.hash second) (Distribution.hash third) = false
  | _ => False
  end.
Proof. vm_compute. repeat split; reflexivity. Qed.

(** ** Master ledger: what [verify_chain] checks *)

Section ChainVerification.
Import Py Ancestor.












End ChainVerification.



(** Two publications without a rollback: distinct hashes, hence distinct
    parents. *)
Lemma parent_hash_is_the_tip_at_creation_witness :
  let bundles :=
    Distribution._bundles
      (Distribution.run
         (map Distribution.create_op
            [Scenario.publish [Scenario.rule_a] "bundle-1";
             Scenario.publish [Scenario.rule_b] "bundle-2"])) in
  List.NoDup (map Distribution.hash bundles)
  /\ List.NoDup (map Distribution.parent_hash bundles).
Proof.
  cbv zeta.
  assert (Hhashes : List.NoDup
            (map Distribution.hash
               (Distribution._bundles
                  (Distribution.run
                     (map Distribution.create_op
                        [Scenario.publish [Scenario.rule_a] "bundle-1";
                         Scenario.publish [Scenario.rule_b] "bundle-2"]))))).
  { vm_compute. apply List.NoDup_cons.
    - intros [H | []]. discriminate H.
    - apply List.NoDup_cons; [intros [] | apply List.NoDup_nil]. }
  split; [exact Hhashes |].
  pose proof parent_hash_is_the_tip_at_creation as H.
  destruct H as (_ & _ & _ & H).
  destruct (H [Scenario.publish [Scenario.rule_a] "bundle-1";
               Scenario.publish [Scenario.rule_b] "bundle-2"]) as [_ Hparents].
  exact (Hparents Hhashes).
Defined.

(** * Further properties *)

(** ** The ledger and its upload *)

Section Upload.
Import Py Edge.

Lemma rehash_to_dict (d : LocalDecision) :
  rehash (to_dict d) = canonical_hash (hash_payload d).
Proof. unfold rehash. f_equal. Qed.

Lemma to_dict_hash (d : LocalDecision) : dict_get (to_dict d) "hash" = Some (PStr (hash d)).
Proof. reflexivity. Qed.

Lemma well_hashed_unsynced (l : LocalLedger) :
  Forall well_hashed (_entries l) -> Forall well_hashed (get_unsynced l).
Proof.
  unfold get_unsynced. intros H. rewrite List.Forall_forall in *.
  intros d Hd. apply List.filter_In in Hd. apply H. apply Hd.
Qed.

Variables (J : Jwt.library) (cfg : Config).

(** X1.  Whatever the gateway has been asked to do since it booted, every
    decision in the body it posts to the control plane carries a hash that
    the receiver reproduces from the uploaded fields: the SHA-256 of the
    canonical JSON of id, agent_id, action_type, verdict, amount,
    environment and timestamp as the upload gives them. *)
Theorem uploaded_decisions_can_be_rehashed (evs : list event) (sender : string) :
  let g := run J cfg (boot cfg) evs in
  exists uploaded,
    dict_get (flush_body sender (ledger g)) "decisions" = Some (PList (map PDict uploaded))
    /\ uploaded = map to_dict (get_unsynced (ledger g))
    /\ Forall (fun u => dict_get u "hash" = Some (PStr (rehash u))) uploaded.
Proof.
  cbv zeta. exists (map to_dict (get_unsynced (ledger (run J cfg (boot cfg) evs)))).
  split; [| split; [reflexivity |]].
  - unfold flush_body. rewrite map_map. reflexivity.
  - destruct (run_effect J cfg (boot cfg) evs) as (_ & _ & _ & Hh).
    specialize (Hh (List.Forall_nil _)).
    apply well_hashed_unsynced in Hh.
    apply List.Forall_map. revert Hh. apply List.Forall_impl.
    intros d Hd. rewrite rehash_to_dict, to_dict_hash. unfold well_hashed in Hd.
    rewrite Hd. reflexivity.
Qed.

End Upload.

Section Flushing.
Import Py Edge.

Lemma with_synced_true_id (e : LocalDecision) :
  synced e = true -> with_synced e true = e.
Proof. destruct e. cbn. intros ->. reflexivity. Qed.

Lemma existsb_eqb_In (x : string) (l : list string) :
  existsb (String.eqb x) l = true <-> In x l.
Proof.
  rewrite List.existsb_exists. split.
  - intros (y & Hy & E). apply String.eqb_eq in E. subst. exact Hy.
  - intros H. exists x. split; [exact H | apply String.eqb_refl].
Qed.

(** Among entries with distinct ids, the ids of the unsynced entries pick
    out the unsynced entries. *)
Lemma hit_unsynced (es : list LocalDecision) (e : LocalDecision) :
  List.NoDup (map id es) -> In e es ->
  existsb (String.eqb (id e))
    (map id (List.filter (fun e => negb (synced e)) es))
  = negb (synced e).
Proof.
  intros Hnd Hin. destruct (synced e) eqn:Es; cbn [negb].
  - apply not_true_is_false. intros H. apply existsb_eqb_In in H.
    apply List.in_map_iff in H. destruct H as (e' & Hid & He').
    apply List.filter_In in He'. destruct He' as (He' & Hs').
    assert (e' = e).
    { clear Hs' Es. induction es as [| x es IH]; [contradiction |].
      cbn [map] in Hnd. apply List.NoDup_cons_iff in Hnd. destruct Hnd as (Hx & Hnd).
      destruct Hin as [-> | Hin], He' as [-> | He'].
      - reflexivity.
      - exfalso. apply Hx. rewrite <- Hid. apply List.in_map. exact He'.
      - exfalso. apply Hx. rewrite Hid. apply List.in_map. exact Hin.
      - apply IH; assumption. }
    subst e'. rewrite Es in Hs'. discriminate Hs'.
  - apply existsb_eqb_In. apply List.in_map. apply List.filter_In.
    split; [exact Hin |]. rewrite Es. reflexivity.
Qed.

Lemma all_synced (es : list LocalDecision) :
  List.filter (fun e => negb (synced e)) (map (fun e => with_synced e true) es) = [].
Proof. induction es as [| e es IH]; [reflexivity |]. cbn. exact IH. Qed.

(** What a successful upload marks, whatever the ids are: every entry ends
    up synced and nothing else about it changes. *)
Lemma mark_unsynced_entries (es : list LocalDecision) :
  let hit := fun e : LocalDecision =>
               existsb (String.eqb (id e))
                 (map id (List.filter (fun e => negb (synced e)) es)) in
  map (fun e => if hit e then with_synced e true else e) es
  = map (fun e => with_synced e true) es.
Proof.
  cbv zeta. apply List.map_ext_in. intros e He.
  destruct (existsb _ _) eqn:Eh; [reflexivity |].
  symmetry. apply with_synced_true_id.
  destruct (synced e) eqn:Es; [reflexivity |].
  exfalso. apply not_true_iff_false in Eh. apply Eh.
  apply existsb_eqb_In. apply List.in_map. apply List.filter_In.
  split; [exact He |]. rewrite Es. reflexivity.
Qed.

(** X2.  When the control plane answers the upload with 200 and the ledger
    holds entries that are not synced yet, [flush_ledger] reports as flushed
    exactly the number of entries that were unsynced (the ids in the ledger
    being distinct), every entry is marked synced and nothing else in the
    ledger changes; a flush that follows finds nothing to flush, whatever
    the control plane would answer. *)
Theorem flush_ledger_marks_the_backlog_synced (l : LocalLedger) (body : dict) :
  List.NoDup (map id (_entries l)) ->
  get_unsynced l <> [] ->
  let l' := mkLocalLedger (ledger_gateway_id l)
              (map (fun e => with_synced e true) (_entries l)) (last_decision_id l) in
  flush_ledger l (HttpResponse 200 body) = (Flushed (unsynced_count l), l')
  /\ unsynced_count l' = 0
  /\ forall r, flush_ledger l' r = (NothingToFlush, l').
Proof.
  intros Hnd Hne. cbv zeta. split; [| split].
  - unfold flush_ledger. destruct (get_unsynced l) as [| u us] eqn:Eu; [contradiction |].
    cbn [Z.eqb Pos.eqb]. rewrite <- Eu. unfold mark_synced, unsynced_count, get_unsynced.
    f_equal.
    + f_equal. f_equal. f_equal. apply List.filter_ext_in. intros e He.
      apply hit_unsynced; assumption.
    + f_equal. apply mark_unsynced_entries.
  - unfold unsynced_count, get_unsynced. cbn [_entries]. rewrite all_synced. reflexivity.
  - intros r. unfold flush_ledger, get_unsynced. cbn [_entries]. rewrite all_synced.
    reflexivity.
Qed.

(** X3.  Failed uploads lose nothing: after any number of flush attempts
    that fail (no connection, or a status other than 200) the ledger is
    exactly as it was, and each attempt reports the whole backlog as
    buffered, or nothing to flush when there is none. *)
Theorem failed_flushes_keep_the_backlog (l : LocalLedger) (rs : list http_result) :
  Forall exchange_failed rs ->
  fold_left (fun l r => snd (flush_ledger l r)) rs l = l
  /\ Forall (fun r => flush_ledger l r
                      = (if Z.eqb (unsynced_count l) 0 then NothingToFlush
                         else FailedBuffered (unsynced_count l), l)) rs.
Proof.
  intros Hrs.
  assert (Hone : forall r, exchange_failed r ->
            flush_ledger l r
            = (if Z.eqb (unsynced_count l) 0 then NothingToFlush
               else FailedBuffered (unsynced_count l), l)).
  { intros r Hr. unfold flush_ledger, unsynced_count.
    destruct (get_unsynced l) as [| u us]; [reflexivity |].
    change (Z.eqb (Z.of_nat (List.length (u :: us))) 0) with false.
    destruct r as [| c b]; [reflexivity |]. cbn in Hr.
    apply Z.eqb_neq in Hr. rewrite Hr. reflexivity. }
  split.
  - induction Hrs as [| r rs Hr Hrs IH]; [reflexivity |].
    cbn [fold_left]. rewrite (Hone r Hr). exact IH.
  - revert Hrs. apply List.Forall_impl. exact Hone.
Qed.

End Flushing.

(** ** The gateway: passports, environments and the policy bundle *)

Section Authorization.
Import Py Edge.

Variables (J : Jwt.library) (cfg : Config).

(** X4.  A passport that is expired, that does not decode, or whose jti is
    on the revocation list is refused with 401, and the refusal leaves no
    trace: the ledger, the verifier and the enforcer are as before.  No
    call refused with 401 ever writes a ledger record. *)
Theorem refused_passport_leaves_no_record (g : Gateway) (req : AuthorizeRequest)
    (clock : Z) (fresh_id : string) (stamp : datetime) :
  match Jwt.decode J (passport_token req) (jwt_secret (verifier g))
          (algorithm (verifier g)) clock with
  | Jwt.ExpiredSignatureError =>
      authorize J cfg g req clock fresh_id stamp = (Unauthorized PassportExpired, g)
  | Jwt.InvalidTokenError =>
      authorize J cfg g req clock fresh_id stamp = (Unauthorized InvalidSignature, g)
  | Jwt.Decoded decoded =>
      match get_or decoded "jti" (PStr "") with
      | PStr j =>
          if bool_decide (j ∈ _revocation_set (verifier g))
          then authorize J cfg g req clock fresh_id stamp = (Unauthorized PassportRevoked, g)
          else forall why, fst (authorize J cfg g req clock fresh_id stamp) <> Unauthorized why
      | _ => True
      end
  end
  /\ forall why,
       fst (authorize J cfg g req clock fresh_id stamp) = Unauthorized why ->
       snd (authorize J cfg g req clock fresh_id stamp) = g.
Proof.
  split.
  - unfold authorize, verify.
    destruct (Jwt.decode J _ _ _ _) as [decoded | |]; [| reflexivity | reflexivity].
    destruct (get_or decoded "jti" (PStr "")) as [| | | | j | |] eqn:Ej; try exact I.
    cbn [in_str_set]. destruct (bool_decide _); [reflexivity |].
    cbn [valid negb claims]. intros why.
    destruct (get_or decoded "ag" (PDict [])); try discriminate.
    destruct (py_in _ _) as [[|] |]; try discriminate.
    + destruct (evaluate _ _ _ _ _ _ _); [| discriminate].
      destruct (record_decision _ _ _ _ _ _ _ _ _ _ _). unfold respond.
      destruct (_ && _); discriminate.
    + unfold respond. destruct (_ && _); discriminate.
  - intros why H. pose proof (authorize_effect J cfg g req clock fresh_id stamp) as He.
    cbv zeta in He. rewrite H in He. apply He.
Qed.

(** X5.  An agent whose passport does not list the environment of the
    request is denied before any policy is looked at, and the ledger record
    of that denial differs from the records of evaluated requests: it
    carries an empty [passport_jti] although the passport has a jti, and a
    reason text other than the one given to the caller. *)
Theorem environment_denial_is_recorded_without_jti (g : Gateway) (req : AuthorizeRequest)
    (clock : Z) (fresh_id : string) (stamp : datetime) (decoded ag : dict) :
  Jwt.decode J (passport_token req) (jwt_secret (verifier g)) (algorithm (verifier g)) clock
  = Jwt.Decoded decoded ->
  in_str_set (get_or decoded "jti" (PStr "")) (_revocation_set (verifier g)) = Some false ->
  get_or decoded "ag" (PDict []) = PDict ag ->
  py_in (PStr (req_environment req)) (get_or ag "allowed_environments" (PList []))
  = Some false ->
  let agent := get_or decoded "sub" (PStr "unknown") in
  let record :=
    new_LocalDecision agent (req_action_type req) (req_resource req) (req_amount req)
      (req_environment req) (PStr "deny") (EnvironmentNotPermitted (req_environment req))
      (PStr "") (ledger_gateway_id (ledger g)) fresh_id stamp in
  authorize J cfg g req clock fresh_id stamp
  = (respond (mkAuthorizeResponse false (PStr "deny")
                (PassportDoesNotPermit (req_environment req)) agent
                (get_or ag "tier" (PStr "T4")) (GATEWAY_ID cfg) (mode (verifier g))
                fresh_id),
     mkGateway (verifier g) (enforcer g)
       (mkLocalLedger (ledger_gateway_id (ledger g)) (_entries (ledger g) ++ [record])
          fresh_id))
  /\ passport_jti record = PStr ""
  /\ reason_text (decision_reason record)
     <> reason_text (PassportDoesNotPermit (req_environment req)).
Proof.
  intros Hdec Hrev Hag Hin. cbv zeta. split; [| split].
  - unfold authorize, verify. rewrite Hdec, Hrev. cbn [valid negb claims].
    rewrite Hag, Hin. unfold _log_and_record. rewrite record_decision_appends.
    reflexivity.
  - reflexivity.
  - cbn. intros H. discriminate H.
Qed.

(** A rule is of no type the enforcer knows: its ["type"] is missing, is
    not a string, or is a string other than the six it evaluates. *)
Lemma unknown_rule_passes (rule : dict) (tier trust limit : pyval) (action : string)
    (amt : float) (ctx : dict) :
  unknown_rule_type rule -> _evaluate_rule rule tier trust limit action amt ctx = Some true.
Proof.
  unfold unknown_rule_type, _evaluate_rule. intros H.
  repeat match goal with
         | |- context [is_str ?v ?s] =>
             rewrite (H s) by (cbn; tauto)
         end.
  reflexivity.
Qed.

(** X6.  The enforcer fails open on what it does not know: a bundle made
    only of rules whose type it does not evaluate allows every action of
    every agent, having counted every rule as checked. *)
Theorem unknown_rule_types_allow_everything (e : LocalPolicyEnforcer)
    (tier trust limit : pyval) (action : string) (amt : float) (ctx : dict) :
  Forall unknown_rule_type (_rules e) ->
  evaluate e tier trust limit action amt ctx
  = Some (mkEnforcerVerdict (PStr "allow") AllLocalPoliciesPassed (policy_count e)).
Proof.
  intros H. unfold evaluate, policy_count.
  assert (Hgen : forall n,
            evaluate_from (_rules e) n tier trust limit action amt ctx
            = Some (mkEnforcerVerdict (PStr "allow") AllLocalPoliciesPassed
                      (n + Z.of_nat (List.length (_rules e))))).
  { induction H as [| rule rules Hr Hrs IH]; intros n.
    - cbn. rewrite Z.add_0_r. reflexivity.
    - cbn [evaluate_from]. rewrite (unknown_rule_passes _ _ _ _ _ _ _ Hr), IH.
      do 2 f_equal. cbn [List.length]. lia. }
  rewrite Hgen. reflexivity.
Qed.


(** X8.  The verifier hands out claims only for a token that decodes and
    is not revoked: a result marked valid carries exactly the decoded
    payload, and every other result carries no claims.  The results for
    expired and undecodable tokens always say mode [online], whatever the
    mode of the verifier is; the others say the verifier's mode. *)
Theorem verifier_gives_claims_only_for_valid_tokens (v : PassportVerifier) (token : string)
    (now : Z) (r : VerificationResult) :
  verify J v token now = Some r ->
  (if valid r
   then Jwt.decode J token (jwt_secret v) (algorithm v) now = Jwt.Decoded (claims r)
        /\ in_str_set (get_or (claims r) "jti" (PStr "")) (_revocation_set v) = Some false
        /\ vr_reason r = NoReason
   else claims r = [] /\ vr_reason r <> NoReason)
  /\ vr_mode r = match vr_reason r with
                 | PassportExpired | InvalidSignature => "online"
                 | _ => mode v
                 end.
Proof.
  unfold verify. destruct (Jwt.decode J token _ _ now) as [decoded | |].
  - destruct (in_str_set _ _) as [[|] |] eqn:E; [| | discriminate];
      intros H; injection H as <-; cbn.
    + split; [split; [reflexivity | discriminate] | reflexivity].
    + split; [split; [reflexivity | split; [exact E | reflexivity]] | reflexivity].
  - intros H; injection H as <-; cbn. split; [split; [reflexivity | discriminate] | reflexivity].
  - intros H; injection H as <-; cbn. split; [split; [reflexivity | discriminate] | reflexivity].
Qed.

End Authorization.

(** ** From the passport service to the gateway, and from the gateway to the SDK *)

Section EndToEnd.
Import Py.

Variables (J : Jwt.library) (cfg : Edge.Config).

Lemma existsb_py_eq_strings (x : string) (l : list string) :
  existsb (py_eq (PStr x)) (map PStr l) = existsb (String.eqb x) l.
Proof.
  induction l as [| y l IH]; [reflexivity |].
  cbn [existsb map]. rewrite IH. reflexivity.
Qed.

(** X9.  A passport issued by the passport service, presented at a gateway
    that accepts its signature and has not revoked its jti, is judged on
    what the passport says: the request is denied when its environment is
    not one the passport allows, and otherwise the enforcer is run on the
    passport's tier, its trust score rounded to four decimals and its
    authority limit, and its verdict is the answer. *)
Theorem issued_passport_is_judged_on_its_claims
    (svc : Passport.PassportService) (p : Passport.AgentPassport) (now : datetime)
    (g : Edge.Gateway) (action resource : string) (amount : float) (env : string)
    (ctx : dict) (clock : Z) (fresh_id : string) (stamp : datetime) :
  let token := Passport.issue J svc p now in
  let req := Edge.mkAuthorizeRequest token action resource amount env ctx in
  Jwt.decode J token (Edge.jwt_secret (Edge.verifier g)) (Edge.algorithm (Edge.verifier g))
    clock
  = Jwt.Decoded (Passport.issue_payload p now) ->
  bool_decide (Passport.jti p ∈ Edge._revocation_set (Edge.verifier g)) = false ->
  fst (Edge.authorize J cfg g req clock fresh_id stamp)
  = if Passport.allows_environment p env then
      match Edge.evaluate (Edge.enforcer g) (PStr (Passport.tier p))
              (PFloat (py_round (Passport.trust_score p) 4)) (Passport.authority_limit p)
              action amount ctx with
      | Some v =>
          Edge.respond
            (Edge.mkAuthorizeResponse (is_str (Edge.ev_verdict v) "allow")
               (Edge.ev_verdict v) (Edge.ev_reason v) (PStr (Passport.agent_id p))
               (PStr (Passport.tier p)) (Edge.GATEWAY_ID cfg)
               (Edge.mode (Edge.verifier g)) fresh_id)
      | None => Edge.Raised
      end
    else
      Edge.Responded
        (Edge.mkAuthorizeResponse false (PStr "deny") (Edge.PassportDoesNotPermit env)
           (PStr (Passport.agent_id p)) (PStr (Passport.tier p)) (Edge.GATEWAY_ID cfg)
           (Edge.mode (Edge.verifier g)) fresh_id).
Proof.
  cbv zeta. intros Hdec Hrev.
  unfold Edge.authorize, Edge.verify. cbn [Edge.passport_token]. rewrite Hdec.
  change (get_or (Passport.issue_payload p now) "jti" (PStr ""))
    with (PStr (Passport.jti p)).
  cbn [Edge.in_str_set]. rewrite Hrev. cbn [Edge.valid negb Edge.claims].
  change (get_or (Passport.issue_payload p now) "ag" (PDict []))
    with (PDict (dict_of
           [("name", PStr (Passport.agent_name p));
            ("role", PStr (Passport.agent_role p));
            ("tier", PStr (Passport.tier p));
            ("trust_score", PFloat (py_round (Passport.trust_score p) 4));
            ("authority_limit", Passport.authority_limit p);
            ("allowed_environments", PList (map PStr (Passport.allowed_environments p)));
            ("dna_fingerprint", PStr (Passport.dna_fingerprint p))])).
  cbv beta iota.
  change (get_or (dict_of _) "allowed_environments" (PList []))
    with (PList (map PStr (Passport.allowed_environments p))).
  cbn [py_in Edge.req_environment]. rewrite existsb_py_eq_strings.
  unfold Passport.allows_environment.
  destruct (existsb (String.eqb env) (Passport.allowed_environments p)).
  - change (get_or (dict_of _) "tier" (PStr "T4")) with (PStr (Passport.tier p)).
    change (get_or (dict_of _) "trust_score" (PFloat 0))
      with (PFloat (py_round (Passport.trust_score p) 4)).
    change (get_or (dict_of _) "authority_limit" (PInt 0))
      with (Passport.authority_limit p).
    cbn [Edge.req_action_type Edge.req_amount Edge.context].
    destruct (Edge.evaluate _ _ _ _ _ _ _) as [v |]; [| reflexivity].
    rewrite record_decision_appends. reflexivity.
  - unfold Edge._log_and_record. rewrite record_decision_appends.
    change (get_or (dict_of _) "tier" (PStr "T4")) with (PStr (Passport.tier p)).
    reflexivity.
Qed.

(** Every response of the gateway has passed the validation of its model:
    its verdict, agent id and tier are strings. *)
Lemma responded_verdict_is_string (g : Edge.Gateway) (req : Edge.AuthorizeRequest)
    (clock : Z) (fresh_id : string) (stamp : datetime) (r : Edge.AuthorizeResponse) :
  fst (Edge.authorize J cfg g req clock fresh_id stamp) = Edge.Responded r ->
  exists v, Edge.resp_verdict r = PStr v.
Proof.
  assert (Hresp : forall r', Edge.respond r' = Edge.Responded r ->
                             exists v, Edge.resp_verdict r = PStr v).
  { intros r'. unfold Edge.respond.
    destruct (Edge.resp_verdict r') as [| | | | v | |] eqn:Ev; cbn; try discriminate.
    destruct (_ && _); [| discriminate].
    intros H. injection H as <-. exists v. exact Ev. }
  unfold Edge.authorize.
  destruct (Edge.verify _ _ _ _) as [result |]; [| discriminate].
  destruct (Edge.valid result); cbn [negb]; [| discriminate].
  destruct (get_or _ "ag" _); try discriminate.
  destruct (py_in _ _) as [[|] |]; try discriminate.
  - destruct (Edge.evaluate _ _ _ _ _ _ _); [| discriminate].
    destruct (Edge.record_decision _ _ _ _ _ _ _ _ _ _ _). cbn [fst]. apply Hresp.
  - cbn [fst]. apply Hresp.
Qed.

(** X10.  What the gateway answers is what the client returns: for every
    call that the gateway answers with a response, [authorize] of the SDK
    returns that response's authorization, verdict, reason text, tier, mode
    and decision id, and remembers the decision id. *)
Theorem sdk_returns_the_gateway_response
    (c : Sdk.GovernanceClient) (action resource : string) (amount : float)
    (context : option dict) (g : Edge.Gateway) (clock : Z) (fresh_id : string)
    (stamp : datetime) (latency : float) (r : Edge.AuthorizeResponse) :
  fst (Edge.authorize J cfg g (Sdk.request_of c action resource amount context)
         clock fresh_id stamp)
  = Edge.Responded r ->
  Sdk.authorize c (Sdk.exchange_of (Edge.Responded r) latency)
  = (Sdk.mkAuthorizationResult (PBool (Edge.authorized r)) (Edge.resp_verdict r)
       (Sdk.GatewayReason (PStr (Edge.reason_text (Edge.resp_reason r))))
       (PStr (Edge.decision_id r)) (Edge.agent_tier r) (PFloat latency)
       (PStr (Edge.resp_mode r)),
     Sdk.with_last_decision_id c (PStr (Edge.decision_id r))).
Proof.
  intros H. destruct (responded_verdict_is_string _ _ _ _ _ _ H) as (v & Hv).
  unfold Sdk.authorize, Sdk.exchange_of.
  change (get_or (Edge.response_body r latency) "verdict" (PStr "deny"))
    with (Edge.resp_verdict r).
  cbv beta iota zeta. cbn [Sdk.verdict]. rewrite Hv. rewrite <- Hv. reflexivity.
Qed.

(** X11.  A passport that the gateway refuses is let through by a client
    that fails open: when the token is expired, does not decode or is
    revoked, the gateway answers 401, the client's request raises, and the
    client returns its fallback, which for [fail_open] (the default) says
    authorized, verdict [allow], mode [offline]; with [fail_open] off it
    says denied. *)
Theorem sdk_fails_open_on_a_refused_passport
    (c : Sdk.GovernanceClient) (action resource : string) (amount : float)
    (context : option dict) (g : Edge.Gateway) (clock : Z) (fresh_id : string)
    (stamp : datetime) (latency : float) :
  match Jwt.decode J (Sdk.passport_token c) (Edge.jwt_secret (Edge.verifier g))
          (Edge.algorithm (Edge.verifier g)) clock with
  | Jwt.Decoded decoded =>
      Edge.in_str_set (get_or decoded "jti" (PStr "")) (Edge._revocation_set (Edge.verifier g))
      = Some true
  | _ => True
  end ->
  let answer :=
    fst (Edge.authorize J cfg g (Sdk.request_of c action resource amount context)
           clock fresh_id stamp) in
  let result := fst (Sdk.authorize c (Sdk.exchange_of answer latency)) in
  (exists why, answer = Edge.Unauthorized why)
  /\ Sdk.authorized result = PBool (Sdk.fail_open c)
  /\ Sdk.verdict result = PStr (if Sdk.fail_open c then "allow" else "deny")
  /\ Sdk.mode result = PStr "offline"
  /\ Sdk.decision_id result = PStr "offline".
Proof.
  intros Hbad. cbv zeta.
  assert (Hans : exists why,
            fst (Edge.authorize J cfg g (Sdk.request_of c action resource amount context)
                   clock fresh_id stamp) = Edge.Unauthorized why).
  { unfold Edge.authorize, Edge.verify. cbn [Sdk.request_of Edge.passport_token].
    destruct (Jwt.decode J _ _ _ _) as [decoded | |].
    - rewrite Hbad. cbn. eexists. reflexivity.
    - cbn. eexists. reflexivity.
    - cbn. eexists. reflexivity. }
  split; [exact Hans |]. destruct Hans as (why & ->).
  unfold Sdk.exchange_of, Sdk.authorize, Sdk.unreachable.
  destruct (Sdk.fail_open c); repeat split.
Qed.

End EndToEnd.

(** ** The passport service *)

Section Passports.
Import Py Passport.

Lemma forallb_false_exists {A : Type} (f : A -> bool) (l : list A) :
  forallb f l = false -> exists x, In x l /\ f x = false.
Proof.
  induction l as [| x l IH]; [discriminate |]. cbn [forallb].
  destruct (f x) eqn:E; cbn [andb].
  - intros H. destruct (IH H) as (y & Hy & Ey). exists y. split; [right; exact Hy | exact Ey].
  - intros _. exists x. split; [left; reflexivity | exact E].
Qed.

(** X12.  Building a passport: it is refused exactly when one of its
    environments is not among cloud, edge, client and on-premise; and an
    authority limit that is zero (or otherwise false) is never kept, the
    passport gets the limit of its tier instead: 100000 for T1, 50000 for
    T2, 10000 for T3, 0 for T4 and for every other tier. *)
Theorem new_passport_limit_and_environments
    (aid aname arole t : string) (trust : float) (envs : list string) (dna : string)
    (limit : pyval) (iss fresh_jti : string) (now : datetime) (expires : option datetime) :
  match new_AgentPassport aid aname arole t trust envs dna limit iss fresh_jti now expires with
  | None => exists e, In e envs /\ ~ In e VALID_ENVIRONMENTS
  | Some p =>
      (forall e, In e envs -> In e VALID_ENVIRONMENTS)
      /\ allowed_environments p = envs
      /\ authority_limit p
         = if truthy limit then limit
           else PInt (if String.eqb t "T1" then 100000
                      else if String.eqb t "T2" then 50000
                      else if String.eqb t "T3" then 10000
                      else 0)
  end.
Proof.
  unfold new_AgentPassport.
  destruct (forallb _ envs) eqn:E.
  - split; [| split].
    + intros e He. rewrite List.forallb_forall in E. specialize (E e He).
      apply List.existsb_exists in E. destruct E as (x & Hx & Ex).
      apply String.eqb_eq in Ex. subst. exact Hx.
    + reflexivity.
    + cbn [authority_limit]. destruct (truthy limit); [reflexivity |].
      f_equal. cbn [TIER_AUTHORITY_LIMITS find fst snd].
      rewrite !(String.eqb_sym _ t).
      destruct (String.eqb t "T1"); [reflexivity |].
      destruct (String.eqb t "T2"); [reflexivity |].
      destruct (String.eqb t "T3"); [reflexivity |].
      destruct (String.eqb t "T4"); reflexivity.
  - destruct (forallb_false_exists _ _ E) as (e & Hin & Hno).
    exists e. split; [exact Hin |]. intros Hv.
    apply not_true_iff_false in Hno. apply Hno. apply List.existsb_exists.
    exists e. split; [exact Hv | apply String.eqb_refl].
Qed.


Variable J : Jwt.library.

Lemma set_add_keeps (s s' : list pyval) (v j : pyval) :
  set_add s v = Some s' -> existsb (py_eq j) s = true -> existsb (py_eq j) s' = true.
Proof.
  unfold set_add. destruct (hashable v); [| discriminate].
  intros H Hj. injection H as <-. destruct (existsb (py_eq v) s); [exact Hj |].
  rewrite existsb_app, Hj. reflexivity.
Qed.

Lemma apply_keeps_revoked (svc : PassportService) (o : op) (j : pyval) :
  is_revoked svc j = Some true -> is_revoked (apply J svc o) j = Some true.
Proof.
  unfold is_revoked, set_contains. destruct (hashable j); [| discriminate].
  intros H. injection H as H.
  assert (Hrevoke : forall v, existsb (py_eq j) (_revocation_set (snd (revoke svc v))) = true).
  { intros v. unfold revoke. destruct (set_add _ v) as [s' |] eqn:E; [| exact H].
    cbn [snd _revocation_set with_revocation_set]. exact (set_add_keeps _ _ _ _ E H). }
  destruct o as [p now | token clock | v | old_token new_passport clock now];
    cbn [apply]; try (rewrite H; reflexivity).
  - rewrite Hrevoke. reflexivity.
  - unfold rotate. cbn [snd].
    destruct (verify J svc old_token clock) as [e | c]; [rewrite H; reflexivity |].
    rewrite Hrevoke. reflexivity.
Qed.

Lemma apply_keeps_keys (svc : PassportService) (o : op) :
  public_key (apply J svc o) = public_key svc /\ algorithm (apply J svc o) = algorithm svc.
Proof.
  destruct o as [p now | token clock | v | old_token new_passport clock now];
    cbn [apply]; try (split; reflexivity).
  - unfold revoke. destruct (set_add _ _); split; reflexivity.
  - pose proof (rotate_keeps_keys J svc old_token new_passport clock now) as H.
    cbv zeta in H. tauto.
Qed.

(** X14.  Revocation is for good: once a jti is in the revocation set,
    no sequence of issue, verify, revoke and rotate calls takes it out
    again, and a token with that jti is refused as revoked by [verify]
    after any such sequence, for as long as it decodes. *)
Theorem revocation_is_permanent (svc : PassportService) (ops : list op) (j : string) :
  is_revoked svc (PStr j) = Some true ->
  is_revoked (run J svc ops) (PStr j) = Some true
  /\ forall token clock decoded,
       Jwt.decode J token (public_key svc) (algorithm svc) clock = Jwt.Decoded decoded ->
       get_or decoded "jti" (PStr "") = PStr j ->
       verify J (run J svc ops) token clock = inl Revoked.
Proof.
  intros H.
  assert (Hrun : is_revoked (run J svc ops) (PStr j) = Some true
                 /\ public_key (run J svc ops) = public_key svc
                 /\ algorithm (run J svc ops) = algorithm svc).
  { unfold run. revert svc H. induction ops as [| o ops IH]; intros svc H.
    - repeat split. exact H.
    - cbn [fold_left]. destruct (IH _ (apply_keeps_revoked svc o _ H)) as (H1 & H2 & H3).
      destruct (apply_keeps_keys svc o) as (K1 & K2).
      split; [exact H1 |]. split; congruence. }
  destruct Hrun as (Hrev & Hpub & Halg). split; [exact Hrev |].
  intros token clock decoded Hdec Hjti. unfold verify.
  rewrite Hpub, Halg, Hdec. cbv zeta. rewrite Hjti.
  unfold is_revoked in Hrev. rewrite Hrev. reflexivity.
Qed.

Lemma as_strs_map (l : list pyval) (js : list string) :
  Edge.as_strs l = Some js -> l = map PStr js.
Proof.
  revert js. induction l as [| v l IH]; intros js; cbn [Edge.as_strs].
  - intros H. injection H as <-. reflexivity.
  - destruct v; try discriminate. destruct (Edge.as_strs l) as [js' |]; [| discriminate].
    cbn [option_map]. intros H. injection H as <-. rewrite (IH js' eq_refl). reflexivity.
Qed.

Lemma existsb_list_to_set (j : string) (js : list string) :
  existsb (py_eq (PStr j)) (map PStr js)
  = bool_decide (j ∈ (list_to_set js : gset string)).
Proof.
  induction js as [| k js IH].
  - symmetry. apply bool_decide_eq_false. apply not_elem_of_empty.
  - cbn [map existsb]. rewrite IH.
    change (py_eq (PStr j) (PStr k)) with (String.eqb j k).
    destruct (String.eqb j k) eqn:E; cbn [orb].
    + apply String.eqb_eq in E. subst. symmetry. apply bool_decide_eq_true.
      rewrite elem_of_list_to_set. apply elem_of_cons. left. reflexivity.
    + apply String.eqb_neq in E. apply bool_decide_ext.
      rewrite !elem_of_list_to_set, elem_of_cons. tauto.
Qed.

(** X15.  Pushing the revocation list to a gateway makes the gateway agree
    with the service: when the body of a revocation sync answered with 200
    holds what [get_revocation_list] returns (all of it strings), the sync
    succeeds, and from then on the gateway accepts a token that decodes
    with a string jti exactly when the service's [verify] returns its
    claims, and refuses it as revoked exactly when the service does. *)
Theorem pushed_revocation_list_makes_the_gateway_agree
    (svc : PassportService) (v : Edge.PassportVerifier) (js : list string)
    (token : string) (clock : Z) (decoded : dict) (j : string) :
  Edge.as_strs (get_revocation_list svc) = Some js ->
  Edge.jwt_secret v = public_key svc ->
  Edge.algorithm v = algorithm svc ->
  Jwt.decode J token (public_key svc) (algorithm svc) clock = Jwt.Decoded decoded ->
  get_or decoded "jti" (PStr "") = PStr j ->
  exists v',
    Edge.sync_revocation_list v
      (Edge.HttpResponse 200 [("revoked_jtis", PList (get_revocation_list svc))])
    = Some (Edge.Synced, v')
    /\ (verify J svc token clock = inr decoded
        <-> Edge.verify J v' token clock
            = Some (Edge.mkVerificationResult true decoded Edge.NoReason (Edge.mode v)))
    /\ (verify J svc token clock = inl Revoked
        <-> Edge.verify J v' token clock
            = Some (Edge.mkVerificationResult false [] Edge.PassportRevoked (Edge.mode v))).
Proof.
  intros Hstrs Hkey Halg Hdec Hjti.
  exists (Edge.update_revocation_list v js). split; [| split].
  - unfold Edge.sync_revocation_list. cbn. rewrite Hstrs. reflexivity.
  - unfold verify, Edge.verify. cbn [Edge.update_revocation_list Edge.jwt_secret
      Edge.algorithm Edge._revocation_set Edge.mode].
    rewrite Hkey, Halg, Hdec. cbv zeta. rewrite Hjti. cbn [Edge.in_str_set].
    unfold set_contains. cbn [hashable is_string].
    unfold get_revocation_list in Hstrs. rewrite (as_strs_map _ _ Hstrs).
    rewrite existsb_list_to_set.
    destruct (bool_decide _); split; intros H; (reflexivity || discriminate H).
  - unfold verify, Edge.verify. cbn [Edge.update_revocation_list Edge.jwt_secret
      Edge.algorithm Edge._revocation_set Edge.mode].
    rewrite Hkey, Halg, Hdec. cbv zeta. rewrite Hjti. cbn [Edge.in_str_set].
    unfold set_contains. cbn [hashable is_string].
    unfold get_revocation_list in Hstrs. rewrite (as_strs_map _ _ Hstrs).
    rewrite existsb_list_to_set.
    destruct (bool_decide _); split; intros H; (reflexivity || discriminate H).
Qed.

End Passports.

(** ** The DNA fingerprint *)

Section Fingerprint.
Import Py Passport.

Lemma ascii_compare_trans (a b c : ascii) (o : comparison) :
  Ascii.compare a b = o -> Ascii.compare b c = o -> Ascii.compare a c = o.
Proof.
  unfold Ascii.compare. destruct o; intros H1 H2.
  - apply N.compare_eq_iff in H1, H2. apply N.compare_eq_iff. congruence.
  - rewrite N.compare_lt_iff in *. lia.
  - rewrite N.compare_gt_iff in *. lia.
Qed.

Lemma string_compare_lt_trans (a b c : string) :
  String.compare a b = Lt -> String.compare b c = Lt -> String.compare a c = Lt.
Proof.
  revert b c. induction a as [| x a IH]; intros [| y b] [| z c]; cbn; try discriminate;
    try reflexivity.
  destruct (Ascii.compare x y) eqn:Exy; try discriminate;
    destruct (Ascii.compare y z) eqn:Eyz; try discriminate; intros H1 H2.
  - rewrite (ascii_compare_trans _ _ _ _ Exy Eyz). exact (IH _ _ H1 H2).
  - apply Ascii.compare_eq_iff in Exy. subst. rewrite Eyz. reflexivity.
  - apply Ascii.compare_eq_iff in Eyz. subst. rewrite Exy. reflexivity.
  - rewrite (ascii_compare_trans _ _ _ _ Exy Eyz). reflexivity.
Qed.

Lemma string_leb_trans (a b c : string) :
  String.leb a b = true -> String.leb b c = true -> String.leb a c = true.
Proof.
  unfold String.leb.
  destruct (String.compare a b) eqn:Eab; try discriminate;
    destruct (String.compare b c) eqn:Ebc; try discriminate; intros _ _.
  - apply String.compare_eq_iff in Eab. subst. rewrite Ebc. reflexivity.
  - apply String.compare_eq_iff in Eab. subst. rewrite Ebc. reflexivity.
  - apply String.compare_eq_iff in Ebc. subst. rewrite Eab. reflexivity.
  - rewrite (string_compare_lt_trans _ _ _ Eab Ebc). reflexivity.
Qed.

Lemma string_le_trans : Transitive string_le.
Proof. intros a b c. apply string_leb_trans. Qed.

Lemma string_le_antisym : AntiSymm (=) string_le.
Proof. intros a b. apply String.leb_antisym. Qed.

Lemma insert_sorted_perm (s : string) (l : list string) :
  Permutation (insert_sorted s l) (s :: l).
Proof.
  induction l as [| t l IH]; cbn [insert_sorted]; [reflexivity |].
  destruct (String.leb s t); [reflexivity |].
  rewrite IH. apply perm_swap.
Qed.

Lemma sorted_perm (l : list string) : Permutation (sorted l) l.
Proof.
  induction l as [| s l IH]; [reflexivity |].
  cbn [sorted fold_right]. rewrite insert_sorted_perm. constructor. exact IH.
Qed.

Lemma insert_sorted_Sorted (s : string) (l : list string) :
  Sorted string_le l -> Sorted string_le (insert_sorted s l).
Proof.
  induction 1 as [| t l Hl IH Ht]; cbn [insert_sorted].
  - repeat constructor.
  - destruct (String.leb s t) eqn:E.
    + constructor; [constructor; assumption | constructor; exact E].
    + constructor; [exact IH |].
      assert (Hts : string_le t s).
      { destruct (String.leb_total s t) as [H | H]; [congruence | exact H]. }
      destruct Ht as [| u l' Hu]; cbn [insert_sorted].
      * constructor. exact Hts.
      * destruct (String.leb s u); constructor; assumption.
Qed.

Lemma sorted_Sorted (l : list string) : Sorted string_le (sorted l).
Proof.
  induction l as [| s l IH]; [constructor |].
  cbn [sorted fold_right]. apply insert_sorted_Sorted. exact IH.
Qed.

Lemma sorted_of_permutation (l l' : list string) :
  Permutation l l' -> sorted l = sorted l'.
Proof.
  intros H.
  apply (@Sorted_unique _ string_le string_le_trans string_le_antisym);
    [apply sorted_Sorted .. |].
  rewrite !sorted_perm. exact H.
Qed.

Lemma gene_lines_all_lines (genes : list dict) :
  gene_lines genes = all_lines (map gene_line genes).
Proof.
  induction genes as [| g genes IH]; [reflexivity |].
  cbn [gene_lines map all_lines]. rewrite IH. reflexivity.
Qed.

Lemma all_lines_permutation (l l' : list (option string)) :
  Permutation l l' -> same_lines (all_lines l) (all_lines l').
Proof.
  induction 1 as [| o l l' H IH | o1 o2 l | l1 l2 l3 H12 IH12 H23 IH23].
  - cbn. constructor.
  - cbn [all_lines]. destruct o as [line |]; [| exact I].
    destruct (all_lines l), (all_lines l'); cbn in *; try contradiction; [| exact I].
    constructor. exact IH.
  - cbn [all_lines]. destruct o1 as [a |], o2 as [b |], (all_lines l) as [ls |]; cbn;
      try exact I. apply perm_swap.
  - destruct (all_lines l1), (all_lines l2), (all_lines l3); cbn in *;
      try contradiction; try exact I.
    etransitivity; eassumption.
Qed.

(** X16.  The DNA fingerprint depends on the genes only through the
    collection of their lines (name, type and strength rounded to two
    decimals): two gene lists whose lines agree up to order get the same
    fingerprint, or both raise.  In particular reordering the genes, and
    changing any other field of a gene, leaves the fingerprint as it is. *)
Theorem dna_fingerprint_ignores_order_and_other_fields (genes genes' : list dict) :
  Permutation (map gene_line genes) (map gene_line genes') ->
  compute_dna_fingerprint genes = compute_dna_fingerprint genes'.
Proof.
  intros H. pose proof (all_lines_permutation _ _ H) as Hl.
  rewrite <- !gene_lines_all_lines in Hl.
  destruct genes as [| g genes], genes' as [| g' genes'].
  - reflexivity.
  - apply Permutation_length in H. discriminate H.
  - apply Permutation_length in H. discriminate H.
  - unfold compute_dna_fingerprint.
    destruct (gene_lines (g :: genes)) as [ls |], (gene_lines (g' :: genes')) as [ls' |];
      cbn in Hl; try contradiction; [| reflexivity].
    rewrite (sorted_of_permutation _ _ Hl). reflexivity.
Qed.

End Fingerprint.

(** ** The policy store: rollback, history and what the gateways are sent *)

Section Store.
Import Py Distribution.

Lemma generated_version_nonempty (now : datetime) (n : Z) : generated_version now n <> "".
Proof.
  unfold generated_version. destruct (civil_of_days _) as [[y m] d].
  apply append_nonempty. discriminate.
Qed.

Lemma created_version_nonempty (svc : PolicyDistributionService) (rs : list PolicyRule)
    (v : string) (meta : dict) (now : datetime) (fresh_id : string) :
  version (fst (create_bundle svc rs v meta now fresh_id)) <> "".
Proof.
  unfold create_bundle, new_PolicyBundle. cbn [fst String.eqb version].
  destruct (String.eqb v "") eqn:E.
  - apply generated_version_nonempty.
  - apply String.eqb_neq. exact E.
Qed.

Lemma rollback_popping_stack (svc : PolicyDistributionService) (top_first : list string)
    (P : string -> Prop) :
  Forall P top_first -> Forall P (_rollback_stack svc) ->
  Forall P (_rollback_stack (snd (rollback_popping svc top_first))).
Proof.
  intros Htop Hst. induction Htop as [| prev below Hp Hb IH]; cbn [rollback_popping].
  - constructor.
  - destruct (String.eqb prev ""); [exact IH |].
    unfold rollback_to, get_bundle_by_version. cbn [_bundles].
    destruct (find _ (_bundles svc)); cbn [snd _rollback_stack];
      apply List.Forall_rev; exact Hb.
Qed.

Lemma apply_keeps_stack_ok (svc : PolicyDistributionService) (o : op) :
  store_ok svc -> stack_ok svc -> stack_ok (apply svc o).
Proof.
  intros (Hcur & _ & _) (Hver & Hst). destruct o as [rs v meta now fresh_id | t]; cbn [apply].
  - pose proof (created_version_nonempty svc rs v meta now fresh_id) as Hne.
    set (b := fst (create_bundle svc rs v meta now fresh_id)) in *.
    unfold stack_ok.
    change (_bundles (snd (create_bundle svc rs v meta now fresh_id)))
      with (_bundles svc ++ [b]).
    change (_rollback_stack (snd (create_bundle svc rs v meta now fresh_id)))
      with (match _current svc with
            | Some c => _rollback_stack svc ++ [version c]
            | None => _rollback_stack svc
            end).
    clearbody b. split.
    + apply Forall_app. split; [exact Hver |]. constructor; [exact Hne | constructor].
    + assert (Hold : Forall (fun v0 => exists x, In x (_bundles svc ++ [b]) /\ version x = v0)
                        (_rollback_stack svc)).
      { revert Hst. apply List.Forall_impl. intros v0 (x & Hx & Hv).
        exists x. split; [apply in_or_app; left; exact Hx | exact Hv]. }
      destruct (_current svc) as [c |]; [| exact Hold].
      apply Forall_app. split; [exact Hold |]. constructor; [| constructor].
      exists c. split; [apply in_or_app; left; exact Hcur | reflexivity].
  - destruct (rollback_effect svc t) as (Hb & _). unfold stack_ok. rewrite Hb.
    split; [exact Hver |]. unfold rollback. destruct (String.eqb t "").
    + apply rollback_popping_stack; [apply List.Forall_rev |]; exact Hst.
    + unfold rollback_to. destruct (get_bundle_by_version svc t); exact Hst.
Qed.

Lemma run_stack_ok (ops : list op) : stack_ok (run ops).
Proof.
  unfold run.
  assert (H : forall svc, store_ok svc -> stack_ok svc ->
                          stack_ok (fold_left apply ops svc)).
  { induction ops as [| o ops IH]; intros svc H1 H2; [exact H2 |].
    cbn [fold_left]. apply IH; [apply apply_keeps_store_ok | apply apply_keeps_stack_ok];
      assumption. }
  apply H; repeat split; constructor.
Qed.

Lemma find_version (bs : list PolicyBundle) (v : string) :
  (exists b, In b bs /\ version b = v) ->
  exists b, find (fun b => String.eqb (version b) v) bs = Some b
            /\ In b bs /\ version b = v.
Proof.
  intros (b & Hb & Hv).
  destruct (find (fun b => String.eqb (version b) v) bs) as [b' |] eqn:E.
  - exists b'. split; [reflexivity |]. destruct (find_some _ _ E) as (Hin & Heq).
    split; [exact Hin | apply String.eqb_eq; exact Heq].
  - exfalso. pose proof (find_none _ _ E b Hb) as Hn. cbn in Hn.
    rewrite Hv, String.eqb_refl in Hn. discriminate Hn.
Qed.

(** X17.  Rolling back one step, after any history of the store: when the
    rollback stack is empty nothing happens and nothing is returned;
    otherwise the call succeeds: the version on top of the stack is taken
    off, it is the version of a published bundle, and the oldest bundle
    published under that version is returned and made current.  Nothing
    else in the store changes. *)
Theorem one_step_rollback_returns_to_the_stack_top (ops : list op) :
  let svc := run ops in
  match rev (_rollback_stack svc) with
  | [] => rollback svc "" = (None, svc)
  | v :: below =>
      exists b,
        get_bundle_by_version svc v = Some b
        /\ In b (_bundles svc) /\ version b = v
        /\ rollback svc ""
           = (Some b,
              mkService (_bundles svc) (Some b) (_gateway_versions svc) (rev below))
  end.
Proof.
  cbv zeta. destruct (run_stack_ok ops) as (Hver & Hst).
  unfold rollback. cbn [String.eqb].
  destruct (rev (_rollback_stack (run ops))) as [| v below] eqn:E.
  - cbn [rollback_popping]. f_equal.
    assert (Hs : _rollback_stack (run ops) = []).
    { rewrite <- (rev_involutive (_rollback_stack (run ops))), E. reflexivity. }
    destruct (run ops). cbn in Hs. subst. reflexivity.
  - assert (Hv : exists b, In b (_bundles (run ops)) /\ version b = v).
    { rewrite List.Forall_forall in Hst. apply Hst. apply in_rev. rewrite E. left.
      reflexivity. }
    destruct (find_version _ _ Hv) as (b & Hfind & Hin & Hb).
    exists b. split; [exact Hfind |]. split; [exact Hin |]. split; [exact Hb |].
    cbn [rollback_popping].
    assert (Hne : String.eqb v "" = false).
    { apply String.eqb_neq. rewrite <- Hb. rewrite List.Forall_forall in Hver.
      apply Hver. exact Hin. }
    rewrite Hne. unfold rollback_to, get_bundle_by_version. cbn [_bundles].
    rewrite Hfind. reflexivity.
Qed.

Lemma find_first_app {A : Type} (f : A -> bool) (l l' : list A) (x : A) :
  find f l = Some x -> find f (l ++ l') = Some x.
Proof.
  induction l as [| y l IH]; [discriminate |]. cbn [find app].
  destruct (f y); [intros H; exact H | exact IH].
Qed.

(** X18.  Publishing and rolling back one step is an undo for the current
    bundle: when the current bundle is the oldest one published under its
    version, creating a bundle and then rolling back one step makes it
    current again and leaves the rollback stack as it was; the bundle
    created in between stays published. *)
Theorem rollback_undoes_a_publication (svc : PolicyDistributionService) (c : PolicyBundle)
    (rs : list PolicyRule) (v : string) (meta : dict) (now : datetime) (fresh_id : string) :
  _current svc = Some c ->
  version c <> "" ->
  get_bundle_by_version svc (version c) = Some c ->
  let created := fst (create_bundle svc rs v meta now fresh_id) in
  rollback (snd (create_bundle svc rs v meta now fresh_id)) ""
  = (Some c,
     mkService (_bundles svc ++ [created]) (Some c) (_gateway_versions svc)
       (_rollback_stack svc)).
Proof.
  intros Hcur Hne Hfind. cbv zeta. unfold rollback. cbn [String.eqb].
  set (created := fst (create_bundle svc rs v meta now fresh_id)).
  assert (Hsvc : snd (create_bundle svc rs v meta now fresh_id)
                 = mkService (_bundles svc ++ [created]) (Some created)
                     (_gateway_versions svc) (_rollback_stack svc ++ [version c])).
  { unfold created, create_bundle. cbn [fst snd]. rewrite Hcur. reflexivity. }
  rewrite Hsvc. clearbody created. cbn [_rollback_stack].
  rewrite rev_app_distr. cbn [rev app rollback_popping].
  apply String.eqb_neq in Hne. rewrite Hne.
  unfold rollback_to, get_bundle_by_version. cbn [_bundles _current _gateway_versions].
  unfold get_bundle_by_version in Hfind.
  rewrite (find_first_app _ _ _ _ Hfind). rewrite rev_involutive. reflexivity.
Qed.

Lemma apply_bundles (svc : PolicyDistributionService) (o : op) :
  exists added,
    _bundles (apply svc o) = _bundles svc ++ added
    /\ List.length added = creations [o].
Proof.
  destruct o as [rs v meta now fresh_id | t]; cbn [apply].
  - eexists. split; [reflexivity | reflexivity].
  - exists []. destruct (rollback_effect svc t) as (Hb & _). rewrite Hb, app_nil_r.
    split; reflexivity.
Qed.

(** X19.  The list of published bundles only ever grows at its end: what
    was published stays published, unchanged and in place, through every
    later creation and rollback, and the list grows by exactly one bundle
    per creation; a rollback publishes and removes nothing. *)
Theorem published_bundles_only_grow (ops later : list op) :
  exists added,
    _bundles (run (ops ++ later)) = _bundles (run ops) ++ added
    /\ List.length added = creations later
    /\ version_history (run (ops ++ later))
       = version_history (run ops) ++ map version added
    /\ version_count (run (ops ++ later))
       = version_count (run ops) + Z.of_nat (creations later).
Proof.
  unfold run. rewrite fold_left_app. generalize (fold_left apply ops new_service).
  induction later as [| o later IH]; intros svc.
  - exists []. unfold version_count. cbn. rewrite !app_nil_r. repeat split. lia.
  - cbn [fold_left]. destruct (IH (apply svc o)) as (a2 & H2 & L2 & _).
    destruct (apply_bundles svc o) as (a1 & H1 & L1).
    assert (Hlen : List.length (a1 ++ a2) = creations (o :: later)).
    { rewrite length_app, L1, L2. unfold creations. cbn [List.filter].
      destruct o; cbn [List.length]; lia. }
    exists (a1 ++ a2). rewrite H2, H1, <- app_assoc. split; [reflexivity |].
    split; [exact Hlen |]. split.
    + unfold version_history. rewrite H2, H1, <- app_assoc, !map_app. reflexivity.
    + unfold version_count. rewrite H2, H1, <- app_assoc, length_app, Hlen. lia.
Qed.

End Store.

Section Deliveries.
Import Py Distribution.

Lemma dict_get_dict_set (d : dict) (k k' : string) (v : pyval) :
  dict_get (dict_set d k v) k' = if String.eqb k k' then Some v else dict_get d k'.
Proof.
  induction d as [| [k0 v0] d IH]; cbn [dict_set dict_get].
  - destruct (String.eqb k k'); reflexivity.
  - destruct (String.eqb k0 k) eqn:E0; cbn [dict_get].
    + apply String.eqb_eq in E0. subst k0.
      destruct (String.eqb k k'); reflexivity.
    + rewrite IH. destruct (String.eqb k0 k') eqn:E1; [| reflexivity].
      apply String.eqb_eq in E1. subst k0. rewrite String.eqb_sym, E0. reflexivity.
Qed.

Lemma dict_get_absent (d : dict) (k : string) :
  ~ In k (map fst d) -> dict_get d k = None.
Proof.
  induction d as [| [k0 v0] d IH]; [reflexivity |]. cbn [map fst dict_get In].
  intros H. destruct (String.eqb k0 k) eqn:E.
  - apply String.eqb_eq in E. tauto.
  - apply IH. tauto.
Qed.

(** Assigning the items of a dictionary one after another onto [d0]. *)
Lemma dict_get_assigned (items d0 : dict) (k : string) :
  List.NoDup (map fst items) ->
  dict_get (fold_left (fun d kv => dict_set d (fst kv) (snd kv)) items d0) k
  = match dict_get items k with
    | Some v => Some v
    | None => dict_get d0 k
    end.
Proof.
  revert d0. induction items as [| [k1 v1] items IH]; intros d0 Hnd; [reflexivity |].
  cbn [map fst] in Hnd. apply List.NoDup_cons_iff in Hnd. destruct Hnd as (Hk1 & Hnd).
  cbn [fold_left fst snd dict_get]. rewrite (IH _ Hnd), dict_get_dict_set.
  destruct (String.eqb k1 k) eqn:E; [| reflexivity].
  apply String.eqb_eq in E. subst k1. rewrite (dict_get_absent _ _ Hk1). reflexivity.
Qed.

(** X20.  In the dictionary of a rule the parameters are spliced between
    the rule's own entries, so they can replace the head but not the tail:
    a parameter called [id], [name] or [type] takes the place of the rule's
    own id, name or type (the type the evaluators read), while [on_fail],
    [environment_scope] and [active] always are the rule's own; every other
    key is the parameter of that name. *)
Theorem rule_parameters_replace_the_head_not_the_tail (r : PolicyRule) (k : string) :
  List.NoDup (map fst (parameters r)) ->
  dict_get (to_dict r) k
  = if String.eqb k "on_fail" then Some (PStr (on_fail r))
    else if String.eqb k "environment_scope"
    then Some (PList (map PStr (environment_scope r)))
    else if String.eqb k "active" then Some (PBool (active r))
    else match dict_get (parameters r) k with
         | Some v => Some v
         | None =>
             if String.eqb k "id" then Some (PStr (rule_id r))
             else if String.eqb k "name" then Some (PStr (name r))
             else if String.eqb k "type" then Some (PStr (type r))
             else None
         end.
Proof.
  intros Hnd. unfold to_dict, dict_of.
  rewrite !fold_left_app. cbn [fold_left fst snd].
  rewrite !dict_get_dict_set, (dict_get_assigned _ _ _ Hnd).
  rewrite (String.eqb_sym "active" k), (String.eqb_sym "environment_scope" k),
    (String.eqb_sym "on_fail" k).
  destruct (String.eqb k "active") eqn:Ea.
  { apply String.eqb_eq in Ea. subst k. reflexivity. }
  destruct (String.eqb k "environment_scope") eqn:Ee.
  { apply String.eqb_eq in Ee. subst k. reflexivity. }
  destruct (String.eqb k "on_fail"); [reflexivity |].
  destruct (dict_get (parameters r) k); [reflexivity |].
  rewrite !dict_get_dict_set. cbn [dict_get].
  rewrite (String.eqb_sym "type" k), (String.eqb_sym "name" k), (String.eqb_sym "id" k).
  destruct (String.eqb k "type") eqn:Et.
  { apply String.eqb_eq in Et. subst k. reflexivity. }
  destruct (String.eqb k "name") eqn:En.
  { apply String.eqb_eq in En. subst k. reflexivity. }
  destruct (String.eqb k "id"); reflexivity.
Qed.

Lemma as_dicts_map (l : list dict) : Edge.as_dicts (map PDict l) = Some l.
Proof. induction l as [| d l IH]; [reflexivity |]. cbn. rewrite IH. reflexivity. Qed.

(** X21.  What an edge gateway is sent and what it then enforces: the
    bundle for an environment holds, in bundle order, exactly the rules of
    the current bundle that are active and scoped to that environment, with
    their count; served with status 200 it is loaded whole, so the enforcer
    ends with as many rules as [total_rules] says, under the bundle's
    version.  Without a current bundle there is nothing to send. *)
Theorem scoped_bundle_is_what_the_enforcer_loads (svc : PolicyDistributionService)
    (environment : string) (e : Edge.LocalPolicyEnforcer) :
  match _current svc, get_bundle_for_environment svc environment with
  | Some c, Some data =>
      let kept := scoped_rules c environment in
      Forall (fun r => active r = true /\ In environment (environment_scope r)) kept
      /\ (forall r, In r (rules c) -> active r = true ->
                    In environment (environment_scope r) -> In r kept)
      /\ dict_get data "total_rules" = Some (PInt (Z.of_nat (List.length kept)))
      /\ Edge.sync_policies e (Edge.HttpResponse 200 data)
         = Some (Edge.Synced,
                 Edge.mkLocalPolicyEnforcer (map to_dict kept) (PStr (version c)))
      /\ Edge.policy_count (Edge.mkLocalPolicyEnforcer (map to_dict kept) (PStr (version c)))
         = Z.of_nat (List.length kept)
  | None, None => True
  | _, _ => False
  end.
Proof.
  unfold get_bundle_for_environment. destruct (_current svc) as [c |]; [| exact I].
  cbv zeta.
  assert (Hin : forall r, In r (scoped_rules c environment)
                          <-> In r (rules c) /\ active r = true
                              /\ In environment (environment_scope r)).
  { intros r. unfold scoped_rules. rewrite List.filter_In, andb_true_iff.
    rewrite List.existsb_exists. split.
    - intros (H1 & H2 & x & Hx & Ex). apply String.eqb_eq in Ex. subst. tauto.
    - intros (H1 & H2 & H3). split; [exact H1 |]. split; [exact H2 |].
      exists environment. split; [exact H3 | apply String.eqb_refl]. }
  split; [| split; [| split; [| split]]].
  - apply List.Forall_forall. intros r Hr. apply Hin in Hr. tauto.
  - intros r H1 H2 H3. apply Hin. tauto.
  - reflexivity.
  - unfold Edge.sync_policies. cbn [Z.eqb Pos.eqb].
    change (get_or (dict_of _) "rules" (PList []))
      with (PList (map (fun r => PDict (to_dict r)) (scoped_rules c environment))).
    cbv beta iota. rewrite <- (map_map to_dict PDict), as_dicts_map.
    reflexivity.
  - unfold Edge.policy_count. cbn [Edge._rules]. rewrite length_map. reflexivity.
Qed.

Lemma get_or_dict_set_other (d : dict) (k k' : string) (v dflt : pyval) :
  String.eqb k k' = false -> get_or (dict_set d k v) k' dflt = get_or d k' dflt.
Proof. intros H. unfold get_or. rewrite dict_get_dict_set, H. reflexivity. Qed.

(** X22.  The policy sync never looks at the hash of the bundle it loads:
    whatever stands under ["hash"] in the body, or nothing at all, the
    same rules are loaded under the same version. *)
Theorem policy_sync_never_checks_the_bundle_hash (e : Edge.LocalPolicyEnforcer)
    (status_code : Z) (data : dict) (h : pyval) :
  Edge.sync_policies e (Edge.HttpResponse status_code (dict_set data "hash" h))
  = Edge.sync_policies e (Edge.HttpResponse status_code data).
Proof.
  unfold Edge.sync_policies.
  rewrite !get_or_dict_set_other by reflexivity. reflexivity.
Qed.

Lemma assign_keys (d : list (string * string)) (k v : string) :
  List.NoDup (map fst d) -> List.NoDup (map fst (assign d k v)).
Proof.
  induction d as [| [k0 v0] d IH]; cbn [assign map fst].
  - intros _. constructor; [intros [] | constructor].
  - intros Hnd. apply List.NoDup_cons_iff in Hnd. destruct Hnd as (Hk0 & Hnd).
    destruct (String.eqb k0 k) eqn:E; cbn [map fst].
    + constructor; assumption.
    + constructor; [| exact (IH Hnd)].
      intros Hin. apply Hk0. clear IH Hnd Hk0.
      induction d as [| [k1 v1] d IH]; cbn [assign map fst In] in *.
      * destruct Hin as [<- | []]. apply String.eqb_neq in E. congruence.
      * destruct (String.eqb k1 k); cbn [map fst In] in Hin; tauto.
Qed.

Lemma assign_In (d : list (string * string)) (k v g ver : string) :
  List.NoDup (map fst d) ->
  In (g, ver) (assign d k v) <-> (g = k /\ ver = v) \/ (g <> k /\ In (g, ver) d).
Proof.
  induction d as [| [k0 v0] d IH]; cbn [assign map fst In].
  - intros _. split.
    + intros [H | []]. injection H as <- <-. left. split; reflexivity.
    + intros [(-> & ->) | (_ & [])]. left. reflexivity.
  - intros Hnd. apply List.NoDup_cons_iff in Hnd. destruct Hnd as (Hk0 & Hnd).
    destruct (String.eqb k0 k) eqn:E; cbn [In].
    + apply String.eqb_eq in E. subst k0. split.
      * intros [H | H]; [injection H as <- <-; left; split; reflexivity |].
        right. split; [| right; exact H]. intros ->. apply Hk0.
        apply (List.in_map fst) in H. exact H.
      * intros [(-> & ->) | (Hg & [H | H])]; [left; reflexivity | | right; exact H].
        injection H as -> _. contradiction.
    + apply String.eqb_neq in E. rewrite (IH Hnd). split.
      * intros [H | [H | (Hg & H)]]; [| left; exact H | right; tauto].
        injection H as <- <-. right. split; [exact E | left; reflexivity].
      * intros [H | (Hg & [H | H])]; [right; left; exact H | left; exact H |].
        right. right. tauto.
Qed.

Lemma stale_In (svc : PolicyDistributionService) (c : PolicyBundle) (g : string) :
  _current svc = Some c ->
  In g (get_stale_gateways svc)
  <-> exists ver, In (g, ver) (_gateway_versions svc) /\ ver <> version c.
Proof.
  intros Hc. unfold get_stale_gateways. rewrite Hc, List.in_map_iff. split.
  - intros ([g' ver] & Hg & Hin). cbn in Hg. subst g'.
    apply List.filter_In in Hin. destruct Hin as (Hin & Hne). cbn in Hne.
    exists ver. split; [exact Hin |]. apply String.eqb_neq, negb_true_iff, Hne.
  - intros (ver & Hin & Hne). exists (g, ver). split; [reflexivity |].
    apply List.filter_In. split; [exact Hin |]. cbn.
    apply negb_true_iff, String.eqb_neq, Hne.
Qed.

(** X23.  Tracking the gateways, while there is a current bundle: after a
    gateway registers a version it is stale exactly when that version is
    not the current one, the other gateways are stale as before, every
    gateway still has one entry, and the stale count of the status report
    is the number of gateways the report marks as not up to date. *)
Theorem registering_a_gateway_updates_staleness (svc : PolicyDistributionService)
    (c : PolicyBundle) (gateway_id v : string) :
  _current svc = Some c ->
  List.NoDup (map fst (_gateway_versions svc)) ->
  let svc' := register_gateway_sync svc gateway_id v in
  (In gateway_id (get_stale_gateways svc') <-> v <> version c)
  /\ (forall other, other <> gateway_id ->
        (In other (get_stale_gateways svc') <-> In other (get_stale_gateways svc)))
  /\ List.NoDup (map fst (_gateway_versions svc'))
  /\ stale_count (get_gateway_status svc')
     = Z.of_nat (List.length
                   (List.filter (fun g => negb (up_to_date (snd g)))
                      (gateways (get_gateway_status svc')))).
Proof.
  intros Hc Hnd. cbv zeta.
  assert (Hc' : _current (register_gateway_sync svc gateway_id v) = Some c) by exact Hc.
  split; [| split; [| split]].
  - rewrite (stale_In _ c _ Hc'). cbn [register_gateway_sync _gateway_versions]. split.
    + intros (ver & Hin & Hne). apply (assign_In _ _ _ _ _ Hnd) in Hin.
      destruct Hin as [(_ & ->) | (Hg & _)]; [exact Hne | contradiction].
    + intros Hne. exists v. split; [| exact Hne].
      apply (assign_In _ _ _ _ _ Hnd). left. split; reflexivity.
  - intros other Ho. rewrite (stale_In _ c _ Hc'), (stale_In _ c _ Hc).
    cbn [register_gateway_sync _gateway_versions]. split.
    + intros (ver & Hin & Hne). apply (assign_In _ _ _ _ _ Hnd) in Hin.
      destruct Hin as [(Hg & _) | (_ & Hin)]; [contradiction |].
      exists ver. split; assumption.
    + intros (ver & Hin & Hne). exists ver. split; [| exact Hne].
      apply (assign_In _ _ _ _ _ Hnd). right. split; assumption.
  - cbn [register_gateway_sync _gateway_versions]. apply assign_keys, Hnd.
  - unfold get_gateway_status, get_stale_gateways. rewrite Hc'.
    cbn [stale_count gateways]. f_equal. rewrite length_map.
    generalize (_gateway_versions (register_gateway_sync svc gateway_id v)).
    intros l. induction l as [| [g ver] l IH]; [reflexivity |].
    cbn [List.filter map snd fst up_to_date].
    destruct (String.eqb ver (version c)); cbn [negb List.length]; rewrite IH; reflexivity.
Qed.

End Deliveries.

(** ** The decision ledger: what [record] builds and what [verify_chain] says of it *)

Section Recording.
Import Py Ancestor.







End Recording.

Section Verification.
Import Py Ancestor.












End Verification.

(** ** The cloud evaluation *)

Section CloudEvaluation.
Import Py Sentinel.

Variables (a : Agent) (action context : dict).





End CloudEvaluation.

Section CloudVerdicts.
Import Py Sentinel.



End CloudVerdicts.

(** ** The prophecy engine *)

Section Paths.
Import Py Prophecy.

Ltac compare_cases :=
  repeat match goal with
         | |- context [Z.compare ?x ?y] => destruct (Z.compare_spec x y)
         | H : context [Z.compare ?x ?y] |- _ => destruct (Z.compare_spec x y)
         | |- context [Pos.compare_cont Eq ?x ?y] =>
             change (Pos.compare_cont Eq x y) with (Pos.compare x y);
             destruct (Pos.compare_spec x y)
         | H : context [Pos.compare_cont Eq ?x ?y] |- _ =>
             change (Pos.compare_cont Eq x y) with (Pos.compare x y) in H;
             destruct (Pos.compare_spec x y)
         end.

Lemma SFltb_trans (a b c : spec_float) :
  SFltb a b = true -> SFltb b c = true -> SFltb a c = true.
Proof.
  unfold SFltb, SFcompare.
  destruct a as [sa | sa | | sa ma ea], b as [sb | sb | | sb mb eb],
           c as [sc | sc | | sc mc ec];
    try discriminate; try reflexivity;
    repeat match goal with s : bool |- _ => destruct s end;
    try discriminate; try reflexivity;
    intros H1 H2; compare_cases; cbn in *;
    try discriminate; try reflexivity; subst; lia.
Qed.

Lemma SFltb_asym (a b : spec_float) : SFltb a b = true -> SFltb b a = false.
Proof.
  unfold SFltb, SFcompare.
  destruct a as [sa | sa | | sa ma ea], b as [sb | sb | | sb mb eb];
    try discriminate; try reflexivity;
    repeat match goal with s : bool |- _ => destruct s end;
    try discriminate; try reflexivity;
    intros H1; compare_cases; cbn in *;
    try discriminate; try reflexivity; subst; lia.
Qed.

Lemma float_gt_trans (a b c : float) :
  float_gt a b = true -> float_gt b c = true -> float_gt a c = true.
Proof.
  unfold float_gt. rewrite !ltb_spec. intros H1 H2. exact (SFltb_trans _ _ _ H2 H1).
Qed.

Lemma float_gt_asym (a b : float) : float_gt a b = true -> float_gt b a = false.
Proof. unfold float_gt. rewrite !ltb_spec. apply SFltb_asym. Qed.

Lemma float_gt_irrefl (a : float) : float_gt a a = false.
Proof.
  destruct (float_gt a a) eqn:E; [| reflexivity].
  rewrite (float_gt_asym _ _ E) in E. discriminate E.
Qed.

(** What [max] with a key returns: the start or an element that outweighs
    it, which no element outweighs. *)
Lemma max_by_weight_spec (rest : list ProphecyPath) (best : ProphecyPath) :
  let m := max_by_weight best rest in
  In m (best :: rest)
  /\ (m = best
      \/ float_gt (recommendation_weight m) (recommendation_weight best) = true)
  /\ (forall p, In p (best :: rest) ->
                float_gt (recommendation_weight p) (recommendation_weight m) = false).
Proof.
  cbv zeta. revert best. induction rest as [| q rest IH]; intros best.
  - cbn [max_by_weight]. split; [left; reflexivity |]. split; [left; reflexivity |].
    intros p [<- | []]. apply float_gt_irrefl.
  - cbn [max_by_weight].
    destruct (float_gt (recommendation_weight q) (recommendation_weight best)) eqn:E.
    + destruct (IH q) as (Hin & Hge & Hmax). split; [right; exact Hin |]. split.
      * right. destruct Hge as [-> | Hge]; [exact E |].
        exact (float_gt_trans _ _ _ Hge E).
      * intros p [Hp | Hp]; [subst p | exact (Hmax p Hp)].
        destruct (float_gt (recommendation_weight best)
                    (recommendation_weight (max_by_weight q rest))) eqn:Ep;
          [| reflexivity].
        rewrite <- (Hmax q (or_introl eq_refl)). symmetry.
        exact (float_gt_trans _ _ _ E Ep).
    + destruct (IH best) as (Hin & Hge & Hmax). split.
      * destruct Hin as [<- | Hin]; [left; reflexivity | right; right; exact Hin].
      * split; [exact Hge |].
        intros p [Hp | [Hp | Hp]];
          [subst p; apply Hmax; left; reflexivity | subst p
          | apply Hmax; right; exact Hp].
        destruct (float_gt (recommendation_weight q)
                    (recommendation_weight (max_by_weight best rest))) eqn:Eq;
          [| reflexivity].
        rewrite <- E. symmetry.
        destruct Hge as [Hge | Hge]; [rewrite Hge in Eq; exact Eq |].
        exact (float_gt_trans _ _ _ Eq Hge).
Qed.

Lemma approve_path_type (trust ratio rate amt : float) (tier : string) :
  path_type (_simulate_approve trust ratio rate amt tier) = "approve".
Proof.
  unfold _simulate_approve.
  destruct (float_ge rate 0.85), (float_ge rate 0.65), (float_gt ratio 0.90); reflexivity.
Qed.

Lemma escalate_path_type (trust ratio amt : float) (tier : string) :
  path_type (_simulate_escalate trust ratio amt tier) = "escalate".
Proof. unfold _simulate_escalate. destruct (PrimFloat.ltb trust 0.5); reflexivity. Qed.

(** X30.  The recommendation of a prophecy: the simulation always returns
    the three paths approve, deny and escalate, in this order, and the path
    it recommends is one of them that no other outweighs, whatever the
    inputs are, not-a-number included. *)
Theorem recommended_path_is_not_outweighed (agent action : string) (amt trust : float)
    (tier : string) (authority_limit success_rate : float) (why : string) (now : datetime) :
  let r := simulate agent action amt trust tier authority_limit success_rate why now in
  map path_type (paths r) = ["approve"; "deny"; "escalate"]
  /\ exists best,
       In best (paths r)
       /\ recommended_path r = path_type best
       /\ Forall (fun p => float_gt (recommendation_weight p) (recommendation_weight best)
                           = false) (paths r).
Proof.
  cbv zeta. unfold simulate. cbv zeta. cbn [paths recommended_path]. split.
  - cbn [map]. rewrite approve_path_type, escalate_path_type. reflexivity.
  - eexists. pose proof (max_by_weight_spec
      [_simulate_deny trust (if float_gt authority_limit 0 then (amt / authority_limit)%float else 1%float) amt tier;
       _simulate_escalate trust (if float_gt authority_limit 0 then (amt / authority_limit)%float else 1%float) amt tier]
      (_simulate_approve trust (if float_gt authority_limit 0 then (amt / authority_limit)%float else 1%float) success_rate amt tier)) as H.
    cbv zeta in H. destruct H as (Hin & _ & Hmax).
    split; [exact Hin |]. split; [reflexivity |].
    apply List.Forall_forall. exact Hmax.
Qed.

End Paths.

(** ** The further properties on sample data *)

Lemma flush_ledger_marks_the_backlog_synced_witness :
  (List.NoDup (map Edge.id (Edge._entries Samples.backlog))
   /\ Edge.get_unsynced Samples.backlog <> [])
  /\ fst (Edge.flush_ledger Samples.backlog (Edge.HttpResponse 200 [])) = Edge.Flushed 1
  /\ Edge.unsynced_count
       (snd (Edge.flush_ledger Samples.backlog (Edge.HttpResponse 200 []))) = 0.
Proof.
  assert (H1 : List.NoDup (map Edge.id (Edge._entries Samples.backlog))).
  { lazy. repeat constructor; cbn; intuition discriminate. }
  assert (H2 : Edge.get_unsynced Samples.backlog <> []).
  { intros H. apply (f_equal (@List.length _)) in H. lazy in H. discriminate H. }
  split; [split; assumption |].
  destruct (flush_ledger_marks_the_backlog_synced Samples.backlog [] H1 H2) as (H & H0 & _).
  rewrite H. split; [reflexivity | exact H0].
Defined.

Lemma failed_flushes_keep_the_backlog_witness :
  Forall Edge.exchange_failed Samples.outage
  /\ fold_left (fun l r => snd (Edge.flush_ledger l r)) Samples.outage Samples.backlog
     = Samples.backlog.
Proof.
  assert (H : Forall Edge.exchange_failed Samples.outage).
  { repeat constructor. cbn. discriminate. }
  split; [exact H |].
  exact (proj1 (failed_flushes_keep_the_backlog Samples.backlog Samples.outage H)).
Defined.

Lemma environment_denial_is_recorded_without_jti_witness :
  let g := Edge.boot Scenario.cfg in
  let stamp := Py.Datetime 1700000100250000 true in
  (Jwt.decode Scenario.jwt (Edge.passport_token Samples.from_cloud)
     (Edge.jwt_secret (Edge.verifier g)) (Edge.algorithm (Edge.verifier g)) 1700000100
   = Jwt.Decoded Scenario.alice
   /\ Py.py_in (Py.PStr "cloud") (Py.PList [Py.PStr "edge"]) = Some false)
  /\ fst (Edge.authorize Scenario.jwt Scenario.cfg g Samples.from_cloud 1700000100
            "decision-1" stamp)
     = Edge.Responded
         (Edge.mkAuthorizeResponse false (Py.PStr "deny") (Edge.PassportDoesNotPermit "cloud")
            (Py.PStr "agent-alice") (Py.PStr "T2") "edge-gateway-001" "online" "decision-1").
Proof.
  cbv zeta.
  assert (H1 : Jwt.decode Scenario.jwt (Edge.passport_token Samples.from_cloud)
                 (Edge.jwt_secret (Edge.verifier (Edge.boot Scenario.cfg)))
                 (Edge.algorithm (Edge.verifier (Edge.boot Scenario.cfg))) 1700000100
               = Jwt.Decoded Scenario.alice) by (vm_compute; reflexivity).
  split; [split; [exact H1 | reflexivity] |].
  pose proof (environment_denial_is_recorded_without_jti Scenario.jwt Scenario.cfg
                (Edge.boot Scenario.cfg) Samples.from_cloud 1700000100 "decision-1"
                (Py.Datetime 1700000100250000 true) Scenario.alice
                [("name", Py.PStr "agent-alice"); ("role", Py.PStr "settlement");
                 ("tier", Py.PStr "T2"); ("trust_score", Py.PFloat 0.8);
                 ("authority_limit", Py.PInt 50000);
                 ("allowed_environments", Py.PList [Py.PStr "edge"]);
                 ("dna_fingerprint", Py.PStr "no-genes"); ("status", Py.PStr "active")]
                H1 ltac:(vm_compute; reflexivity) eq_refl eq_refl) as H.
  cbv zeta in H. destruct H as (H & _). rewrite H. reflexivity.
Defined.

Lemma unknown_rule_types_allow_everything_witness :
  Forall Edge.unknown_rule_type (Edge._rules Samples.unknown_rules)
  /\ Edge.evaluate Samples.unknown_rules (Py.PStr "T4") (Py.PFloat 0.1) (Py.PInt 0)
       "delete" 9000000 []
     = Some (Edge.mkEnforcerVerdict (Py.PStr "allow") Edge.AllLocalPoliciesPassed 2).
Proof.
  assert (H : Forall Edge.unknown_rule_type (Edge._rules Samples.unknown_rules)).
  { repeat constructor; intros t Ht; cbn in Ht;
      repeat (destruct Ht as [<- | Ht]; [reflexivity |]); contradiction. }
  split; [exact H |].
  exact (unknown_rule_types_allow_everything Samples.unknown_rules (Py.PStr "T4")
           (Py.PFloat 0.1) (Py.PInt 0) "delete" 9000000 [] H).
Defined.


Lemma verifier_gives_claims_only_for_valid_tokens_witness :
  let v := Edge.new_PassportVerifier (Edge.JWT_SECRET Scenario.cfg) "" "HS256" in
  let token := Scenario.token_of Scenario.alice in
  Edge.verify Scenario.jwt v token 1700000100
  = Some (Edge.mkVerificationResult true Scenario.alice Edge.NoReason "online")
  /\ Jwt.decode Scenario.jwt token (Edge.jwt_secret v) (Edge.algorithm v) 1700000100
     = Jwt.Decoded Scenario.alice.
Proof.
  cbv zeta.
  assert (H : Edge.verify Scenario.jwt
                (Edge.new_PassportVerifier (Edge.JWT_SECRET Scenario.cfg) "" "HS256")
                (Scenario.token_of Scenario.alice) 1700000100
              = Some (Edge.mkVerificationResult true Scenario.alice Edge.NoReason "online"))
    by (vm_compute; reflexivity).
  split; [exact H |].
  pose proof (verifier_gives_claims_only_for_valid_tokens Scenario.jwt _ _ _ _ H) as Hv.
  cbn [Edge.valid Edge.claims] in Hv. destruct Hv as ((Hd & _) & _). exact Hd.
Defined.

Lemma issued_passport_is_judged_on_its_claims_witness :
  let J := Scenario.rotation_jwt 1700050000 in
  let p := Scenario.renewed 1700050000 in
  let now := Py.Datetime 1700050000000000 true in
  let g := Edge.boot Scenario.cfg in
  let token := Passport.issue J Scenario.service p now in
  Jwt.decode J token (Edge.jwt_secret (Edge.verifier g)) (Edge.algorithm (Edge.verifier g))
    1700050100
  = Jwt.Decoded (Passport.issue_payload p now)
  /\ fst (Edge.authorize J Scenario.cfg g
            (Edge.mkAuthorizeRequest token "write" "invoice-42" 45000 "client" [])
            1700050100 "decision-1" (Py.Datetime 1700050100000000 true))
     = Edge.Responded
         (Edge.mkAuthorizeResponse false (Py.PStr "deny") (Edge.PassportDoesNotPermit "client")
            (Py.PStr "agent-alice") (Py.PStr "T1") "edge-gateway-001" "online" "decision-1").
Proof.
  cbv zeta.
  assert (H1 : Jwt.decode (Scenario.rotation_jwt 1700050000)
                 (Passport.issue (Scenario.rotation_jwt 1700050000) Scenario.service
                    (Scenario.renewed 1700050000) (Py.Datetime 1700050000000000 true))
                 (Edge.jwt_secret (Edge.verifier (Edge.boot Scenario.cfg)))
                 (Edge.algorithm (Edge.verifier (Edge.boot Scenario.cfg))) 1700050100
               = Jwt.Decoded (Passport.issue_payload (Scenario.renewed 1700050000)
                                (Py.Datetime 1700050000000000 true)))
    by (vm_compute; reflexivity).
  split; [exact H1 |].
  pose proof (issued_passport_is_judged_on_its_claims (Scenario.rotation_jwt 1700050000)
                Scenario.cfg Scenario.service (Scenario.renewed 1700050000)
                (Py.Datetime 1700050000000000 true) (Edge.boot Scenario.cfg)
                "write" "invoice-42" 45000 "client" [] 1700050100 "decision-1"
                (Py.Datetime 1700050100000000 true) H1 ltac:(vm_compute; reflexivity)) as H.
  cbv zeta in H. rewrite H. reflexivity.
Defined.

Lemma sdk_returns_the_gateway_response_witness :
  let g := Edge.boot Scenario.cfg in
  let answer :=
    fst (Edge.authorize Scenario.jwt Scenario.cfg g
           (Sdk.request_of Samples.client "write" "invoice-42" 45000 None)
           1700000100 "decision-1" (Py.Datetime 1700000100250000 true)) in
  answer = Edge.Responded Samples.allowed
  /\ Sdk.authorized
       (fst (Sdk.authorize Samples.client (Sdk.exchange_of answer 1.25)))
     = Py.PBool true.
Proof.
  cbv zeta.
  assert (H : fst (Edge.authorize Scenario.jwt Scenario.cfg (Edge.boot Scenario.cfg)
                     (Sdk.request_of Samples.client "write" "invoice-42" 45000 None)
                     1700000100 "decision-1" (Py.Datetime 1700000100250000 true))
              = Edge.Responded Samples.allowed) by (vm_compute; reflexivity).
  split; [exact H |]. rewrite H.
  rewrite (sdk_returns_the_gateway_response Scenario.jwt Scenario.cfg Samples.client
             "write" "invoice-42" 45000 None (Edge.boot Scenario.cfg) 1700000100
             "decision-1" (Py.Datetime 1700000100250000 true) 1.25 Samples.allowed H).
  reflexivity.
Defined.

Lemma sdk_fails_open_on_a_refused_passport_witness :
  let g := Edge.boot Scenario.cfg in
  let answer :=
    fst (Edge.authorize Scenario.jwt Scenario.cfg g
           (Sdk.request_of Samples.client "write" "invoice-42" 45000 None)
           1700090000 "decision-1" (Py.Datetime 1700090000000000 true)) in
  Jwt.decode Scenario.jwt (Sdk.passport_token Samples.client)
    (Edge.jwt_secret (Edge.verifier g)) (Edge.algorithm (Edge.verifier g)) 1700090000
  = Jwt.ExpiredSignatureError
  /\ Sdk.authorized
       (fst (Sdk.authorize Samples.client (Sdk.exchange_of answer 1.25)))
     = Py.PBool true.
Proof.
  cbv zeta.
  assert (H : Jwt.decode Scenario.jwt (Sdk.passport_token Samples.client)
                (Edge.jwt_secret (Edge.verifier (Edge.boot Scenario.cfg)))
                (Edge.algorithm (Edge.verifier (Edge.boot Scenario.cfg))) 1700090000
              = Jwt.ExpiredSignatureError) by (vm_compute; reflexivity).
  split; [exact H |].
  pose proof (sdk_fails_open_on_a_refused_passport Scenario.jwt Scenario.cfg Samples.client
                "write" "invoice-42" 45000 None (Edge.boot Scenario.cfg) 1700090000
                "decision-1" (Py.Datetime 1700090000000000 true) 1.25) as Hs.
  rewrite H in Hs. cbv zeta in Hs. destruct (Hs I) as (_ & Ha & _). exact Ha.
Defined.


Lemma revocation_is_permanent_witness :
  let J := Scenario.rotation_jwt 1700050000 in
  Passport.is_revoked Samples.revoked_alice (Py.PStr "jti-alice") = Some true
  /\ Passport.is_revoked (Passport.run J Samples.revoked_alice Samples.later_calls)
       (Py.PStr "jti-alice") = Some true.
Proof.
  cbv zeta.
  assert (H : Passport.is_revoked Samples.revoked_alice (Py.PStr "jti-alice") = Some true)
    by reflexivity.
  split; [exact H |].
  exact (proj1 (revocation_is_permanent (Scenario.rotation_jwt 1700050000)
                  Samples.revoked_alice Samples.later_calls "jti-alice" H)).
Defined.

Lemma pushed_revocation_list_makes_the_gateway_agree_witness :
  let v := Edge.new_PassportVerifier (Edge.JWT_SECRET Scenario.cfg) "" "HS256" in
  let token := Scenario.token_of Scenario.alice in
  (Edge.as_strs (Passport.get_revocation_list Samples.revoked_alice) = Some ["jti-alice"]
   /\ Jwt.decode Scenario.jwt token (Passport.public_key Samples.revoked_alice)
        (Passport.algorithm Samples.revoked_alice) 1700000100
      = Jwt.Decoded Scenario.alice)
  /\ exists v',
       Edge.sync_revocation_list v
         (Edge.HttpResponse 200
            [("revoked_jtis", Py.PList (Passport.get_revocation_list Samples.revoked_alice))])
       = Some (Edge.Synced, v')
       /\ Edge.verify Scenario.jwt v' token 1700000100
          = Some (Edge.mkVerificationResult false [] Edge.PassportRevoked "online").
Proof.
  cbv zeta.
  assert (H1 : Edge.as_strs (Passport.get_revocation_list Samples.revoked_alice)
               = Some ["jti-alice"]) by reflexivity.
  assert (H2 : Jwt.decode Scenario.jwt (Scenario.token_of Scenario.alice)
                 (Passport.public_key Samples.revoked_alice)
                 (Passport.algorithm Samples.revoked_alice) 1700000100
               = Jwt.Decoded Scenario.alice) by (vm_compute; reflexivity).
  split; [split; assumption |].
  destruct (pushed_revocation_list_makes_the_gateway_agree Scenario.jwt Samples.revoked_alice
              (Edge.new_PassportVerifier (Edge.JWT_SECRET Scenario.cfg) "" "HS256")
              ["jti-alice"] (Scenario.token_of Scenario.alice) 1700000100 Scenario.alice
              "jti-alice" H1 eq_refl eq_refl H2 eq_refl) as (v' & Hs & _ & Hr).
  exists v'. split; [exact Hs |]. apply Hr. vm_compute. reflexivity.
Defined.

Lemma dna_fingerprint_ignores_order_and_other_fields_witness :
  let g1 := Samples.gene "negotiation" "skill" (Py.PFloat 0.875) "training" in
  let g2 := Samples.gene "audit" "trait" (Py.PInt 1) "mentor" in
  let g2' := Samples.gene "audit" "trait" (Py.PInt 1) "mutation" in
  Permutation (map Passport.gene_line [g1; g2]) (map Passport.gene_line [g2'; g1])
  /\ Passport.compute_dna_fingerprint [g1; g2] = Passport.compute_dna_fingerprint [g2'; g1].
Proof.
  cbv zeta.
  assert (H : Permutation
                (map Passport.gene_line
                   [Samples.gene "negotiation" "skill" (Py.PFloat 0.875) "training";
                    Samples.gene "audit" "trait" (Py.PInt 1) "mentor"])
                (map Passport.gene_line
                   [Samples.gene "audit" "trait" (Py.PInt 1) "mutation";
                    Samples.gene "negotiation" "skill" (Py.PFloat 0.875) "training"])).
  { change (map Passport.gene_line
              [Samples.gene "audit" "trait" (Py.PInt 1) "mutation";
               Samples.gene "negotiation" "skill" (Py.PFloat 0.875) "training"])
      with [Passport.gene_line (Samples.gene "audit" "trait" (Py.PInt 1) "mentor");
            Passport.gene_line (Samples.gene "negotiation" "skill" (Py.PFloat 0.875)
                                  "training")].
    apply perm_swap. }
  split; [exact H |].
  exact (dna_fingerprint_ignores_order_and_other_fields _ _ H).
Defined.

Lemma rollback_undoes_a_publication_witness :
  let now := Py.Datetime 1700003600000000 true in
  (Distribution._current Samples.one_bundle = Some Samples.first_bundle
   /\ Distribution.get_bundle_by_version Samples.one_bundle
        (Distribution.version Samples.first_bundle)
      = Some Samples.first_bundle)
  /\ fst (Distribution.rollback
            (snd (Distribution.create_bundle Samples.one_bundle [Scenario.rule_b] "" [] now
                    "bundle-2")) "")
     = Some Samples.first_bundle.
Proof.
  cbv zeta.
  assert (H1 : Distribution._current Samples.one_bundle = Some Samples.first_bundle)
    by reflexivity.
  assert (H2 : Distribution.version Samples.first_bundle <> "")
    by (lazy; discriminate).
  assert (H3 : Distribution.get_bundle_by_version Samples.one_bundle
                 (Distribution.version Samples.first_bundle)
               = Some Samples.first_bundle) by reflexivity.
  split; [split; assumption |].
  rewrite (rollback_undoes_a_publication Samples.one_bundle Samples.first_bundle
             [Scenario.rule_b] "" [] (Py.Datetime 1700003600000000 true) "bundle-2"
             H1 H2 H3).
  reflexivity.
Defined.

Lemma rule_parameters_replace_the_head_not_the_tail_witness :
  List.NoDup (map fst (Distribution.parameters Samples.retyped_rule))
  /\ Py.dict_get (Distribution.to_dict Samples.retyped_rule) "type"
     = Some (Py.PStr "status_check").
Proof.
  assert (H : List.NoDup (map fst (Distribution.parameters Samples.retyped_rule))).
  { cbn. repeat constructor; cbn; intuition discriminate. }
  split; [exact H |].
  rewrite (rule_parameters_replace_the_head_not_the_tail Samples.retyped_rule "type" H).
  reflexivity.
Defined.

Lemma registering_a_gateway_updates_staleness_witness :
  let svc := Distribution.register_gateway_sync Samples.one_bundle "edge-gateway-001"
               "v2023.11.14-001" in
  (Distribution._current svc = Some Samples.first_bundle
   /\ List.NoDup (map fst (Distribution._gateway_versions svc)))
  /\ In "edge-gateway-002"
       (Distribution.get_stale_gateways
          (Distribution.register_gateway_sync svc "edge-gateway-002" "v0")).
Proof.
  cbv zeta.
  assert (H1 : Distribution._current
                 (Distribution.register_gateway_sync Samples.one_bundle "edge-gateway-001"
                    "v2023.11.14-001")
               = Some Samples.first_bundle) by reflexivity.
  assert (H2 : List.NoDup
                 (map fst (Distribution._gateway_versions
                             (Distribution.register_gateway_sync Samples.one_bundle
                                "edge-gateway-001" "v2023.11.14-001")))).
  { cbn. repeat constructor. intros []. }
  split; [split; assumption |].
  apply (proj1 (registering_a_gateway_updates_staleness _ Samples.first_bundle
                  "edge-gateway-002" "v0" H1 H2)).
  lazy. discriminate.
Defined.





